(** * Astryx economy bot: the economy transaction engine

    A shallow embedding of the command handlers of the bot
    ([src/commands/daily.js], [work.js], [pay.js], [rob.js], [shop.js],
    [inventory.js], the helpers of [src/database.js] and the [/daily]
    command of the standalone single-file entry point), with the
    properties the specification states about them; then the display
    commands ([balance.js], [profile.js]), the component builders of
    [/inventory] and of the category menu of [/shop], and the dispatch of
    pressed buttons in [src/index.js], with further properties of the code
    (the ledger of the inventory, the cooldown tracker, the footprint of a
    request, the audit log, net worth, pages and buttons).

    Conventions of the embedding.
    - The tables of [scripts/001_create_economy_tables.sql] are the fields
      of the record [DB]; every handler is a function from the store to a
      new store and a reply (explicit state passing, one request at a
      time).
    - [bigint] and [int] columns are [Z]; JavaScript numbers that may hold
      a fraction ([decimal] columns read with [Number.parseFloat], effect
      values, [Math.random()]) are exact rationals [Q], so [Math.floor] is
      [Qfloor] and [Math.max] is [Qmax]; on integers [Math.floor (a / b)]
      is the division of [Z], which rounds down.
    - Time stamps are milliseconds since the epoch ([Z]); a request reads
      the clock once ([now]).
    - [Math.random()] and the identifier the store generates for a new
      inventory row are inputs of the request.
    - The store is available: the only rejected write that is modelled is
      a fractional number sent to an integer column.
    - A query hands its rows over in the order of the table; where only
      the rows a query returned matter (the items of a category), they are
      an argument. *)

From Stdlib Require Import ZArith QArith Qround Qminmax Lqa Lia Ascii.
From stdpp Require Import gmap strings list fin_maps.

Open Scope Z_scope.

(** ** Numbers *)

(** [a < b] and [a > b] on JavaScript numbers. *)
Definition Qltb (a b : Q) : bool := negb (Qle_bool b a).
Definition Qgtb (a b : Q) : bool := negb (Qle_bool a b).

(** What a [bigint] column accepts: a number without fractional part. *)
Definition as_bigint (q : Q) : option Z :=
  if Qeq_bool (inject_Z (Qfloor q)) q then Some (Qfloor q) else None.

(** [x || null] on a number that may be absent: zero is falsy. *)
Definition or_null (x : option Z) : option Z :=
  match x with
  | Some n => if decide (n = 0) then None else Some n
  | None => None
  end.

(** ** Data model *)

(** Row of [profiles] (the columns the handlers read or write). *)
Record Profile := mkProfile {
  coins : Z;
  xp : Z;
  level : Z;
  daily_streak : Z;
  last_daily : option Z;
  last_work : option Z;
  rob_attempts : Z
}.

(** The single row of [server_settings]. *)
Record Settings := mkSettings {
  daily_amount : Z;
  daily_cooldown_hours : Z;
  work_min_amount : Z;
  work_max_amount : Z;
  work_cooldown_hours : Z;
  rob_success_rate : Q;
  rob_cooldown_hours : Z;
  rob_penalty_percent : Q;
  xp_multiplier : Q
}.

(** The [effect] column of [items] (jsonb): a descriptor with a [type] tag;
    a field a descriptor does not carry reads as the empty string. *)
Module Effect.
Record t := mk {
  type : string;
  value : Q;
  command : string;
  effect : string
}.
End Effect.

(** Row of [items]. *)
Module Item.
Record t := mk {
  id : string;
  name : string;
  price : Z;
  effect : option Effect.t
}.
End Item.

(** Row of [inventory]. *)
Module Inv.
Record t := mk {
  id : string;
  user_id : string;
  item_id : string;
  quantity : Z
}.
End Inv.

(** Row of [inventory] joined with its item, as [getInventory] returns it
    ([invItem.id], [invItem.quantity], [invItem.items]). *)
Module InvItem.
Record t := mk {
  id : string;
  quantity : Z;
  items : Item.t
}.
End InvItem.

(** The [metadata] column of [transactions]. *)
Inductive Metadata :=
| MetaDaily (streak xp_gain : Z)
| MetaWork (base boost : Z) (tool : option string) (xp_gain : Z)
| MetaRob (success : bool) (defense : Q)
| MetaUse (effect : Effect.t).

(** Row of [transactions]. *)
Module Tx.
Record t := mk {
  user_id : string;
  type : string;
  amount : option Z;
  target_user_id : option string;
  item_id : option string;
  metadata : option Metadata;
  created_at : Z
}.
End Tx.

(** The store: [cooldowns] is keyed by its unique pair (user, command) and
    holds [expires_at]; [transactions] grows at its end. *)
Record DB := mkDB {
  profiles : gmap string Profile;
  items : list Item.t;
  inventory : list Inv.t;
  transactions : list Tx.t;
  cooldowns : gmap (string * string) Z;
  server_settings : Settings
}.

Definition with_profiles (f : gmap string Profile -> gmap string Profile) (db : DB) : DB :=
  mkDB (f (profiles db)) (items db) (inventory db) (transactions db) (cooldowns db)
       (server_settings db).

Definition with_inventory (f : list Inv.t -> list Inv.t) (db : DB) : DB :=
  mkDB (profiles db) (items db) (f (inventory db)) (transactions db) (cooldowns db)
       (server_settings db).

Definition with_transactions (f : list Tx.t -> list Tx.t) (db : DB) : DB :=
  mkDB (profiles db) (items db) (inventory db) (f (transactions db)) (cooldowns db)
       (server_settings db).

Definition with_cooldowns (f : gmap (string * string) Z -> gmap (string * string) Z)
  (db : DB) : DB :=
  mkDB (profiles db) (items db) (inventory db) (transactions db) (f (cooldowns db))
       (server_settings db).

Definition with_settings (s : Settings) (db : DB) : DB :=
  mkDB (profiles db) (items db) (inventory db) (transactions db) (cooldowns db) s.

(** ** database.js *)

(** The profile [getProfile] inserts for a user it does not know; the
    columns it does not name take the defaults of the table. *)
Definition newProfile : Profile := mkProfile 1000 0 1 0 None None 0.

Definition getProfile (userId : string) (db : DB) : DB * Profile :=
  match profiles db !! userId with
  | Some data => (db, data)
  | None => (with_profiles (insert userId newProfile) db, newProfile)
  end.

(** The object handed to [updateProfile]: the columns it names. *)
Record Updates := mkUpdates {
  u_coins : option Z;
  u_xp : option Z;
  u_level : option Z;
  u_daily_streak : option Z;
  u_last_daily : option Z;
  u_last_work : option Z;
  u_rob_attempts : option Z
}.

Definition apply_updates (u : Updates) (p : Profile) : Profile :=
  mkProfile
    (default (coins p) (u_coins u))
    (default (xp p) (u_xp u))
    (default (level p) (u_level u))
    (default (daily_streak p) (u_daily_streak u))
    (match u_last_daily u with Some t => Some t | None => last_daily p end)
    (match u_last_work u with Some t => Some t | None => last_work p end)
    (default (rob_attempts p) (u_rob_attempts u)).

(** [updateProfile]: the row of [userId] takes the named columns. Every
    handler fetches the profile with [getProfile] first, so the row exists;
    without a row nothing is written. *)
Definition updateProfile (userId : string) (updates : Updates) (db : DB) : DB :=
  match profiles db !! userId with
  | Some p => with_profiles (insert userId (apply_updates updates p)) db
  | None => db
  end.

(** The object handed to [logTransaction]. *)
Record TxRequest := mkTxRequest {
  t_userId : string;
  t_type : string;
  t_amount : option Z;
  t_targetUserId : option string;
  t_itemId : option string;
  t_metadata : option Metadata
}.

Definition logTransaction (now : Z) (transaction : TxRequest) (db : DB) : DB :=
  with_transactions
    (fun l => l ++ [Tx.mk (t_userId transaction) (t_type transaction)
                          (or_null (t_amount transaction))
                          (t_targetUserId transaction) (t_itemId transaction)
                          (t_metadata transaction) now]) db.

(** [checkCooldown]: [Some expiresAt] when on cooldown; an expired row is
    deleted on the way. *)
Definition checkCooldown (now : Z) (userId command : string) (db : DB) : DB * option Z :=
  match cooldowns db !! (userId, command) with
  | None => (db, None)
  | Some expiresAt =>
      if now <? expiresAt then (db, Some expiresAt)
      else (with_cooldowns (delete (userId, command)) db, None)
  end.

Definition ms_per_hour : Z := 3600000.

(** [expiresAt.setHours (expiresAt.getHours () + hours)]: [setHours] keeps
    the integral part of its argument, so the clock moves by the whole
    hours of [hours]. *)
Definition cooldown_expiry (now : Z) (hours : Q) : Z := now + Qfloor hours * ms_per_hour.

(** [setCooldown]: the row of (user, command) is written (upsert). *)
Definition setCooldown (now : Z) (userId command : string) (hours : Q) (db : DB) : DB :=
  with_cooldowns (insert (userId, command) (cooldown_expiry now hours)) db.

Definition getServerSettings (db : DB) : Settings := server_settings db.

Definition getItems (db : DB) : list Item.t := items db.

(** [getInventory]: the rows of the user, each with its item (the foreign
    key of [item_id] makes the item exist). *)
Definition join_item (its : list Item.t) (r : Inv.t) : option InvItem.t :=
  match find (fun i => bool_decide (Item.id i = Inv.item_id r)) its with
  | Some i => Some (InvItem.mk (Inv.id r) (Inv.quantity r) i)
  | None => None
  end.

Definition owned_by (userId : string) (r : Inv.t) : bool :=
  bool_decide (Inv.user_id r = userId).

Definition getInventory (userId : string) (db : DB) : list InvItem.t :=
  omap (join_item (items db)) (filter (fun r => owned_by userId r = true) (inventory db)).

(** The row of (user, item), unique in the table. *)
Definition is_row (userId itemId : string) (r : Inv.t) : bool :=
  bool_decide (Inv.user_id r = userId) && bool_decide (Inv.item_id r = itemId).

Definition set_quantity (userId itemId : string) (q : Z) (r : Inv.t) : Inv.t :=
  if is_row userId itemId r then Inv.mk (Inv.id r) (Inv.user_id r) (Inv.item_id r) q else r.

(** [addToInventory]; [fresh] is the identifier the store gives a new row. *)
Definition addToInventory (fresh userId itemId : string) (quantity : Z) (db : DB) : DB :=
  match find (is_row userId itemId) (inventory db) with
  | Some existing =>
      with_inventory (map (set_quantity userId itemId (Inv.quantity existing + quantity))) db
  | None =>
      with_inventory (fun l => l ++ [Inv.mk fresh userId itemId quantity]) db
  end.

(** [removeFromInventory]; [None] is the error it raises without a row. *)
Definition removeFromInventory (userId itemId : string) (quantity : Z) (db : DB) : option DB :=
  match find (is_row userId itemId) (inventory db) with
  | None => None
  | Some existing =>
      if Inv.quantity existing <=? quantity
      then Some (with_inventory (filter (fun r => is_row userId itemId r = false)) db)
      else Some (with_inventory
                   (map (set_quantity userId itemId (Inv.quantity existing - quantity))) db)
  end.

(** ** Replies *)

(** What a handler hands to [interaction.editReply], by kind of message,
    with the numbers the message shows. *)
Inductive Reply :=
| OnCooldown (timeLeft : Z)
| AlreadyClaimed
| DailyClaimed (totalAmount xpGain baseAmount streakBonus newStreak newLevel : Z)
| WorkComplete (totalAmount xpGain baseAmount boostAmount : Z) (bestTool : option string)
    (newLevel : Z) (cooldownHours : Q)
| CannotPaySelf
| CannotPayBots
| NotEnoughCoins (have : Z)
| PaymentSuccessful (senderBalance recipientBalance : Z)
| CannotRobSelf
| CannotRobBots
| TargetTooPoor
| RobberTooPoor
| RobberySuccessful (robAmount robberBalance targetBalance : Z)
| RobberyFailed (penaltyAmount robberBalance : Z) (defense : Q)
| ItemNotFound
| CannotAfford (price have : Z)
| PurchaseSuccessful (price remaining : Z)
| NotInInventory
| ItemSold (sellPrice newBalance : Z)
| CannotBeUsed
| GainedXP (value : Q) (newLevel : Z)
| CoinBonus (boostAmount : Z)
| CooldownReduced (command : string) (value : Q)
| ItemUsed
| ErrorReply
| NoReply.

(** [(later - earlier) / 1000 / 60 / 60]. *)
Definition hours_between (later earlier : Z) : Q :=
  (inject_Z (later - earlier) / 1000 / 60 / 60)%Q.

Definition minutes_between (later earlier : Z) : Q :=
  (inject_Z (later - earlier) / 1000 / 60)%Q.

(** ** commands/daily.js *)

(** The streak of a claim; [None] is the early return "You already claimed
    your daily reward!". *)
Definition daily_newStreak (now : Z) (profile : Profile) : option Z :=
  match last_daily profile with
  | None => Some 0
  | Some lastDaily =>
      let hoursSinceDaily := hours_between now lastDaily in
      if Qle_bool 24 hoursSinceDaily && Qle_bool hoursSinceDaily 48
      then Some (daily_streak profile + 1)
      else if Qltb hoursSinceDaily 24 then None
      else Some 0
  end.

(** From "Calculate reward with streak bonus" to the reply; the modular
    file and the standalone file have the same text here. *)
Definition daily_reward (now : Z) (userId : string) (profile : Profile) (settings : Settings)
  (newStreak : Z) (db : DB) : DB * Reply :=
  let baseAmount := daily_amount settings in
  let streakBonus := Z.min (newStreak * 50) 500 in
  let totalAmount := baseAmount + streakBonus in
  let xpGain := 10 in
  let newXP := xp profile + xpGain in
  let newLevel := newXP / 1000 + 1 in
  let db := updateProfile userId
              (mkUpdates (Some (coins profile + totalAmount)) (Some newXP) (Some newLevel)
                         (Some newStreak) (Some now) None None) db in
  let db := setCooldown now userId "daily" (inject_Z (daily_cooldown_hours settings)) db in
  let db := logTransaction now
              (mkTxRequest userId "daily" (Some totalAmount) None None
                           (Some (MetaDaily newStreak xpGain))) db in
  (db, DailyClaimed totalAmount xpGain baseAmount streakBonus newStreak newLevel).

Definition daily_execute (now : Z) (userId : string) (db : DB) : DB * Reply :=
  let '(db, cooldown) := checkCooldown now userId "daily" db in
  match cooldown with
  | Some expiresAt => (db, OnCooldown (Qceiling (hours_between expiresAt now)))
  | None =>
      let '(db, profile) := getProfile userId db in
      let settings := getServerSettings db in
      match daily_newStreak now profile with
      | None => (db, AlreadyClaimed)
      | Some newStreak => daily_reward now userId profile settings newStreak db
      end
  end.

(** ** The standalone entry point: [dailyCommand.execute] *)

Definition dailyCommand_newStreak (now : Z) (profile : Profile) : Z :=
  match last_daily profile with
  | None => 0
  | Some lastDaily =>
      let hoursSinceDaily := hours_between now lastDaily in
      if Qle_bool 24 hoursSinceDaily && Qle_bool hoursSinceDaily 48
      then daily_streak profile + 1
      else 0
  end.


(** ** commands/work.js *)

(** [item.effect && item.effect.type === ty]: the effect of the item when
    it has one of that type. *)
Definition effect_of_type (ty : string) (item : Item.t) : option Effect.t :=
  match Item.effect item with
  | Some effect => if decide (Effect.type effect = ty) then Some effect else None
  | None => None
  end.

(** "Calculate boost from tools": one turn of the loop on
    [(totalBoost, bestTool)]. *)
Definition work_boost_step (acc : Q * option string) (invItem : InvItem.t) : Q * option string :=
  match effect_of_type "work_boost" (InvItem.items invItem) with
  | Some effect =>
      if Qgtb (Effect.value effect) (fst acc)
      then (Effect.value effect, Some (Item.name (InvItem.items invItem)))
      else acc
  | None => acc
  end.

Definition work_boost (inventory : list InvItem.t) : Q * option string :=
  fold_left work_boost_step inventory (0%Q, None).

(** "Check for cooldown reduction items": one turn of the loop on
    [cooldownHours]. *)
Definition work_cooldown_step (cooldownHours : Q) (invItem : InvItem.t) : Q :=
  match effect_of_type "cooldown_reduction" (InvItem.items invItem) with
  | Some effect =>
      if decide (Effect.command effect = "work")
      then Qmax 1 (cooldownHours - Effect.value effect)
      else cooldownHours
  | None => cooldownHours
  end.

Definition work_cooldownHours (settings : Settings) (inventory : list InvItem.t) : Q :=
  fold_left work_cooldown_step inventory (inject_Z (work_cooldown_hours settings)).

Definition work_baseAmount (settings : Settings) (random : Q) : Z :=
  Qfloor (random * inject_Z (work_max_amount settings - work_min_amount settings + 1)
          + inject_Z (work_min_amount settings)).

Definition work_execute (now : Z) (random : Q) (userId : string) (db : DB) : DB * Reply :=
  let '(db, cooldown) := checkCooldown now userId "work" db in
  match cooldown with
  | Some expiresAt => (db, OnCooldown (Qceiling (minutes_between expiresAt now)))
  | None =>
      let '(db, profile) := getProfile userId db in
      let settings := getServerSettings db in
      let inventory := getInventory userId db in
      let baseAmount := work_baseAmount settings random in
      let '(totalBoost, bestTool) := work_boost inventory in
      let boostAmount := Qfloor (inject_Z baseAmount * totalBoost) in
      let totalAmount := baseAmount + boostAmount in
      let xpGain := totalAmount / 10 in
      let newXP := xp profile + xpGain in
      let newLevel := newXP / 1000 + 1 in
      let db := updateProfile userId
                  (mkUpdates (Some (coins profile + totalAmount)) (Some newXP) (Some newLevel)
                             None None (Some now) None) db in
      let cooldownHours := work_cooldownHours settings inventory in
      let db := setCooldown now userId "work" cooldownHours db in
      let db := logTransaction now
                  (mkTxRequest userId "work" (Some totalAmount) None None
                               (Some (MetaWork baseAmount boostAmount bestTool xpGain))) db in
      (db, WorkComplete totalAmount xpGain baseAmount boostAmount bestTool newLevel
                        cooldownHours)
  end.

(** ** commands/pay.js *)

(** [amount] is the integer option of the command, declared with
    [setMinValue(1)]; [recipient_bot] is [recipient.bot]. *)
Definition pay_execute (now : Z) (sender recipient : string) (recipient_bot : bool)
  (amount : Z) (db : DB) : DB * Reply :=
  if decide (sender = recipient) then (db, CannotPaySelf)
  else if recipient_bot then (db, CannotPayBots)
  else
    let '(db, senderProfile) := getProfile sender db in
    let '(db, recipientProfile) := getProfile recipient db in
    if coins senderProfile <? amount then (db, NotEnoughCoins (coins senderProfile))
    else
      let db := updateProfile sender
                  (mkUpdates (Some (coins senderProfile - amount)) None None None None None
                             None) db in
      let db := updateProfile recipient
                  (mkUpdates (Some (coins recipientProfile + amount)) None None None None None
                             None) db in
      let db := logTransaction now
                  (mkTxRequest sender "pay" (Some (- amount)) (Some recipient) None None) db in
      let db := logTransaction now
                  (mkTxRequest recipient "pay" (Some amount) (Some sender) None None) db in
      (db, PaymentSuccessful (coins senderProfile - amount) (coins recipientProfile + amount)).

(** ** commands/rob.js *)

(** "Calculate rob defense from target's weapons": one turn of the loop on
    [targetDefense]. *)
Definition rob_defense_step (targetDefense : Q) (invItem : InvItem.t) : Q :=
  match effect_of_type "rob_defense" (InvItem.items invItem) with
  | Some effect => Qmax targetDefense (Effect.value effect)
  | None => targetDefense
  end.

Definition rob_targetDefense (targetInventory : list InvItem.t) : Q :=
  fold_left rob_defense_step targetInventory 0%Q.

Definition rob_actualSuccessRate (settings : Settings) (targetDefense : Q) : Q :=
  let baseSuccessRate := rob_success_rate settings in
  Qmax 0.1 (baseSuccessRate - targetDefense).

(** [random1] and [random2] are the two calls of [Math.random()], in the
    order of the source. *)
Definition rob_execute (now : Z) (random1 random2 : Q) (robber target : string)
  (target_bot : bool) (db : DB) : DB * Reply :=
  if decide (robber = target) then (db, CannotRobSelf)
  else if target_bot then (db, CannotRobBots)
  else
    let '(db, cooldown) := checkCooldown now robber "rob" db in
    match cooldown with
    | Some expiresAt => (db, OnCooldown (Qceiling (hours_between expiresAt now)))
    | None =>
        let '(db, robberProfile) := getProfile robber db in
        let '(db, targetProfile) := getProfile target db in
        let settings := getServerSettings db in
        let robberInventory := getInventory robber db in
        let targetInventory := getInventory target db in
        if coins targetProfile <? 500 then (db, TargetTooPoor)
        else if coins robberProfile <? 100 then (db, RobberTooPoor)
        else
          let targetDefense := rob_targetDefense targetInventory in
          let actualSuccessRate := rob_actualSuccessRate settings targetDefense in
          let success := Qltb random1 actualSuccessRate in
          let percentage := (random2 * 0.2 + 0.1)%Q in
          let robAmount := Qfloor (inject_Z (coins targetProfile) * percentage) in
          if success then
            let db := updateProfile robber
                        (mkUpdates (Some (coins robberProfile + robAmount)) None None None
                                   None None (Some (rob_attempts robberProfile + 1))) db in
            let db := updateProfile target
                        (mkUpdates (Some (coins targetProfile - robAmount)) None None None
                                   None None None) db in
            let db := logTransaction now
                        (mkTxRequest robber "rob" (Some robAmount) (Some target) None
                                     (Some (MetaRob true targetDefense))) db in
            let db := setCooldown now robber "rob"
                        (inject_Z (rob_cooldown_hours settings)) db in
            (db, RobberySuccessful robAmount (coins robberProfile + robAmount)
                                   (coins targetProfile - robAmount))
          else
            let penaltyAmount :=
              Qfloor (inject_Z (coins robberProfile) * rob_penalty_percent settings) in
            let db := updateProfile robber
                        (mkUpdates (Some (coins robberProfile - penaltyAmount)) None None None
                                   None None (Some (rob_attempts robberProfile + 1))) db in
            let db := logTransaction now
                        (mkTxRequest robber "rob" (Some (- penaltyAmount)) (Some target) None
                                     (Some (MetaRob false targetDefense))) db in
            let db := setCooldown now robber "rob"
                        (inject_Z (rob_cooldown_hours settings)) db in
            (db, RobberyFailed penaltyAmount (coins robberProfile - penaltyAmount)
                               targetDefense)
    end.

(** ** commands/shop.js: the purchase button *)

(** [itemId] is the third part of the button's [customId]; [fresh] is the
    identifier the store gives the inventory row if one is inserted. *)
Definition shop_handleButton (now : Z) (fresh userId itemId : string) (db : DB) : DB * Reply :=
  let items := getItems db in
  match find (fun i => bool_decide (Item.id i = itemId)) items with
  | None => (db, ItemNotFound)
  | Some item =>
      let '(db, profile) := getProfile userId db in
      if coins profile <? Item.price item
      then (db, CannotAfford (Item.price item) (coins profile))
      else
        let db := updateProfile userId
                    (mkUpdates (Some (coins profile - Item.price item)) None None None None
                               None None) db in
        let db := addToInventory fresh userId itemId 1 db in
        let db := logTransaction now
                    (mkTxRequest userId "shop_buy" (Some (- Item.price item)) None
                                 (Some itemId) None) db in
        (db, PurchaseSuccessful (Item.price item) (coins profile - Item.price item))
  end.

(** ** commands/inventory.js: the sell and use buttons *)

Definition sellPrice_of (item : Item.t) : Z := Qfloor (inject_Z (Item.price item) * 0.6).

(** The branch [action === "sell"]. The three calls of [Promise.all] all
    run; when [removeFromInventory] raises, the reply is the error message
    of the [catch] block. *)
Definition inventory_sell (now : Z) (userId : string) (item : Item.t) (db : DB) : DB * Reply :=
  let sellPrice := sellPrice_of item in
  let '(db, profile) := getProfile userId db in
  let db := updateProfile userId
              (mkUpdates (Some (coins profile + sellPrice)) None None None None None None)
              db in
  let removed := removeFromInventory userId (Item.id item) 1 db in
  let db := logTransaction now
              (mkTxRequest userId "shop_sell" (Some sellPrice) None (Some (Item.id item))
                           None) (default db removed) in
  match removed with
  | Some _ => (db, ItemSold sellPrice (coins profile + sellPrice))
  | None => (db, ErrorReply)
  end.

(** "Remove item from inventory" and what follows it in the branch
    [action === "use"]. *)
Definition inventory_consume (now : Z) (userId : string) (item : Item.t) (effect : Effect.t)
  (resultText : Reply) (db : DB) : DB * Reply :=
  match removeFromInventory userId (Item.id item) 1 db with
  | None => (db, ErrorReply)
  | Some db =>
      let db := logTransaction now
                  (mkTxRequest userId "use_item" None None (Some (Item.id item))
                               (Some (MetaUse effect))) db in
      (db, resultText)
  end.

(** The branch [action === "use"]. The [xp] column is a [bigint]: a
    fractional [newXP] is refused by the store, [updateProfile] raises and
    the [catch] block replies. *)
Definition inventory_use (now : Z) (userId : string) (item : Item.t) (db : DB) : DB * Reply :=
  match effect_of_type "consumable" item with
  | None => (db, CannotBeUsed)
  | Some effect =>
      let '(db, profile) := getProfile userId db in
      if decide (Effect.effect effect = "xp_grant") then
        let newXP := (inject_Z (xp profile) + Effect.value effect)%Q in
        let newLevel := Qfloor (newXP / 1000) + 1 in
        match as_bigint newXP with
        | None => (db, ErrorReply)
        | Some newXP' =>
            let db := updateProfile userId
                        (mkUpdates None (Some newXP') (Some newLevel) None None None None)
                        db in
            inventory_consume now userId item effect
              (GainedXP (Effect.value effect) newLevel) db
        end
      else if decide (Effect.effect effect = "daily_boost") then
        let boostAmount := 250 in
        let db := updateProfile userId
                    (mkUpdates (Some (coins profile + boostAmount)) None None None None None
                               None) db in
        inventory_consume now userId item effect (CoinBonus boostAmount) db
      else if decide (Effect.effect effect = "cooldown_restore") then
        inventory_consume now userId item effect
          (CooldownReduced (Effect.command effect) (Effect.value effect)) db
      else
        inventory_consume now userId item effect ItemUsed db
  end.

(** [action] and [invItemId] are the second and third part of the button's
    [customId]. *)
Definition inventory_handleButton (now : Z) (action invItemId userId : string) (db : DB)
  : DB * Reply :=
  let inventory := getInventory userId db in
  match find (fun i => bool_decide (InvItem.id i = invItemId)) inventory with
  | None => (db, NotInInventory)
  | Some invItem =>
      let item := InvItem.items invItem in
      if decide (action = "sell") then inventory_sell now userId item db
      else if decide (action = "use") then inventory_use now userId item db
      else (db, NoReply)
  end.

(** ** The action engine *)

(** A request: the action with its parameters, the random draws and the
    fresh row identifier it consumes. *)
Inductive Request :=
| Daily (userId : string)
| Work (userId : string) (random : Q)
| Pay (sender recipient : string) (recipient_bot : bool) (amount : Z)
| Rob (robber target : string) (target_bot : bool) (random1 random2 : Q)
| ShopBuy (userId itemId fresh : string)
| InventoryButton (userId action invItemId : string).

Definition handle (now : Z) (req : Request) (db : DB) : DB * Reply :=
  match req with
  | Daily userId => daily_execute now userId db
  | Work userId random => work_execute now random userId db
  | Pay sender recipient recipient_bot amount =>
      pay_execute now sender recipient recipient_bot amount db
  | Rob robber target target_bot random1 random2 =>
      rob_execute now random1 random2 robber target target_bot db
  | ShopBuy userId itemId fresh => shop_handleButton now fresh userId itemId db
  | InventoryButton userId action invItemId =>
      inventory_handleButton now action invItemId userId db
  end.

(** * The display commands and the buttons *)

(** ** commands/balance.js *)

(** The numbers the embed of [/balance] shows, but for the percentage,
    which the command computes on floating-point numbers. *)
Module BalanceEmbed.
Record t := mk {
  coins : Z;
  level : Z;
  xp : Z;
  daily_streak : Z;
  progressXP : Z;
  requiredXP : Z;
  rob_attempts : Z
}.
End BalanceEmbed.

(** [option_user] is the [user] option of the command and [user] the
    caller: [interaction.options.getUser("user") || interaction.user]. *)
Definition balance_execute (option_user : option string) (user : string) (db : DB)
  : DB * BalanceEmbed.t :=
  let targetUser := default user option_user in
  let '(db, profile) := getProfile targetUser db in
  let currentLevelXP := (level profile - 1) * 1000 in
  let nextLevelXP := level profile * 1000 in
  let progressXP := xp profile - currentLevelXP in
  let requiredXP := nextLevelXP - currentLevelXP in
  (db, BalanceEmbed.mk (coins profile) (level profile) (xp profile) (daily_streak profile)
                       progressXP requiredXP (rob_attempts profile)).

(** ** commands/profile.js *)

(** [inventory.reduce((sum, item) => sum + item.quantity, 0)]. *)
Definition profile_totalItems (inventory : list InvItem.t) : Z :=
  fold_left (fun sum item => sum + InvItem.quantity item) inventory 0.

(** "Calculate net worth": the loop on [inventoryValue]. *)
Definition profile_inventoryValue (inventory : list InvItem.t) : Z :=
  fold_left (fun inventoryValue invItem =>
               inventoryValue + Item.price (InvItem.items invItem) * InvItem.quantity invItem)
            inventory 0.

(** The numbers the embed of [/profile] shows. *)
Module ProfileEmbed.
Record t := mk {
  coins : Z;
  netWorth : Z;
  level : Z;
  xp : Z;
  progressXP : Z;
  requiredXP : Z;
  daily_streak : Z;
  totalItems : Z;
  uniqueItems : nat;
  rob_attempts : Z
}.
End ProfileEmbed.

Definition profile_execute (option_user : option string) (user : string) (db : DB)
  : DB * ProfileEmbed.t :=
  let targetUser := default user option_user in
  let '(db, profile) := getProfile targetUser db in
  let inventory := getInventory targetUser db in
  let currentLevelXP := (level profile - 1) * 1000 in
  let nextLevelXP := level profile * 1000 in
  let progressXP := xp profile - currentLevelXP in
  let requiredXP := nextLevelXP - currentLevelXP in
  let totalItems := profile_totalItems inventory in
  let uniqueItems := length inventory in
  let inventoryValue := profile_inventoryValue inventory in
  let netWorth := coins profile + inventoryValue in
  (db, ProfileEmbed.mk (coins profile) netWorth (level profile) (xp profile) progressXP
                       requiredXP (daily_streak profile) totalItems uniqueItems
                       (rob_attempts profile)).

(** ** Rows and pages *)

(** [l.slice(i, j)] for [i <= j]. *)
Definition slice {A : Type} (i j : nat) (l : list A) : list A := take (j - i)%nat (drop i l).

(** [for (let i = 0; i < l.length; i += size) acc.push(build(acc, l.slice(i, i + size)))],
    from the index [i] and the array [acc] on. With a positive [size] the
    loop makes at most [length l] turns; [fuel] bounds the turns. *)
Fixpoint slice_loop {A B : Type} (size : nat) (build : list B -> list A -> B) (l : list A)
  (fuel i : nat) (acc : list B) : list B :=
  match fuel with
  | O => acc
  | S fuel =>
      if (i <? length l)%nat
      then slice_loop size build l fuel (i + size)%nat
                      (acc ++ [build acc (slice i (i + size)%nat l)])
      else acc
  end.

(** ** Buttons *)

Inductive ButtonStyle := Primary | Danger | Success.

Module Button.
Record t := mk {
  customId : string;
  label : string;
  style : ButtonStyle
}.
End Button.

(** ** commands/inventory.js: the command *)

(** The suffix of the description of an entry. *)
Inductive EffectText := NoEffectText | ConsumableText | ActiveText.

(** One field of the embed: the name and quantity of its title, the effect
    tag and the sell price of its text. *)
Module InventoryField.
Record t := mk {
  name : string;
  quantity : Z;
  effectText : EffectText;
  sellPrice : Z
}.
End InventoryField.



(** "Create buttons": what one turn of the loop pushes. *)
Definition inventory_buttons_of (invItem : InvItem.t) : list Button.t :=
  let item := InvItem.items invItem in
  match effect_of_type "consumable" item with
  | Some _ =>
      [Button.mk ("inventory_use_" +:+ InvItem.id invItem) ("Use " +:+ Item.name item) Primary]
  | None => []
  end
  ++ [Button.mk ("inventory_sell_" +:+ InvItem.id invItem) ("Sell " +:+ Item.name item) Danger].


(** ** commands/shop.js: the category menu *)

(** A page: the numbers of its description "Page n/total" and its items. *)
Module ShopPage.
Record t := mk {
  number : nat;
  total : Z;
  items : list Item.t
}.
End ShopPage.

(** The loop that fills [pages]. *)
Definition shop_pages (items : list Item.t) : list ShopPage.t :=
  slice_loop 5
    (fun pages pageItems =>
       ShopPage.mk (length pages + 1)
                   (Qceiling (inject_Z (Z.of_nat (length items)) / 5)) pageItems)
    items (length items) 0 [].

Inductive Component :=
| ButtonRow (buttons : list Button.t)
| SelectRow (customId : string).

Inductive SelectReply :=
| ShopPageShown (page : ShopPage.t) (components : list Component)
| SelectError.

(** [handleSelect], from the rows [getItems(category)] returned. Without a
    first page, reading [pages[0].items] raises and the [catch] block
    follows up with the error message. *)
Definition shop_handleSelect (items : list Item.t) : SelectReply :=
  match shop_pages items with
  | [] => SelectError
  | page0 :: _ =>
      let buttons :=
        map (fun item => Button.mk ("shop_buy_" +:+ Item.id item) ("Buy " +:+ Item.name item)
                                   Success)
            (take 5 (ShopPage.items page0)) in
      let buttonRows :=
        slice_loop 5 (fun _ row => ButtonRow row) buttons (length buttons) 0 [] in
      ShopPageShown page0 (buttonRows ++ [SelectRow "shop_category"])
  end.

(** ** The buttons pressed: [customId] and the dispatch of [index.js] *)

(** [s.split("_")]. *)
Fixpoint split_underscore (s : string) : list string :=
  match s with
  | EmptyString => [EmptyString]
  | String c rest =>
      if Ascii.eqb c "_"%char then EmptyString :: split_underscore rest
      else
        match split_underscore rest with
        | part :: parts => String c part :: parts
        | [] => [String c EmptyString]
        end
  end.

(** [handleButton] of [shop.js] from the [customId]: the item is the third
    part; a missing part is [undefined], the id of no item. *)
Definition shop_button (now : Z) (fresh userId customId : string) (db : DB) : DB * Reply :=
  match split_underscore customId !! 2%nat with
  | Some itemId => shop_handleButton now fresh userId itemId db
  | None => (db, ItemNotFound)
  end.

(** [handleButton] of [inventory.js] from the [customId]:
    [const [, action, invItemId] = customId.split("_")]; a missing third
    part is [undefined], the id of no entry. *)
Definition inventory_button (now : Z) (userId customId : string) (db : DB) : DB * Reply :=
  let parts := split_underscore customId in
  match parts !! 2%nat with
  | Some invItemId =>
      inventory_handleButton now (default EmptyString (parts !! 1%nat)) invItemId userId db
  | None => (db, NotInInventory)
  end.

(** What pressing a button leads to: the reply of a button handler, the
    leaderboard redrawn for the type in the [customId] (it reads the
    accounts and writes nothing), or nothing at all. *)
Inductive ButtonOutcome :=
| Handled (reply : Reply)
| LeaderboardRedrawn (type : option string)
| Ignored.

(** The branch [interaction.isButton()] of the interaction handler:
    [client.commands.get(customId.split("_")[0])], then [handleButton] if
    the command has one. Of the commands, [shop], [inventory] and
    [leaderboard] have one. *)
Definition on_button (now : Z) (fresh userId customId : string) (db : DB)
  : DB * ButtonOutcome :=
  let parts := split_underscore customId in
  let commandName := default EmptyString (parts !! 0%nat) in
  if decide (commandName = "shop") then
    let '(db, reply) := shop_button now fresh userId customId db in (db, Handled reply)
  else if decide (commandName = "inventory") then
    let '(db, reply) := inventory_button now userId customId db in (db, Handled reply)
  else if decide (commandName = "leaderboard") then
    (db, LeaderboardRedrawn (parts !! 1%nat))
  else (db, Ignored).

(** A string without underscore, like the identifiers the store
    generates. *)
Fixpoint no_underscore (s : string) : bool :=
  match s with
  | EmptyString => true
  | String c rest => negb (Ascii.eqb c "_"%char) && no_underscore rest
  end.

(** * Notions of the specification *)

(** ** Effect resolution *)







(** ** The cooldown gate *)

(** A request that is not held back by the cooldown of [command]. *)
Definition passes_gate (now : Z) (userId command : string) (db : DB) : Prop :=
  snd (checkCooldown now userId command db) = None.

(** ** Daily *)



(** The account claimed before, is less than 24 hours past that claim, and
    the cooldown gate lets the request through. *)
Definition early_claim (now : Z) (userId : string) (db : DB) : Prop :=
  passes_gate now userId "daily" db /\
  exists lastDaily,
    last_daily (snd (getProfile userId db)) = Some lastDaily /\
    (hours_between now lastDaily < 24)%Q.

(** ** Rob *)

(** A rob attempt that passes validation: another user who is not a bot, no
    cooldown, and both balances at their thresholds. *)
Definition rob_validated (now : Z) (robber target : string) (target_bot : bool) (db : DB)
  : Prop :=
  robber <> target /\
  target_bot = false /\
  passes_gate now robber "rob" db /\
  500 <= coins (snd (getProfile target db)) /\
  100 <= coins (snd (getProfile robber db)).


(** ** Pay *)

(** The balance of a user as the engine reads it: an account is created on
    first reference, with the starting balance. *)
Definition balance (userId : string) (db : DB) : Z := coins (snd (getProfile userId db)).

(** ** Progression *)

(** [level == floor (xp / 1000) + 1]. *)
Definition level_formula (p : Profile) : Prop := level p = xp p / 1000 + 1.

Definition level_invariant (db : DB) : Prop :=
  forall u p, profiles db !! u = Some p -> level_formula p.

(** What an operation may do to the [xp] and [level] of a row: leave both,
    or write a level recomputed from the [xp] it writes. *)
Definition level_step (p p' : Profile) : Prop :=
  (xp p' = xp p /\ level p' = level p) \/ level_formula p'.

(** Every row of [db'] stems from its row in [db] by a [level_step]; a row
    that is new in [db'] satisfies the formula. *)
Definition level_kept (db db' : DB) : Prop :=
  forall u p',
    profiles db' !! u = Some p' ->
    match profiles db !! u with
    | Some p => level_step p p'
    | None => level_formula p'
    end.

(** An update names [xp] and [level] together, the level recomputed, or
    names neither. *)
Definition level_safe (updates : Updates) : Prop :=
  (u_xp updates = None /\ u_level updates = None) \/
  (exists x, u_xp updates = Some x /\ u_level updates = Some (x / 1000 + 1)).

(** ** Balances *)









(** ** The XP multiplier of the settings *)

(** The store with another [xp_multiplier] and nothing else changed. *)
Definition set_xp_multiplier (m : Q) (db : DB) : DB :=
  let s := server_settings db in
  with_settings
    (mkSettings (daily_amount s) (daily_cooldown_hours s) (work_min_amount s)
                (work_max_amount s) (work_cooldown_hours s) (rob_success_rate s)
                (rob_cooldown_hours s) (rob_penalty_percent s) m) db.

(** The XP of the account in the store. *)
Definition persisted_xp (userId : string) (db : DB) : option Z :=
  xp <$> profiles db !! userId.

(** * Example stores *)

(** The settings the migration script seeds. *)
Definition default_settings : Settings := mkSettings 500 24 100 500 4 0.40 12 0.20 1.00.


(** ** Items *)

Definition fishing_rod : Item.t :=
  Item.mk "item-1" "Fishing Rod" 2500 (Some (Effect.mk "work_boost" 0.10 "" "")).

Definition mining_pickaxe : Item.t :=
  Item.mk "item-2" "Mining Pickaxe" 12000 (Some (Effect.mk "work_boost" 0.25 "" "")).





Definition bronze_trophy : Item.t := Item.mk "item-7" "Bronze Trophy" 5000 None.

Definition xp_potion : Item.t :=
  Item.mk "item-8" "XP Boost Potion" 1000 (Some (Effect.mk "consumable" 500 "" "xp_grant")).

(** ** Stores *)

(** A new account that holds the two tools. *)
Definition tools_db : DB :=
  mkDB {[ "alice" := newProfile ]}
       [fishing_rod; mining_pickaxe]
       [Inv.mk "row-1" "alice" "item-1" 1; Inv.mk "row-2" "alice" "item-2" 1]
       [] ∅ default_settings.




(** An account with a streak of 3 whose last claim was at time 0, and no
    cooldown row. *)
Definition streak_db : DB :=
  mkDB {[ "alice" := mkProfile 1500 10 1 3 (Some 0) None 0 ]} [] [] [] ∅ default_settings.

(** The same account under a daily cooldown of 12 hours, with the row the
    last claim armed. *)
Definition short_cooldown_db : DB :=
  mkDB {[ "alice" := mkProfile 1500 10 1 3 (Some 0) None 0 ]} [] [] []
       {[ ("alice", "daily") := 12 * ms_per_hour ]}
       (mkSettings 500 12 100 500 4 0.40 12 0.20 1.00).

(** An account with 6000 coins in front of a catalog with one trophy. *)
Definition shop_db : DB :=
  mkDB {[ "alice" := mkProfile 6000 0 1 0 None None 0 ]} [bronze_trophy] [] [] ∅
       default_settings.



(** An account that holds one XP potion. *)
Definition potion_db : DB :=
  mkDB {[ "alice" := mkProfile 1000 700 1 0 None None 0 ]} [xp_potion]
       [Inv.mk "row-1" "alice" "item-8" 1] [] ∅ default_settings.

(** * Notions of the further properties *)

(** ** The inventory ledger *)

(** The quantity a user holds of an item: that of the row of the pair, and
    0 without a row. *)
Definition held_quantity (userId itemId : string) (db : DB) : Z :=
  match find (is_row userId itemId) (inventory db) with
  | Some r => Inv.quantity r
  | None => 0
  end.

Definition row_key (r : Inv.t) : string * string := (Inv.user_id r, Inv.item_id r).

(** One row per (user, item), as [unique(user_id, item_id)] demands, and no
    row with a quantity below 1. *)
Definition ledger_ok (rows : list Inv.t) : Prop :=
  NoDup (row_key <$> rows) /\ Forall (fun r => 1 <= Inv.quantity r) rows.

(** The rows of [userId], in the order of the table. *)
Definition rows_of (userId : string) (rows : list Inv.t) : list Inv.t :=
  filter (fun r => owned_by userId r = true) rows.

(** ** Who a request concerns *)

(** The users a request names: the caller and, for [/pay] and [/rob], the
    other side. *)
Definition parties (req : Request) : list string :=
  match req with
  | Daily userId => [userId]
  | Work userId _ => [userId]
  | Pay sender recipient _ _ => [sender; recipient]
  | Rob robber target _ _ _ => [robber; target]
  | ShopBuy userId _ _ => [userId]
  | InventoryButton userId _ _ => [userId]
  end.

(** The cooldown row a request checks and arms. *)
Definition gate_of (req : Request) : list (string * string) :=
  match req with
  | Daily userId => [(userId, "daily")]
  | Work userId _ => [(userId, "work")]
  | Rob robber _ _ _ _ => [(robber, "rob")]
  | _ => []
  end.

(** ** The audit log *)

(** The values the check constraint of [transactions.type] admits. *)
Definition tx_types : list string :=
  ["daily"; "work"; "pay"; "rob"; "shop_buy"; "shop_sell"; "use_item"; "admin"].

(** A record written at [now] on behalf of the users [us]: a type the table
    admits, the users among [us], and an amount that is null or not zero. *)
Definition tx_ok (now : Z) (us : list string) (t : Tx.t) : Prop :=
  Tx.created_at t = now /\
  Tx.type t ∈ tx_types /\
  Tx.user_id t ∈ us /\
  (forall v, Tx.target_user_id t = Some v -> v ∈ us) /\
  Tx.amount t <> Some 0.

(** ** The footprint of an operation *)

(** [db'] stems from [db] by writes at [now] that are confined to the users
    [us] and the cooldown rows [cs]: the catalog and the settings are the
    same, so are the accounts and the inventory rows of everybody else and
    every other cooldown row; the audit log grew at its end by records of
    [us]; the constraints of the inventory table still hold if they did. *)
Definition confined (now : Z) (us : list string) (cs : list (string * string))
  (db db' : DB) : Prop :=
  items db' = items db /\
  server_settings db' = server_settings db /\
  (forall u, u ∉ us -> profiles db' !! u = profiles db !! u) /\
  (forall k, k ∉ cs -> cooldowns db' !! k = cooldowns db !! k) /\
  (forall u, u ∉ us -> rows_of u (inventory db') = rows_of u (inventory db)) /\
  (exists new, transactions db' = transactions db ++ new /\ Forall (tx_ok now us) new) /\
  (ledger_ok (inventory db) -> ledger_ok (inventory db')).

(** ** Replies by kind *)

(** The replies with which [/rob] refuses an attempt. *)
Definition rob_rejection (r : Reply) : bool :=
  match r with
  | CannotRobSelf | CannotRobBots | OnCooldown _ | TargetTooPoor | RobberTooPoor => true
  | _ => false
  end.

(** The number a cooldown message shows. *)
Definition cooldown_shown (r : Reply) : option Z :=
  match r with
  | OnCooldown timeLeft => Some timeLeft
  | _ => None
  end.

(** ** Holdings *)

(** The holdings of an inventory under a weight per unit: with the price
    as weight this is the inventory value of [/profile], with weight 1 its
    number of items. *)
Definition holdings_total (w : Item.t -> Z) (inventory : list InvItem.t) : Z :=
  fold_left (fun acc invItem => acc + w (InvItem.items invItem) * InvItem.quantity invItem)
            inventory 0.

(** What one row of the table adds to the holdings of [userId]. *)
Definition row_worth (w : Item.t -> Z) (its : list Item.t) (userId : string) (r : Inv.t) : Z :=
  if owned_by userId r then
    match join_item its r with
    | Some invItem => w (InvItem.items invItem) * InvItem.quantity invItem
    | None => 0
    end
  else 0.

(** ** The seeded catalog *)

(** The effect types of the items [scripts/001_create_economy_tables.sql]
    seeds. *)
Definition seed_effect_types : list string :=
  ["work_boost"; "daily_boost"; "rob_boost"; "cooldown_reset"; "instant_coins";
   "rob_protection"; "xp_boost"; "streak_protection"].

(** A catalog whose effects are of the seeded types. *)
Definition seeded_catalog (db : DB) : Prop :=
  forall item effect,
    item ∈ items db -> Item.effect item = Some effect ->
    Effect.type effect ∈ seed_effect_types.

(** ** Further example stores *)

(** A consumable that announces a shorter [/work] cooldown. *)
Definition energy_tonic : Item.t :=
  Item.mk "item-9" "Energy Tonic" 200 (Some (Effect.mk "consumable" 1 "work" "cooldown_restore")).

(** An account on [/work] cooldown that holds one tonic. *)
Definition tonic_db : DB :=
  mkDB {[ "alice" := newProfile ]} [energy_tonic] [Inv.mk "row-1" "alice" "item-9" 1] []
       {[ ("alice", "work") := 4 * ms_per_hour ]} default_settings.

(** Two seeded consumables, as the script inserts them. *)
Definition energy_drink : Item.t :=
  Item.mk "item-10" "Energy Drink" 3000 (Some (Effect.mk "cooldown_reset" 0 "work" "")).

Definition coin_pouch : Item.t :=
  Item.mk "item-11" "Coin Pouch" 4000 (Some (Effect.mk "instant_coins" 5000 "" "")).

(** An account that holds both. *)
Definition seeded_db : DB :=
  mkDB {[ "alice" := newProfile ]} [energy_drink; coin_pouch]
       [Inv.mk "row-1" "alice" "item-10" 1; Inv.mk "row-2" "alice" "item-11" 2] [] ∅
       default_settings.

(** * Properties *)

(** ** Numbers *)

Lemma Qltb_lt (a b : Q) : Qltb a b = true <-> (a < b)%Q.
Proof.
  unfold Qltb. rewrite negb_true_iff. split.
  - intros H. apply Qnot_le_lt. intros Hle. apply Qle_bool_iff in Hle. congruence.
  - intros H. destruct (Qle_bool b a) eqn:E; [|reflexivity].
    apply Qle_bool_iff in E. exfalso. apply (Qlt_not_le _ _ H E).
Qed.






(** [Math.floor (x / 1000)] on an integer [x]. *)
Lemma Qfloor_div_1000 (x : Z) : Qfloor (inject_Z x / 1000) = x / 1000.
Proof.
  unfold Qdiv, Qmult, Qinv, inject_Z. simpl. rewrite Z.mul_1_r. reflexivity.
Qed.



Lemma as_bigint_Some (q : Q) (z : Z) : as_bigint q = Some z -> q == inject_Z z.
Proof.
  unfold as_bigint. destruct (Qeq_bool _ _) eqn:E; [|discriminate].
  intros [= <-]. apply Qeq_bool_eq in E. symmetry. exact E.
Qed.

(** ** The store after the helpers of database.js *)

Lemma getProfile_lookup (userId : string) (db : DB) :
  profiles (fst (getProfile userId db)) !! userId = Some (snd (getProfile userId db)).
Proof.
  unfold getProfile. destruct (profiles db !! userId) eqn:E; simpl.
  - exact E.
  - apply lookup_insert_eq.
Qed.

Lemma getProfile_other (userId u : string) (db : DB) :
  u <> userId ->
  profiles (fst (getProfile userId db)) !! u = profiles db !! u.
Proof.
  intros Hne. unfold getProfile. destruct (profiles db !! userId); simpl; [reflexivity|].
  apply lookup_insert_ne. congruence.
Qed.

Lemma getProfile_frame (userId : string) (db : DB) :
  items (fst (getProfile userId db)) = items db /\
  inventory (fst (getProfile userId db)) = inventory db /\
  transactions (fst (getProfile userId db)) = transactions db /\
  cooldowns (fst (getProfile userId db)) = cooldowns db /\
  server_settings (fst (getProfile userId db)) = server_settings db.
Proof.
  unfold getProfile. destruct (profiles db !! userId); simpl; auto.
Qed.

Lemma checkCooldown_frame (now : Z) (userId command : string) (db : DB) :
  profiles (fst (checkCooldown now userId command db)) = profiles db /\
  items (fst (checkCooldown now userId command db)) = items db /\
  inventory (fst (checkCooldown now userId command db)) = inventory db /\
  transactions (fst (checkCooldown now userId command db)) = transactions db /\
  server_settings (fst (checkCooldown now userId command db)) = server_settings db.
Proof.
  unfold checkCooldown. destruct (cooldowns db !! (userId, command)); simpl; auto.
  destruct (now <? z); simpl; auto.
Qed.

Lemma updateProfile_lookup (userId : string) (updates : Updates) (db : DB) (p : Profile) :
  profiles db !! userId = Some p ->
  profiles (updateProfile userId updates db) !! userId = Some (apply_updates updates p).
Proof.
  intros H. unfold updateProfile. rewrite H. simpl. apply lookup_insert_eq.
Qed.

Lemma updateProfile_other (userId u : string) (updates : Updates) (db : DB) :
  u <> userId ->
  profiles (updateProfile userId updates db) !! u = profiles db !! u.
Proof.
  intros Hne. unfold updateProfile. destruct (profiles db !! userId); simpl; [|reflexivity].
  apply lookup_insert_ne. congruence.
Qed.

Lemma getInventory_ext (userId : string) (db db' : DB) :
  items db' = items db -> inventory db' = inventory db ->
  getInventory userId db' = getInventory userId db.
Proof.
  intros Hi Hv. unfold getInventory. rewrite Hi, Hv. reflexivity.
Qed.

(** ** Work boost: the best tool applies *)








Lemma getProfile_after_gate (now : Z) (userId command : string) (db : DB) :
  snd (getProfile userId (fst (checkCooldown now userId command db)))
  = snd (getProfile userId db).
Proof.
  unfold getProfile.
  destruct (checkCooldown_frame now userId command db) as (-> & _).
  destruct (profiles db !! userId); reflexivity.
Qed.


Lemma settings_after_gate (now : Z) (userId command : string) (db : DB) :
  server_settings (fst (getProfile userId (fst (checkCooldown now userId command db))))
  = server_settings db.
Proof.
  destruct (getProfile_frame userId (fst (checkCooldown now userId command db)))
    as (_ & _ & _ & _ & Hs).
  destruct (checkCooldown_frame now userId command db) as (_ & _ & _ & _ & Hs').
  congruence.
Qed.




(** ** Work cooldown: reductions add up, down to one hour *)










(** ** Rob: the defense of the target, and the floor of 10 % *)




Lemma getProfile_twice (u1 u2 : string) (db : DB) :
  u1 <> u2 ->
  snd (getProfile u2 (fst (getProfile u1 db))) = snd (getProfile u2 db).
Proof.
  intros Hne. unfold getProfile at 1 3.
  rewrite (getProfile_other u1 u2 db) by congruence.
  destruct (profiles db !! u2); reflexivity.
Qed.

(** [/rob] past validation, in terms of the store it started from. *)
Lemma rob_execute_resolved (now : Z) (random1 random2 : Q) (robber target : string)
  (target_bot : bool) (db : DB) :
  rob_validated now robber target target_bot db ->
  let db2 := fst (getProfile target
                    (fst (getProfile robber (fst (checkCooldown now robber "rob" db))))) in
  let robberProfile := snd (getProfile robber db) in
  let targetProfile := snd (getProfile target db) in
  let settings := server_settings db in
  let targetDefense := rob_targetDefense (getInventory target db) in
  let actualSuccessRate := rob_actualSuccessRate settings targetDefense in
  let robAmount := Qfloor (inject_Z (coins targetProfile) * (random2 * 0.2 + 0.1)) in
  let penaltyAmount :=
    Qfloor (inject_Z (coins robberProfile) * rob_penalty_percent settings) in
  rob_execute now random1 random2 robber target target_bot db =
  if Qltb random1 actualSuccessRate then
    (setCooldown now robber "rob" (inject_Z (rob_cooldown_hours settings))
       (logTransaction now
          (mkTxRequest robber "rob" (Some robAmount) (Some target) None
                       (Some (MetaRob true targetDefense)))
          (updateProfile target
             (mkUpdates (Some (coins targetProfile - robAmount)) None None None None None
                        None)
             (updateProfile robber
                (mkUpdates (Some (coins robberProfile + robAmount)) None None None None
                           None (Some (rob_attempts robberProfile + 1))) db2))),
     RobberySuccessful robAmount (coins robberProfile + robAmount)
                       (coins targetProfile - robAmount))
  else
    (setCooldown now robber "rob" (inject_Z (rob_cooldown_hours settings))
       (logTransaction now
          (mkTxRequest robber "rob" (Some (- penaltyAmount)) (Some target) None
                       (Some (MetaRob false targetDefense)))
          (updateProfile robber
             (mkUpdates (Some (coins robberProfile - penaltyAmount)) None None None None
                        None (Some (rob_attempts robberProfile + 1))) db2)),
     RobberyFailed penaltyAmount (coins robberProfile - penaltyAmount) targetDefense).
Proof.
  intros (Hne & -> & Hgate & Ht & Hr). unfold passes_gate in Hgate. unfold rob_execute.
  destruct (decide (robber = target)) as [|_]; [contradiction|].
  pose proof (getProfile_after_gate now robber "rob" db) as Hp.
  destruct (checkCooldown_frame now robber "rob" db) as (Hps & Hi & Hv & _ & Hs).
  destruct (checkCooldown now robber "rob" db) as [db0 c]. simpl in *. subst c.
  pose proof (getProfile_twice robber target db0 Hne) as Hp2.
  destruct (getProfile_frame robber db0) as (Hi1 & Hv1 & _ & _ & Hs1).
  destruct (getProfile robber db0) as [db1 robberProfile]. simpl in *. subst robberProfile.
  destruct (getProfile_frame target db1) as (Hi2 & Hv2 & _ & _ & Hs2).
  assert (Hpt : snd (getProfile target db0) = snd (getProfile target db)).
  { unfold getProfile. rewrite Hps. destruct (profiles db !! target); reflexivity. }
  destruct (getProfile target db1) as [db2 targetProfile]. simpl in *.
  rewrite Hpt in Hp2. subst targetProfile.
  assert (Hinv : getInventory target db2 = getInventory target db).
  { apply getInventory_ext; congruence. }
  unfold getServerSettings. rewrite Hinv.
  replace (server_settings db2) with (server_settings db) by congruence.
  destruct (Z.ltb_spec (coins (snd (getProfile target db))) 500); [lia|].
  destruct (Z.ltb_spec (coins (snd (getProfile robber db))) 100); [lia|].
  reflexivity.
Qed.








(** ** Daily: the streak *)

(** [/daily] past its cooldown gate, in terms of the store it started
    from. *)
Lemma daily_execute_passed (now : Z) (userId : string) (db : DB) :
  passes_gate now userId "daily" db ->
  let db1 := fst (getProfile userId (fst (checkCooldown now userId "daily" db))) in
  let profile := snd (getProfile userId db) in
  daily_execute now userId db =
  match daily_newStreak now profile with
  | None => (db1, AlreadyClaimed)
  | Some newStreak => daily_reward now userId profile (server_settings db) newStreak db1
  end.
Proof.
  intros Hgate. unfold passes_gate in Hgate. unfold daily_execute.
  pose proof (getProfile_after_gate now userId "daily" db) as Hp.
  pose proof (settings_after_gate now userId "daily" db) as Hs.
  destruct (checkCooldown now userId "daily" db) as [db0 c]. simpl in *. subst c.
  destruct (getProfile userId db0) as [db1 profile]. simpl in *. subst profile.
  unfold getServerSettings. rewrite Hs. reflexivity.
Qed.



Lemma getProfile_is_Some (userId : string) (db : DB) :
  is_Some (profiles (fst (getProfile userId db)) !! userId).
Proof. rewrite getProfile_lookup. eexists. reflexivity. Qed.




Lemma daily_newStreak_early (now lastDaily : Z) (profile : Profile) :
  last_daily profile = Some lastDaily ->
  (hours_between now lastDaily < 24)%Q ->
  daily_newStreak now profile = None.
Proof.
  intros H Hlt. unfold daily_newStreak. rewrite H.
  destruct (Qle_bool 24 (hours_between now lastDaily)) eqn:E.
  { apply Qle_bool_iff in E. exfalso. apply (Qlt_not_le _ _ Hlt E). }
  simpl. apply Qltb_lt in Hlt. rewrite Hlt. reflexivity.
Qed.



(** ** Daily: the modular command and the standalone command *)




Lemma checkCooldown_arms_nothing (now : Z) (userId command : string) (db : DB) :
  forall k, cooldowns (fst (checkCooldown now userId command db)) !! k = None \/
            cooldowns (fst (checkCooldown now userId command db)) !! k = cooldowns db !! k.
Proof.
  intros k. unfold checkCooldown.
  destruct (cooldowns db !! (userId, command)) as [expiresAt|]; [|right; reflexivity].
  destruct (now <? expiresAt); simpl; [right; reflexivity|].
  destruct (decide (k = (userId, command))) as [->|Hne].
  - left. apply lookup_delete_eq.
  - right. apply lookup_delete_ne. congruence.
Qed.



(** ** Lists of rows *)

Lemma find_Some_elem {A : Type} (f : A -> bool) (l : list A) (x : A) :
  find f l = Some x -> x ∈ l /\ f x = true.
Proof.
  intros H. apply find_some in H as [Hin Hf]. split; [|exact Hf].
  apply list_elem_of_In. exact Hin.
Qed.

Lemma find_elem_is_Some {A : Type} (f : A -> bool) (l : list A) (x : A) :
  x ∈ l -> f x = true -> is_Some (find f l).
Proof.
  intros Hin Hf. destruct (find f l) eqn:E; [eexists; reflexivity|].
  apply list_elem_of_In in Hin. pose proof (find_none f l E x Hin). congruence.
Qed.

Lemma join_item_spec (its : list Item.t) (r : Inv.t) (x : InvItem.t) :
  join_item its r = Some x ->
  InvItem.id x = Inv.id r /\
  InvItem.quantity x = Inv.quantity r /\
  Item.id (InvItem.items x) = Inv.item_id r /\
  find (fun i => bool_decide (Item.id i = Inv.item_id r)) its = Some (InvItem.items x).
Proof.
  unfold join_item.
  destruct (find (fun i => bool_decide (Item.id i = Inv.item_id r)) its) as [i|] eqn:E;
    [|discriminate].
  intros [= <-]. simpl. apply find_Some_elem in E as [_ E].
  apply bool_decide_eq_true in E. auto.
Qed.

Lemma getInventory_elem (userId : string) (db : DB) (x : InvItem.t) :
  x ∈ getInventory userId db <->
  exists r, r ∈ inventory db /\ Inv.user_id r = userId /\ join_item (items db) r = Some x.
Proof.
  unfold getInventory. rewrite list_elem_of_omap. split.
  - intros (r & Hr & Hj). apply list_elem_of_filter in Hr as [Ho Hr].
    unfold owned_by in Ho. apply bool_decide_eq_true in Ho. eauto.
  - intros (r & Hr & Hu & Hj). exists r. split; [|exact Hj].
    apply list_elem_of_filter. split; [|exact Hr].
    unfold owned_by. apply bool_decide_eq_true. exact Hu.
Qed.

(** A row that [getInventory] shows can be removed. *)
Lemma removeFromInventory_held (userId : string) (db : DB) (x : InvItem.t) :
  x ∈ getInventory userId db ->
  is_Some (removeFromInventory userId (Item.id (InvItem.items x)) 1 db).
Proof.
  intros Hx. apply getInventory_elem in Hx as (r & Hr & Hu & Hj).
  apply join_item_spec in Hj as (_ & _ & Hid & _).
  assert (Hrow : is_row userId (Item.id (InvItem.items x)) r = true).
  { unfold is_row. apply andb_true_iff. split; apply bool_decide_eq_true; congruence. }
  destruct (find_elem_is_Some _ _ _ Hr Hrow) as [r0 Hfind].
  unfold removeFromInventory. rewrite Hfind.
  destruct (Inv.quantity r0 <=? 1); eexists; reflexivity.
Qed.

(** ** Shop: buying, selling, and the round trip *)

Lemma updateProfile_frame (userId : string) (updates : Updates) (db : DB) :
  items (updateProfile userId updates db) = items db /\
  inventory (updateProfile userId updates db) = inventory db /\
  transactions (updateProfile userId updates db) = transactions db /\
  cooldowns (updateProfile userId updates db) = cooldowns db /\
  server_settings (updateProfile userId updates db) = server_settings db.
Proof.
  unfold updateProfile. destruct (profiles db !! userId); simpl; auto.
Qed.

Lemma removeFromInventory_frame (userId itemId : string) (quantity : Z) (db db' : DB) :
  removeFromInventory userId itemId quantity db = Some db' ->
  profiles db' = profiles db /\
  items db' = items db /\
  transactions db' = transactions db /\
  cooldowns db' = cooldowns db /\
  server_settings db' = server_settings db.
Proof.
  unfold removeFromInventory. destruct (find _ _) as [existing|]; [|discriminate].
  destruct (Inv.quantity existing <=? quantity); intros [= <-]; simpl; auto.
Qed.

Lemma addToInventory_frame (fresh userId itemId : string) (quantity : Z) (db : DB) :
  profiles (addToInventory fresh userId itemId quantity db) = profiles db /\
  items (addToInventory fresh userId itemId quantity db) = items db /\
  transactions (addToInventory fresh userId itemId quantity db) = transactions db /\
  cooldowns (addToInventory fresh userId itemId quantity db) = cooldowns db /\
  server_settings (addToInventory fresh userId itemId quantity db) = server_settings db.
Proof.
  unfold addToInventory. destruct (find _ _); simpl; auto.
Qed.







(** The purchase button on an item the user can afford. *)
Lemma shop_handleButton_bought (now : Z) (fresh userId itemId : string) (item : Item.t)
  (db : DB) :
  find (fun i => bool_decide (Item.id i = itemId)) (items db) = Some item ->
  Item.price item <= coins (snd (getProfile userId db)) ->
  let before := coins (snd (getProfile userId db)) in
  shop_handleButton now fresh userId itemId db =
  (logTransaction now
     (mkTxRequest userId "shop_buy" (Some (- Item.price item)) None (Some itemId) None)
     (addToInventory fresh userId itemId 1
        (updateProfile userId
           (mkUpdates (Some (before - Item.price item)) None None None None None None)
           (fst (getProfile userId db)))),
   PurchaseSuccessful (Item.price item) (before - Item.price item)).
Proof.
  intros Hfind Hafford before. subst before. unfold shop_handleButton, getItems.
  rewrite Hfind. destruct (getProfile userId db) as [db1 profile]. simpl in *.
  destruct (Z.ltb_spec (coins profile) (Item.price item)); [lia | reflexivity].
Qed.




(** ** Pay: a transfer above the balance *)

Lemma getProfile_view (u v : string) (db : DB) :
  snd (getProfile u (fst (getProfile v db))) = snd (getProfile u db).
Proof.
  destruct (decide (v = u)) as [->|Hne]; [|apply getProfile_twice, Hne].
  unfold getProfile at 1. rewrite getProfile_lookup. reflexivity.
Qed.

Lemma getProfile_keeps (v u : string) (p : Profile) (db : DB) :
  profiles db !! u = Some p -> profiles (fst (getProfile v db)) !! u = Some p.
Proof.
  intros H. destruct (decide (u = v)) as [->|Hne].
  - unfold getProfile. rewrite H. exact H.
  - rewrite getProfile_other by exact Hne. exact H.
Qed.

Lemma getProfile_creates (v u : string) (db : DB) :
  profiles db !! u = None ->
  profiles (fst (getProfile v db)) !! u = None \/
  (u = v /\ profiles (fst (getProfile v db)) !! u = Some newProfile).
Proof.
  intros H. destruct (decide (u = v)) as [->|Hne].
  - right. split; [reflexivity|]. unfold getProfile. rewrite H. simpl.
    apply lookup_insert_eq.
  - left. rewrite getProfile_other by exact Hne. exact H.
Qed.


(** Fetching two profiles changes no row and no other table; a row it
    adds holds the starting values. *)
Lemma getProfile_pair (sender recipient : string) (db : DB) :
  let db2 := fst (getProfile recipient (fst (getProfile sender db))) in
  (forall u p, profiles db !! u = Some p -> profiles db2 !! u = Some p) /\
  (forall u, profiles db !! u = None ->
             profiles db2 !! u = None \/
             ((u = sender \/ u = recipient) /\ profiles db2 !! u = Some newProfile)) /\
  (forall u, balance u db2 = balance u db) /\
  transactions db2 = transactions db /\
  inventory db2 = inventory db /\
  cooldowns db2 = cooldowns db /\
  items db2 = items db /\
  server_settings db2 = server_settings db.
Proof.
  intros db2. subst db2.
  destruct (getProfile_frame sender db) as (Hi1 & Hv1 & Ht1 & Hc1 & Hs1).
  destruct (getProfile_frame recipient (fst (getProfile sender db)))
    as (Hi2 & Hv2 & Ht2 & Hc2 & Hs2).
  split; [|split; [|split]].
  - intros u p H. apply getProfile_keeps, getProfile_keeps, H.
  - intros u H. destruct (getProfile_creates sender u db H) as [H1 | [-> H1]].
    + destruct (getProfile_creates recipient u _ H1) as [H2 | [-> H2]]; [left; exact H2|].
      right. split; [right; reflexivity | exact H2].
    + right. split; [left; reflexivity | apply getProfile_keeps, H1].
  - intros u. unfold balance. rewrite !getProfile_view. reflexivity.
  - repeat split; congruence.
Qed.



(** ** The level follows the XP *)

Lemma level_step_refl (p : Profile) : level_step p p.
Proof. left. split; reflexivity. Qed.

Lemma level_step_trans (p q r : Profile) : level_step p q -> level_step q r -> level_step p r.
Proof.
  unfold level_step, level_formula. intros [[H1 H2] | H] [[H3 H4] | H']; auto.
  - left. split; congruence.
  - right. congruence.
Qed.

Lemma level_step_formula (p q : Profile) : level_formula p -> level_step p q -> level_formula q.
Proof.
  unfold level_step, level_formula. intros H [[H1 H2] | H']; congruence.
Qed.

Lemma level_kept_refl (db : DB) : level_kept db db.
Proof.
  intros u p' H. rewrite H. apply level_step_refl.
Qed.

Lemma level_kept_same (db db1 db2 : DB) :
  profiles db2 = profiles db1 -> level_kept db db1 -> level_kept db db2.
Proof.
  intros E H u p' Hp. rewrite E in Hp. exact (H u p' Hp).
Qed.

Lemma level_kept_getProfile (db db1 : DB) (userId : string) :
  level_kept db db1 -> level_kept db (fst (getProfile userId db1)).
Proof.
  intros H u p' Hp. unfold getProfile in Hp.
  destruct (profiles db1 !! userId) as [q|] eqn:E; simpl in Hp; [exact (H u p' Hp)|].
  destruct (decide (u = userId)) as [->|Hne].
  - rewrite lookup_insert_eq in Hp. injection Hp as <-.
    destruct (profiles db !! userId); [right|]; reflexivity.
  - rewrite lookup_insert_ne in Hp by congruence. exact (H u p' Hp).
Qed.

Lemma level_safe_step (updates : Updates) (p : Profile) :
  level_safe updates -> level_step p (apply_updates updates p).
Proof.
  intros [[Hx Hl] | (x & Hx & Hl)]; unfold level_step, level_formula, apply_updates; simpl;
    rewrite Hx, Hl; simpl; auto.
Qed.

Lemma level_kept_updateProfile (db db1 : DB) (userId : string) (updates : Updates) :
  level_safe updates -> level_kept db db1 -> level_kept db (updateProfile userId updates db1).
Proof.
  intros Hsafe H u p' Hp. unfold updateProfile in Hp.
  destruct (profiles db1 !! userId) as [q|] eqn:E; simpl in Hp; [|exact (H u p' Hp)].
  destruct (decide (u = userId)) as [->|Hne].
  - rewrite lookup_insert_eq in Hp. injection Hp as <-.
    pose proof (H userId q E) as Hq. pose proof (level_safe_step updates q Hsafe) as Hs.
    destruct (profiles db !! userId) as [p|].
    + eapply level_step_trans; eassumption.
    + eapply level_step_formula; eassumption.
  - rewrite lookup_insert_ne in Hp by congruence. exact (H u p' Hp).
Qed.

Lemma level_kept_checkCooldown (db db1 : DB) (now : Z) (userId command : string) :
  level_kept db db1 -> level_kept db (fst (checkCooldown now userId command db1)).
Proof.
  apply level_kept_same. apply checkCooldown_frame.
Qed.

Lemma level_kept_setCooldown (db db1 : DB) (now : Z) (userId command : string) (hours : Q) :
  level_kept db db1 -> level_kept db (setCooldown now userId command hours db1).
Proof. apply level_kept_same. reflexivity. Qed.

Lemma level_kept_logTransaction (db db1 : DB) (now : Z) (transaction : TxRequest) :
  level_kept db db1 -> level_kept db (logTransaction now transaction db1).
Proof. apply level_kept_same. reflexivity. Qed.

Lemma level_kept_addToInventory (db db1 : DB) (fresh userId itemId : string) (quantity : Z) :
  level_kept db db1 -> level_kept db (addToInventory fresh userId itemId quantity db1).
Proof. apply level_kept_same. apply addToInventory_frame. Qed.

Lemma level_kept_removeFromInventory (db db1 db2 : DB) (userId itemId : string)
  (quantity : Z) :
  removeFromInventory userId itemId quantity db1 = Some db2 ->
  level_kept db db1 -> level_kept db db2.
Proof.
  intros H. apply level_kept_same. apply (removeFromInventory_frame _ _ _ _ _ H).
Qed.

Lemma level_safe_coins (c : option Z) (r : option Z) (w d : option Z) (s : option Z) :
  level_safe (mkUpdates c None None s d w r).
Proof. left. split; reflexivity. Qed.

Lemma level_safe_xp (c : option Z) (x : Z) (r : option Z) (w d : option Z) (s : option Z) :
  level_safe (mkUpdates c (Some x) (Some (x / 1000 + 1)) s d w r).
Proof. right. exists x. split; reflexivity. Qed.

Create HintDb level_db.

#[export] Hint Resolve level_kept_refl level_kept_getProfile level_kept_updateProfile
  level_kept_checkCooldown level_kept_setCooldown level_kept_logTransaction
  level_kept_addToInventory level_safe_coins level_safe_xp : level_db.

Lemma level_kept_daily_reward (db db1 : DB) (now : Z) (userId : string) (profile : Profile)
  (settings : Settings) (newStreak : Z) :
  level_kept db db1 ->
  level_kept db (fst (daily_reward now userId profile settings newStreak db1)).
Proof.
  intros H. unfold daily_reward. simpl. auto with level_db.
Qed.

Lemma level_kept_daily (now : Z) (userId : string) (db : DB) :
  level_kept db (fst (daily_execute now userId db)).
Proof.
  unfold daily_execute.
  pose proof (level_kept_checkCooldown db db now userId "daily" (level_kept_refl db)) as H0.
  destruct (checkCooldown now userId "daily" db) as [db0 c]. simpl in H0.
  destruct c; [exact H0|].
  pose proof (level_kept_getProfile db db0 userId H0) as H1.
  destruct (getProfile userId db0) as [db1 profile]. simpl in H1.
  destruct (daily_newStreak now profile); [|exact H1].
  apply level_kept_daily_reward, H1.
Qed.

Lemma level_kept_work (now : Z) (random : Q) (userId : string) (db : DB) :
  level_kept db (fst (work_execute now random userId db)).
Proof.
  unfold work_execute.
  pose proof (level_kept_checkCooldown db db now userId "work" (level_kept_refl db)) as H0.
  destruct (checkCooldown now userId "work" db) as [db0 c]. simpl in H0.
  destruct c; [exact H0|].
  pose proof (level_kept_getProfile db db0 userId H0) as H1.
  destruct (getProfile userId db0) as [db1 profile]. simpl in H1.
  destruct (work_boost _) as [totalBoost bestTool]. simpl. auto with level_db.
Qed.

Lemma level_kept_pay (now : Z) (sender recipient : string) (recipient_bot : bool)
  (amount : Z) (db : DB) :
  level_kept db (fst (pay_execute now sender recipient recipient_bot amount db)).
Proof.
  unfold pay_execute.
  destruct (decide (sender = recipient)); [apply level_kept_refl|].
  destruct recipient_bot; [apply level_kept_refl|].
  pose proof (level_kept_getProfile db db sender (level_kept_refl db)) as H1.
  destruct (getProfile sender db) as [db1 senderProfile]. simpl in H1.
  pose proof (level_kept_getProfile db db1 recipient H1) as H2.
  destruct (getProfile recipient db1) as [db2 recipientProfile]. simpl in H2.
  destruct (coins senderProfile <? amount); simpl; auto with level_db.
Qed.

Lemma level_kept_rob (now : Z) (random1 random2 : Q) (robber target : string)
  (target_bot : bool) (db : DB) :
  level_kept db (fst (rob_execute now random1 random2 robber target target_bot db)).
Proof.
  unfold rob_execute.
  destruct (decide (robber = target)); [apply level_kept_refl|].
  destruct target_bot; [apply level_kept_refl|].
  pose proof (level_kept_checkCooldown db db now robber "rob" (level_kept_refl db)) as H0.
  destruct (checkCooldown now robber "rob" db) as [db0 c]. simpl in H0.
  destruct c; [exact H0|].
  pose proof (level_kept_getProfile db db0 robber H0) as H1.
  destruct (getProfile robber db0) as [db1 robberProfile]. simpl in H1.
  pose proof (level_kept_getProfile db db1 target H1) as H2.
  destruct (getProfile target db1) as [db2 targetProfile]. simpl in H2.
  destruct (coins targetProfile <? 500); [exact H2|].
  destruct (coins robberProfile <? 100); [exact H2|].
  destruct (Qltb random1 _); simpl; auto 10 with level_db.
Qed.

Lemma level_kept_shop (now : Z) (fresh userId itemId : string) (db : DB) :
  level_kept db (fst (shop_handleButton now fresh userId itemId db)).
Proof.
  unfold shop_handleButton.
  destruct (find _ (getItems db)) as [item|]; [|apply level_kept_refl].
  pose proof (level_kept_getProfile db db userId (level_kept_refl db)) as H1.
  destruct (getProfile userId db) as [db1 profile]. simpl in H1.
  destruct (coins profile <? Item.price item); simpl; auto with level_db.
Qed.

Lemma level_kept_sell (db db0 : DB) (now : Z) (userId : string) (item : Item.t) :
  level_kept db db0 -> level_kept db (fst (inventory_sell now userId item db0)).
Proof.
  intros H0. unfold inventory_sell.
  pose proof (level_kept_getProfile db db0 userId H0) as H1.
  destruct (getProfile userId db0) as [db1 profile]. simpl in H1.
  set (db2 := updateProfile userId _ db1).
  assert (H2 : level_kept db db2) by (unfold db2; auto with level_db).
  destruct (removeFromInventory userId (Item.id item) 1 db2) as [db3|] eqn:E; simpl.
  - apply level_kept_logTransaction. eapply level_kept_removeFromInventory; eassumption.
  - apply level_kept_logTransaction. exact H2.
Qed.

Lemma level_kept_consume (db db0 : DB) (now : Z) (userId : string) (item : Item.t)
  (effect : Effect.t) (resultText : Reply) :
  level_kept db db0 ->
  level_kept db (fst (inventory_consume now userId item effect resultText db0)).
Proof.
  intros H0. unfold inventory_consume.
  destruct (removeFromInventory userId (Item.id item) 1 db0) as [db1|] eqn:E; simpl;
    [|exact H0].
  apply level_kept_logTransaction. eapply level_kept_removeFromInventory; eassumption.
Qed.

(** The level the use button writes is the level of the XP it writes. *)
Lemma xp_grant_level (newXP : Q) (x : Z) :
  as_bigint newXP = Some x -> Qfloor (newXP / 1000) + 1 = x / 1000 + 1.
Proof.
  intros H. apply as_bigint_Some in H. f_equal.
  rewrite <- Qfloor_div_1000. apply Qfloor_comp. rewrite H. reflexivity.
Qed.

Lemma level_kept_use (db db0 : DB) (now : Z) (userId : string) (item : Item.t) :
  level_kept db db0 -> level_kept db (fst (inventory_use now userId item db0)).
Proof.
  intros H0. unfold inventory_use.
  destruct (effect_of_type "consumable" item) as [effect|]; [|exact H0].
  pose proof (level_kept_getProfile db db0 userId H0) as H1.
  destruct (getProfile userId db0) as [db1 profile]. simpl in H1.
  destruct (decide (Effect.effect effect = "xp_grant")).
  { destruct (as_bigint _) as [x|] eqn:E; [|exact H1].
    rewrite (xp_grant_level _ _ E). apply level_kept_consume. auto with level_db. }
  destruct (decide (Effect.effect effect = "daily_boost")).
  { apply level_kept_consume. auto with level_db. }
  destruct (decide (Effect.effect effect = "cooldown_restore"));
    apply level_kept_consume, H1.
Qed.

Lemma level_kept_inventory (now : Z) (action invItemId userId : string) (db : DB) :
  level_kept db (fst (inventory_handleButton now action invItemId userId db)).
Proof.
  unfold inventory_handleButton.
  destruct (find _ (getInventory userId db)) as [invItem|]; [|apply level_kept_refl].
  destruct (decide (action = "sell")); [apply level_kept_sell, level_kept_refl|].
  destruct (decide (action = "use")); [apply level_kept_use, level_kept_refl|].
  apply level_kept_refl.
Qed.

Lemma level_kept_handle (now : Z) (req : Request) (db : DB) :
  level_kept db (fst (handle now req db)).
Proof.
  destruct req; simpl.
  - apply level_kept_daily.
  - apply level_kept_work.
  - apply level_kept_pay.
  - apply level_kept_rob.
  - apply level_kept_shop.
  - apply level_kept_inventory.
Qed.

(** C1. For every account and every operation (daily, work, pay, rob, shop
    buy, shop sell, use consumable): if [level = floor (xp / 1000) + 1]
    holds before the operation it holds after it. A row whose [xp] changed
    carries the level recomputed from the new [xp]; a level changes only by
    that recomputation; with the formula in force, an unchanged [xp] comes
    with an unchanged level; an account the operation creates satisfies the
    formula. *)
Theorem level_follows_xp (now : Z) (req : Request) (db : DB) :
  let db' := fst (handle now req db) in
  (level_invariant db -> level_invariant db') /\
  (forall u p p',
      profiles db !! u = Some p -> profiles db' !! u = Some p' ->
      (level_formula p -> level_formula p') /\
      (level_formula p -> xp p' = xp p -> level p' = level p) /\
      (xp p' <> xp p -> level_formula p') /\
      (level p' <> level p -> level_formula p')) /\
  (forall u p',
      profiles db !! u = None -> profiles db' !! u = Some p' -> level_formula p').
Proof.
  intros db'. pose proof (level_kept_handle now req db) as H. fold db' in H.
  split; [|split].
  - intros Hinv u p' Hp'. specialize (H u p' Hp').
    destruct (profiles db !! u) as [p|] eqn:E; [|exact H].
    eapply level_step_formula; [apply (Hinv u p E) | exact H].
  - intros u p p' Hp Hp'. specialize (H u p' Hp'). rewrite Hp in H.
    unfold level_step, level_formula in *.
    repeat split; intros; destruct H as [[Hx Hl] | H]; congruence.
  - intros u p' Hp Hp'. specialize (H u p' Hp'). rewrite Hp in H. exact H.
Qed.

(** The account of [tools_db] before and after a [/work]. *)
Lemma level_follows_xp_witness :
  level_invariant tools_db /\
  level_invariant (fst (handle 1000 (Work "alice" (1 # 2)) tools_db)).
Proof.
  assert (H : level_invariant tools_db).
  { intros u p Hp. unfold tools_db in Hp. simpl in Hp.
    apply lookup_singleton_Some in Hp as [_ <-]. reflexivity. }
  split; [exact H|].
  destruct (level_follows_xp 1000 (Work "alice" (1 # 2)) tools_db) as (Hinv & _).
  exact (Hinv H).
Defined.

(** ** Balances stay non-negative *)






































(** ** The XP multiplier is never read *)

Section XpMultiplier.

Variable m : Q.

Lemma checkCooldown_xpm (now : Z) (userId command : string) (db : DB) :
  checkCooldown now userId command (set_xp_multiplier m db)
  = (set_xp_multiplier m (fst (checkCooldown now userId command db)),
     snd (checkCooldown now userId command db)).
Proof.
  unfold checkCooldown. simpl. destruct (cooldowns db !! (userId, command)); [|reflexivity].
  destruct (now <? z); reflexivity.
Qed.

Lemma getProfile_xpm (userId : string) (db : DB) :
  getProfile userId (set_xp_multiplier m db)
  = (set_xp_multiplier m (fst (getProfile userId db)), snd (getProfile userId db)).
Proof.
  unfold getProfile. simpl. destruct (profiles db !! userId); reflexivity.
Qed.

Lemma updateProfile_xpm (userId : string) (updates : Updates) (db : DB) :
  updateProfile userId updates (set_xp_multiplier m db)
  = set_xp_multiplier m (updateProfile userId updates db).
Proof.
  unfold updateProfile. simpl. destruct (profiles db !! userId); reflexivity.
Qed.

Lemma addToInventory_xpm (fresh userId itemId : string) (quantity : Z) (db : DB) :
  addToInventory fresh userId itemId quantity (set_xp_multiplier m db)
  = set_xp_multiplier m (addToInventory fresh userId itemId quantity db).
Proof.
  unfold addToInventory. simpl. destruct (find _ (inventory db)); reflexivity.
Qed.

Lemma removeFromInventory_xpm (userId itemId : string) (quantity : Z) (db : DB) :
  removeFromInventory userId itemId quantity (set_xp_multiplier m db)
  = set_xp_multiplier m <$> removeFromInventory userId itemId quantity db.
Proof.
  unfold removeFromInventory. simpl. destruct (find _ (inventory db)) as [e|]; [|reflexivity].
  destruct (Inv.quantity e <=? quantity); reflexivity.
Qed.

Lemma daily_reward_xpm (now : Z) (userId : string) (profile : Profile) (newStreak : Z)
  (db : DB) :
  daily_reward now userId profile (getServerSettings (set_xp_multiplier m db)) newStreak
    (set_xp_multiplier m db)
  = (set_xp_multiplier m
       (fst (daily_reward now userId profile (getServerSettings db) newStreak db)),
     snd (daily_reward now userId profile (getServerSettings db) newStreak db)).
Proof.
  unfold daily_reward. simpl. rewrite updateProfile_xpm. reflexivity.
Qed.

Lemma daily_execute_xpm (now : Z) (userId : string) (db : DB) :
  daily_execute now userId (set_xp_multiplier m db)
  = (set_xp_multiplier m (fst (daily_execute now userId db)),
     snd (daily_execute now userId db)).
Proof.
  unfold daily_execute. rewrite checkCooldown_xpm.
  destruct (checkCooldown now userId "daily" db) as [db0 c]. cbn [fst snd].
  destruct c; [reflexivity|]. rewrite getProfile_xpm.
  destruct (getProfile userId db0) as [db1 profile]. cbn [fst snd].
  destruct (daily_newStreak now profile); [|reflexivity].
  apply daily_reward_xpm.
Qed.

Lemma work_execute_xpm (now : Z) (random : Q) (userId : string) (db : DB) :
  work_execute now random userId (set_xp_multiplier m db)
  = (set_xp_multiplier m (fst (work_execute now random userId db)),
     snd (work_execute now random userId db)).
Proof.
  unfold work_execute. rewrite checkCooldown_xpm.
  destruct (checkCooldown now userId "work" db) as [db0 c]. cbn [fst snd].
  destruct c; [reflexivity|]. rewrite getProfile_xpm.
  destruct (getProfile userId db0) as [db1 profile]. cbn [fst snd].
  change (getInventory userId (set_xp_multiplier m db1)) with (getInventory userId db1).
  destruct (work_boost (getInventory userId db1)) as [totalBoost bestTool].
  rewrite updateProfile_xpm. reflexivity.
Qed.

Lemma pay_execute_xpm (now : Z) (sender recipient : string) (recipient_bot : bool)
  (amount : Z) (db : DB) :
  pay_execute now sender recipient recipient_bot amount (set_xp_multiplier m db)
  = (set_xp_multiplier m (fst (pay_execute now sender recipient recipient_bot amount db)),
     snd (pay_execute now sender recipient recipient_bot amount db)).
Proof.
  unfold pay_execute. destruct (decide (sender = recipient)); [reflexivity|].
  destruct recipient_bot; [reflexivity|]. rewrite getProfile_xpm.
  destruct (getProfile sender db) as [db1 senderProfile]. cbn [fst snd].
  rewrite getProfile_xpm.
  destruct (getProfile recipient db1) as [db2 recipientProfile]. cbn [fst snd].
  destruct (coins senderProfile <? amount); [reflexivity|].
  rewrite !updateProfile_xpm. reflexivity.
Qed.

Lemma rob_execute_xpm (now : Z) (random1 random2 : Q) (robber target : string)
  (target_bot : bool) (db : DB) :
  rob_execute now random1 random2 robber target target_bot (set_xp_multiplier m db)
  = (set_xp_multiplier m
       (fst (rob_execute now random1 random2 robber target target_bot db)),
     snd (rob_execute now random1 random2 robber target target_bot db)).
Proof.
  unfold rob_execute. destruct (decide (robber = target)); [reflexivity|].
  destruct target_bot; [reflexivity|]. rewrite checkCooldown_xpm.
  destruct (checkCooldown now robber "rob" db) as [db0 c]. cbn [fst snd].
  destruct c; [reflexivity|]. rewrite getProfile_xpm.
  destruct (getProfile robber db0) as [db1 robberProfile]. cbn [fst snd].
  rewrite getProfile_xpm.
  destruct (getProfile target db1) as [db2 targetProfile]. cbn [fst snd].
  destruct (coins targetProfile <? 500); [reflexivity|].
  destruct (coins robberProfile <? 100); [reflexivity|].
  change (getInventory target (set_xp_multiplier m db2)) with (getInventory target db2).
  change (rob_actualSuccessRate (getServerSettings (set_xp_multiplier m db2)))
    with (rob_actualSuccessRate (getServerSettings db2)).
  destruct (Qltb random1 _); rewrite !updateProfile_xpm; reflexivity.
Qed.

Lemma shop_handleButton_xpm (now : Z) (fresh userId itemId : string) (db : DB) :
  shop_handleButton now fresh userId itemId (set_xp_multiplier m db)
  = (set_xp_multiplier m (fst (shop_handleButton now fresh userId itemId db)),
     snd (shop_handleButton now fresh userId itemId db)).
Proof.
  unfold shop_handleButton.
  change (getItems (set_xp_multiplier m db)) with (getItems db).
  destruct (find _ (getItems db)) as [item|]; [|reflexivity].
  rewrite getProfile_xpm.
  destruct (getProfile userId db) as [db1 profile]. cbn [fst snd].
  destruct (coins profile <? Item.price item); [reflexivity|].
  rewrite updateProfile_xpm, addToInventory_xpm. reflexivity.
Qed.

Lemma inventory_sell_xpm (now : Z) (userId : string) (item : Item.t) (db : DB) :
  inventory_sell now userId item (set_xp_multiplier m db)
  = (set_xp_multiplier m (fst (inventory_sell now userId item db)),
     snd (inventory_sell now userId item db)).
Proof.
  unfold inventory_sell. rewrite getProfile_xpm.
  destruct (getProfile userId db) as [db1 profile]. cbn [fst snd].
  rewrite updateProfile_xpm, removeFromInventory_xpm.
  destruct (removeFromInventory userId (Item.id item) 1 _); reflexivity.
Qed.

Lemma inventory_consume_xpm (now : Z) (userId : string) (item : Item.t) (effect : Effect.t)
  (resultText : Reply) (db : DB) :
  inventory_consume now userId item effect resultText (set_xp_multiplier m db)
  = (set_xp_multiplier m (fst (inventory_consume now userId item effect resultText db)),
     snd (inventory_consume now userId item effect resultText db)).
Proof.
  unfold inventory_consume. rewrite removeFromInventory_xpm.
  destruct (removeFromInventory userId (Item.id item) 1 db); reflexivity.
Qed.

Lemma inventory_use_xpm (now : Z) (userId : string) (item : Item.t) (db : DB) :
  inventory_use now userId item (set_xp_multiplier m db)
  = (set_xp_multiplier m (fst (inventory_use now userId item db)),
     snd (inventory_use now userId item db)).
Proof.
  unfold inventory_use.
  destruct (effect_of_type "consumable" item) as [effect|]; [|reflexivity].
  rewrite getProfile_xpm.
  destruct (getProfile userId db) as [db1 profile]. cbn [fst snd].
  destruct (decide (Effect.effect effect = "xp_grant")).
  { destruct (as_bigint _); [|reflexivity].
    rewrite updateProfile_xpm. apply inventory_consume_xpm. }
  destruct (decide (Effect.effect effect = "daily_boost")).
  { rewrite updateProfile_xpm. apply inventory_consume_xpm. }
  destruct (decide (Effect.effect effect = "cooldown_restore"));
    apply inventory_consume_xpm.
Qed.

Lemma inventory_handleButton_xpm (now : Z) (action invItemId userId : string) (db : DB) :
  inventory_handleButton now action invItemId userId (set_xp_multiplier m db)
  = (set_xp_multiplier m (fst (inventory_handleButton now action invItemId userId db)),
     snd (inventory_handleButton now action invItemId userId db)).
Proof.
  unfold inventory_handleButton.
  change (getInventory userId (set_xp_multiplier m db)) with (getInventory userId db).
  destruct (find _ (getInventory userId db)) as [invItem|]; [|reflexivity].
  destruct (decide (action = "sell")); [apply inventory_sell_xpm|].
  destruct (decide (action = "use")); [apply inventory_use_xpm | reflexivity].
Qed.

Lemma handle_xpm (now : Z) (req : Request) (db : DB) :
  handle now req (set_xp_multiplier m db)
  = (set_xp_multiplier m (fst (handle now req db)), snd (handle now req db)).
Proof.
  destruct req; simpl.
  - apply daily_execute_xpm.
  - apply work_execute_xpm.
  - apply pay_execute_xpm.
  - apply rob_execute_xpm.
  - apply shop_handleButton_xpm.
  - apply inventory_handleButton_xpm.
Qed.

End XpMultiplier.

(** The XP a granted claim writes. *)
Lemma daily_execute_xp (now : Z) (userId : string) (db : DB)
  (totalAmount xpGain baseAmount streakBonus newStreak newLevel : Z) :
  snd (daily_execute now userId db)
  = DailyClaimed totalAmount xpGain baseAmount streakBonus newStreak newLevel ->
  xpGain = 10 /\
  persisted_xp userId (fst (daily_execute now userId db))
  = Some (xp (snd (getProfile userId db)) + 10).
Proof.
  unfold daily_execute, persisted_xp.
  pose proof (getProfile_after_gate now userId "daily" db) as Hp.
  destruct (checkCooldown now userId "daily" db) as [db0 c]. cbn [fst snd] in *.
  destruct c; [discriminate|].
  pose proof (getProfile_lookup userId db0) as Hl.
  destruct (getProfile userId db0) as [db1 profile]. cbn [fst snd] in *. subst profile.
  destruct (daily_newStreak now _); [|discriminate].
  unfold daily_reward. cbn [fst snd]. intros [= _ <- _ _ _ _]. split; [reflexivity|].
  simpl. rewrite (updateProfile_lookup _ _ _ _ Hl). reflexivity.
Qed.

(** The XP a [/work] writes. *)
Lemma work_execute_xp (now : Z) (random : Q) (userId : string) (db : DB)
  (totalAmount xpGain baseAmount boostAmount newLevel : Z) (bestTool : option string)
  (cooldownHours : Q) :
  snd (work_execute now random userId db)
  = WorkComplete totalAmount xpGain baseAmount boostAmount bestTool newLevel cooldownHours ->
  xpGain = totalAmount / 10 /\
  persisted_xp userId (fst (work_execute now random userId db))
  = Some (xp (snd (getProfile userId db)) + totalAmount / 10).
Proof.
  unfold work_execute, persisted_xp.
  pose proof (getProfile_after_gate now userId "work" db) as Hp.
  destruct (checkCooldown now userId "work" db) as [db0 c]. cbn [fst snd] in *.
  destruct c; [discriminate|].
  pose proof (getProfile_lookup userId db0) as Hl.
  destruct (getProfile userId db0) as [db1 profile]. cbn [fst snd] in *. subst profile.
  destruct (work_boost _) as [totalBoost tool]. cbn [fst snd].
  intros [= <- <- _ _ _ _ _]. split; [reflexivity|].
  simpl. rewrite (updateProfile_lookup _ _ _ _ Hl). reflexivity.
Qed.

(** The XP the use button writes for an [xp_grant] consumable. *)
Lemma inventory_use_xp (now : Z) (userId : string) (item : Item.t) (db : DB) (value : Q)
  (newLevel : Z) :
  snd (inventory_use now userId item db) = GainedXP value newLevel ->
  exists effect newXP,
    Item.effect item = Some effect /\
    Effect.type effect = "consumable" /\ Effect.effect effect = "xp_grant" /\
    value = Effect.value effect /\
    persisted_xp userId (fst (inventory_use now userId item db)) = Some newXP /\
    inject_Z newXP == inject_Z (xp (snd (getProfile userId db))) + value.
Proof.
  unfold inventory_use, persisted_xp, effect_of_type.
  destruct (Item.effect item) as [effect|]; [|discriminate].
  destruct (decide (Effect.type effect = "consumable")) as [Hty|]; [|discriminate].
  pose proof (getProfile_lookup userId db) as Hl.
  destruct (getProfile userId db) as [db1 profile]. cbn [fst snd] in *.
  assert (Hother : forall r d,
             snd (inventory_consume now userId item effect r d) = GainedXP value newLevel ->
             r = GainedXP value newLevel /\
             profiles (fst (inventory_consume now userId item effect r d)) = profiles d).
  { intros r d. unfold inventory_consume.
    destruct (removeFromInventory userId (Item.id item) 1 d) as [d'|] eqn:E;
      [|discriminate].
    cbn [fst snd]. intros ->. split; [reflexivity|].
    apply (removeFromInventory_frame _ _ _ _ _ E). }
  destruct (decide (Effect.effect effect = "xp_grant")) as [Hxp|].
  - destruct (as_bigint _) as [x|] eqn:E; [|discriminate].
    intros H. apply Hother in H as [[= <- _] Hprofiles].
    exists effect, x. repeat split; auto.
    + rewrite Hprofiles, (updateProfile_lookup _ _ _ _ Hl). reflexivity.
    + apply as_bigint_Some in E. symmetry. exact E.
  - destruct (decide (Effect.effect effect = "daily_boost")).
    { intros H. apply Hother in H as [[=] _]. }
    destruct (decide (Effect.effect effect = "cooldown_restore"));
      intros H; apply Hother in H as [[=] _].
Qed.

(** C10. The outcome of every action is the same in two runs whose
    settings differ only in [xp_multiplier]: the reply is the same and so
    is every table; the handlers never read the field. Daily grants
    exactly 10 XP, work grants [floor (total / 10)], an [xp_grant]
    consumable grants the value of its item. *)
Theorem xp_multiplier_is_never_read (now : Z) (req : Request) (db : DB) :
  (forall m,
      handle now req (set_xp_multiplier m db)
      = (set_xp_multiplier m (fst (handle now req db)), snd (handle now req db))) /\
  (forall m1 m2,
      let run1 := handle now req (set_xp_multiplier m1 db) in
      let run2 := handle now req (set_xp_multiplier m2 db) in
      snd run1 = snd run2 /\
      profiles (fst run1) = profiles (fst run2) /\
      inventory (fst run1) = inventory (fst run2) /\
      transactions (fst run1) = transactions (fst run2) /\
      cooldowns (fst run1) = cooldowns (fst run2) /\
      items (fst run1) = items (fst run2)) /\
  (forall userId totalAmount xpGain baseAmount streakBonus newStreak newLevel,
      req = Daily userId ->
      snd (handle now req db)
      = DailyClaimed totalAmount xpGain baseAmount streakBonus newStreak newLevel ->
      xpGain = 10 /\
      persisted_xp userId (fst (handle now req db))
      = Some (xp (snd (getProfile userId db)) + 10)) /\
  (forall userId random totalAmount xpGain baseAmount boostAmount bestTool newLevel
          cooldownHours,
      req = Work userId random ->
      snd (handle now req db)
      = WorkComplete totalAmount xpGain baseAmount boostAmount bestTool newLevel
                     cooldownHours ->
      xpGain = totalAmount / 10 /\
      persisted_xp userId (fst (handle now req db))
      = Some (xp (snd (getProfile userId db)) + totalAmount / 10)) /\
  (forall userId action invItemId value newLevel,
      req = InventoryButton userId action invItemId ->
      snd (handle now req db) = GainedXP value newLevel ->
      exists invItem effect newXP,
        find (fun i => bool_decide (InvItem.id i = invItemId)) (getInventory userId db)
        = Some invItem /\
        Item.effect (InvItem.items invItem) = Some effect /\
        Effect.effect effect = "xp_grant" /\
        value = Effect.value effect /\
        persisted_xp userId (fst (handle now req db)) = Some newXP /\
        inject_Z newXP == inject_Z (xp (snd (getProfile userId db))) + value).
Proof.
  split; [|split; [|split; [|split]]].
  - intros m. apply handle_xpm.
  - intros m1 m2 run1 run2. subst run1 run2. rewrite !handle_xpm. simpl.
    repeat split; reflexivity.
  - intros userId totalAmount xpGain baseAmount streakBonus newStreak newLevel ->.
    apply daily_execute_xp.
  - intros userId random totalAmount xpGain baseAmount boostAmount bestTool newLevel
      cooldownHours ->.
    apply work_execute_xp.
  - intros userId action invItemId value newLevel ->. simpl.
    unfold inventory_handleButton.
    destruct (find _ (getInventory userId db)) as [invItem|]; [|discriminate].
    destruct (decide (action = "sell")).
    { unfold inventory_sell. destruct (getProfile userId db) as [db1 profile].
      cbn [fst snd]. destruct (removeFromInventory _ _ _ _); discriminate. }
    destruct (decide (action = "use")); [|discriminate].
    intros H. destruct (inventory_use_xp now userId _ db value newLevel H)
      as (effect & newXP & He & _ & Hx & Hv & Hp & Hq).
    exists invItem, effect, newXP. repeat split; assumption.
Qed.

(** An XP potion of 500 used at 700 XP, under two multipliers: 1200 XP and
    level 2 both times. *)
Lemma xp_multiplier_is_never_read_witness :
  snd (handle 1000 (InventoryButton "alice" "use" "row-1") potion_db) = GainedXP 500 2 /\
  snd (handle 1000 (InventoryButton "alice" "use" "row-1")
         (set_xp_multiplier 2.5 potion_db)) = GainedXP 500 2 /\
  exists newXP,
    persisted_xp "alice" (fst (handle 1000 (InventoryButton "alice" "use" "row-1") potion_db))
    = Some newXP /\
    inject_Z newXP == inject_Z 700 + 500.
Proof.
  assert (Hreply : snd (handle 1000 (InventoryButton "alice" "use" "row-1") potion_db)
                   = GainedXP 500 2) by (vm_compute; reflexivity).
  destruct (xp_multiplier_is_never_read 1000 (InventoryButton "alice" "use" "row-1")
              potion_db) as (Heq & _ & _ & _ & Hxp).
  split; [exact Hreply|]. split; [rewrite Heq; exact Hreply|].
  destruct (Hxp "alice" "use" "row-1" 500%Q 2 eq_refl Hreply)
    as (_ & _ & newXP & _ & _ & _ & _ & Hp & Hq).
  exists newXP. split; [exact Hp | exact Hq].
Defined.

(** ** The scenario of the specification, and the boundaries of the streak *)

(** A new account claims its first daily: 1500 coins, 10 XP, level 1,
    streak 0. *)
Example scenario_first_daily :
  profiles (fst (handle 1000 (Daily "alice") tools_db)) !! "alice"
  = Some (mkProfile 1500 10 1 0 (Some 1000) None 0).
Proof. reflexivity. Qed.

(** With 1500 coins an item of 2500 coins is refused. *)
Example scenario_cannot_afford :
  snd (handle 2000 (ShopBuy "alice" "item-1" "row-9")
         (fst (handle 1000 (Daily "alice") tools_db)))
  = CannotAfford 2500 1500.
Proof. reflexivity. Qed.

(** 24 h and 48 h continue a streak of 3, 48.01 h resets it, 23 h is
    refused by the modular command. *)
Example streak_at_24h :
  daily_newStreak (24 * ms_per_hour) (mkProfile 1500 10 1 3 (Some 0) None 0) = Some 4.
Proof. reflexivity. Qed.

Example streak_at_48h :
  daily_newStreak (48 * ms_per_hour) (mkProfile 1500 10 1 3 (Some 0) None 0) = Some 4.
Proof. reflexivity. Qed.

Example streak_at_48h_01 :
  hours_between 172836000 0 == 48.01 /\
  daily_newStreak 172836000 (mkProfile 1500 10 1 3 (Some 0) None 0) = Some 0.
Proof. split; reflexivity. Qed.

Example streak_at_23h :
  daily_newStreak (23 * ms_per_hour) (mkProfile 1500 10 1 3 (Some 0) None 0) = None /\
  dailyCommand_newStreak (23 * ms_per_hour) (mkProfile 1500 10 1 3 (Some 0) None 0) = 0.
Proof. split; reflexivity. Qed.

(** The streak bonus is capped at 500 coins: a streak of 10 and a streak of
    20 pay the same. *)
Example streak_bonus_capped :
  snd (daily_reward 0 "alice" newProfile default_settings 10 tools_db)
  = DailyClaimed 1000 10 500 500 10 1 /\
  snd (daily_reward 0 "alice" newProfile default_settings 20 tools_db)
  = DailyClaimed 1000 10 500 500 20 1.
Proof. split; reflexivity. Qed.

(** A fractional XP value is refused by the [bigint] column: nothing is
    written and the item stays. *)
Example fractional_xp_refused :
  as_bigint (inject_Z 700 + 0.5) = None /\ as_bigint (inject_Z 700 + 500) = Some 1200.
Proof. split; reflexivity. Qed.

(** An early claim needs no short cooldown: without a cooldown row the
    request reaches the handler 13 hours after the last claim. *)
Example early_claim_without_row :
  early_claim (13 * ms_per_hour) "alice" streak_db /\
  daily_execute (13 * ms_per_hour) "alice" streak_db = (streak_db, AlreadyClaimed).
Proof.
  split; [|reflexivity]. split; [reflexivity|]. exists 0. split; reflexivity.
Qed.

(** * Further properties of the code *)

(** ** The inventory ledger of [database.js] *)

Lemma is_row_key (u i : string) (r : Inv.t) : is_row u i r = true <-> row_key r = (u, i).
Proof.
  unfold is_row, row_key. rewrite andb_true_iff, !bool_decide_eq_true.
  split; [intros [-> ->]; reflexivity | intros [= -> ->]; auto].
Qed.

Lemma is_row_other (u i u' i' : string) (r : Inv.t) :
  (u', i') <> (u, i) -> is_row u i r = true -> is_row u' i' r = false.
Proof.
  intros Hne H. apply is_row_key in H. apply not_true_is_false. intros H'.
  apply is_row_key in H'. congruence.
Qed.

Lemma row_key_set_quantity (u i : string) (q : Z) (r : Inv.t) :
  row_key (set_quantity u i q r) = row_key r.
Proof. unfold set_quantity. destruct (is_row u i r); reflexivity. Qed.

Lemma is_row_set_quantity (u i u' i' : string) (q : Z) (r : Inv.t) :
  is_row u' i' (set_quantity u i q r) = is_row u' i' r.
Proof. unfold set_quantity. destruct (is_row u i r); reflexivity. Qed.

Lemma find_map_set_quantity (u i u' i' : string) (q : Z) (l : list Inv.t) :
  find (is_row u' i') (map (set_quantity u i q) l)
  = set_quantity u i q <$> find (is_row u' i') l.
Proof.
  induction l as [|a l IH]; [reflexivity|]. cbn [map find].
  rewrite is_row_set_quantity. destruct (is_row u' i' a); [reflexivity | exact IH].
Qed.

Lemma find_app_Some {A : Type} (f : A -> bool) (l1 l2 : list A) (x : A) :
  find f l1 = Some x -> find f (l1 ++ l2) = Some x.
Proof.
  induction l1 as [|a l1 IH]; [discriminate|]. simpl. destruct (f a); auto.
Qed.

Lemma find_app_None {A : Type} (f : A -> bool) (l1 l2 : list A) :
  find f l1 = None -> find f (l1 ++ l2) = find f l2.
Proof.
  induction l1 as [|a l1 IH]; [reflexivity|]. simpl. destruct (f a); [discriminate | auto].
Qed.

Lemma find_filter_row_other (u i u' i' : string) (l : list Inv.t) :
  (u', i') <> (u, i) ->
  find (is_row u' i') (filter (fun r => is_row u i r = false) l) = find (is_row u' i') l.
Proof.
  intros Hne. induction l as [|a l IH]; [reflexivity|]. rewrite filter_cons.
  destruct (decide (is_row u i a = false)) as [Ha|Ha]; simpl.
  - destruct (is_row u' i' a); [reflexivity | exact IH].
  - apply not_false_is_true in Ha. rewrite (is_row_other u i u' i' a Hne Ha). exact IH.
Qed.

Lemma find_filter_row_self (u i : string) (l : list Inv.t) :
  find (is_row u i) (filter (fun r => is_row u i r = false) l) = None.
Proof.
  induction l as [|a l IH]; [reflexivity|]. rewrite filter_cons.
  destruct (decide (is_row u i a = false)) as [Ha|Ha]; simpl; [rewrite Ha|]; exact IH.
Qed.

Lemma set_quantity_other (u i u' i' : string) (q : Z) (r : Inv.t) :
  (u', i') <> (u, i) -> is_row u' i' r = true -> set_quantity u i q r = r.
Proof.
  intros Hne H. unfold set_quantity.
  rewrite (is_row_other u' i' u i r) by (auto; congruence). reflexivity.
Qed.

Lemma held_quantity_map_other (u i u' i' : string) (q : Z) (db : DB) :
  (u', i') <> (u, i) ->
  held_quantity u' i' (with_inventory (map (set_quantity u i q)) db) = held_quantity u' i' db.
Proof.
  intros Hne. unfold held_quantity. simpl. rewrite find_map_set_quantity.
  destruct (find (is_row u' i') (inventory db)) as [r|] eqn:E; [|reflexivity]. simpl.
  apply find_some in E as [_ E]. rewrite (set_quantity_other u i u' i' q r Hne E).
  reflexivity.
Qed.

Lemma held_quantity_map_self (u i : string) (q : Z) (db : DB) (existing : Inv.t) :
  find (is_row u i) (inventory db) = Some existing ->
  held_quantity u i (with_inventory (map (set_quantity u i q)) db) = q.
Proof.
  intros E. unfold held_quantity. simpl. rewrite find_map_set_quantity, E. simpl.
  apply find_some in E as [_ E]. unfold set_quantity. rewrite E. reflexivity.
Qed.

(** X1. [addToInventory] adds to the ledger: whatever the store, the
    quantity held of the pair (user, item) grows by the quantity added (a
    pair without a row counts as 0 and gets a row), the quantity held of
    every other pair is the same, and no other table changes. *)
Theorem addToInventory_adds (fresh userId itemId : string) (quantity : Z) (db : DB) :
  let db' := addToInventory fresh userId itemId quantity db in
  held_quantity userId itemId db' = held_quantity userId itemId db + quantity /\
  (forall u i, (u, i) <> (userId, itemId) -> held_quantity u i db' = held_quantity u i db) /\
  profiles db' = profiles db /\ transactions db' = transactions db /\
  cooldowns db' = cooldowns db /\ items db' = items db.
Proof.
  intros db'. split; [|split].
  - subst db'. unfold addToInventory.
    destruct (find (is_row userId itemId) (inventory db)) as [existing|] eqn:E.
    + rewrite (held_quantity_map_self _ _ _ _ _ E). unfold held_quantity. rewrite E.
      reflexivity.
    + unfold held_quantity. simpl. rewrite (find_app_None _ _ _ E), E. simpl.
      unfold is_row. simpl. rewrite !bool_decide_eq_true_2 by reflexivity. simpl. lia.
  - intros u i Hne. subst db'. unfold addToInventory.
    destruct (find (is_row userId itemId) (inventory db)) as [existing|] eqn:E.
    + apply held_quantity_map_other, Hne.
    + unfold held_quantity. simpl.
      destruct (find (is_row u i) (inventory db)) as [r|] eqn:E'.
      * rewrite (find_app_Some _ _ _ _ E'). reflexivity.
      * rewrite (find_app_None _ _ _ E'). simpl.
        destruct (is_row u i (Inv.mk fresh userId itemId quantity)) eqn:Hr; [|reflexivity].
        apply is_row_key in Hr. unfold row_key in Hr. simpl in Hr. congruence.
  - destruct (addToInventory_frame fresh userId itemId quantity db) as (? & ? & ? & ? & ?).
    auto.
Qed.

(** X2. [removeFromInventory] takes from the ledger: it raises exactly when
    the pair (user, item) has no row; otherwise a row whose quantity is at
    most the quantity removed is deleted, a larger one is reduced by it;
    the quantity held of every other pair is the same. *)
Theorem removeFromInventory_takes (userId itemId : string) (quantity : Z) (db : DB) :
  match removeFromInventory userId itemId quantity db with
  | None => find (is_row userId itemId) (inventory db) = None
  | Some db' =>
      is_Some (find (is_row userId itemId) (inventory db)) /\
      (if held_quantity userId itemId db <=? quantity
       then find (is_row userId itemId) (inventory db') = None
       else held_quantity userId itemId db' = held_quantity userId itemId db - quantity) /\
      (forall u i, (u, i) <> (userId, itemId) ->
                   held_quantity u i db' = held_quantity u i db)
  end.
Proof.
  unfold removeFromInventory.
  destruct (find (is_row userId itemId) (inventory db)) as [existing|] eqn:E;
    [|reflexivity].
  assert (Hheld : held_quantity userId itemId db = Inv.quantity existing)
    by (unfold held_quantity; rewrite E; reflexivity).
  rewrite Hheld.
  destruct (Inv.quantity existing <=? quantity) eqn:Hq.
  - split; [eauto|]. split.
    + simpl. apply find_filter_row_self.
    + intros u i Hne. unfold held_quantity. simpl.
      rewrite (find_filter_row_other _ _ _ _ _ Hne). reflexivity.
  - split; [eauto|]. split.
    + apply (held_quantity_map_self _ _ _ _ _ E).
    + intros u i Hne. apply held_quantity_map_other, Hne.
Qed.

Lemma ledger_single_row (u i : string) (l : list Inv.t) (r r' : Inv.t) :
  NoDup (row_key <$> l) -> find (is_row u i) l = Some r ->
  r' ∈ l -> is_row u i r' = true -> r' = r.
Proof.
  induction l as [|a l IH]; intros Hnd Hf Hin Hr'; [discriminate|].
  rewrite fmap_cons in Hnd. apply NoDup_cons in Hnd as [Ha Hnd]. simpl in Hf.
  destruct (is_row u i a) eqn:Hra.
  - injection Hf as <-. apply elem_of_cons in Hin as [->|Hin]; [reflexivity|].
    exfalso. apply Ha. apply list_elem_of_fmap. exists r'. split; [|exact Hin].
    apply is_row_key in Hra, Hr'. congruence.
  - apply elem_of_cons in Hin as [->|Hin]; [congruence|]. eauto.
Qed.

Lemma filter_no_row (u i : string) (l : list Inv.t) :
  find (is_row u i) l = None -> filter (fun r => is_row u i r = false) l = l.
Proof.
  induction l as [|a l IH]; [reflexivity|]. simpl. rewrite filter_cons.
  destruct (is_row u i a) eqn:Ha; [discriminate|]. intros H.
  destruct (decide (false = false)); [|congruence]. f_equal. auto.
Qed.

Lemma with_inventory_id (f : list Inv.t -> list Inv.t) (db : DB) :
  f (inventory db) = inventory db -> with_inventory f db = db.
Proof. destruct db. unfold with_inventory. simpl. intros ->. reflexivity. Qed.

Lemma set_quantity_twice (u i : string) (q q' : Z) (r : Inv.t) :
  set_quantity u i q' (set_quantity u i q r) = set_quantity u i q' r.
Proof.
  unfold set_quantity at 1. rewrite is_row_set_quantity. unfold set_quantity.
  destruct (is_row u i r); reflexivity.
Qed.

Lemma set_quantity_same (u i : string) (q : Z) (r : Inv.t) :
  (is_row u i r = true -> q = Inv.quantity r) -> set_quantity u i q r = r.
Proof.
  unfold set_quantity. destruct (is_row u i r); [|reflexivity].
  intros ->; [|reflexivity]. destruct r; reflexivity.
Qed.

Lemma quantity_set_quantity (u i : string) (q : Z) (r : Inv.t) :
  is_row u i r = true -> Inv.quantity (set_quantity u i q r) = q.
Proof. unfold set_quantity. intros ->. reflexivity. Qed.

(** X3. Adding a quantity and removing it again is a round trip: on a
    ledger that has one row per (user, item) and no quantity below 1,
    [removeFromInventory] after [addToInventory] of the same pair and
    quantity does not raise and gives back the store it started from. *)
Theorem add_then_remove_restores (fresh userId itemId : string) (quantity : Z) (db : DB) :
  ledger_ok (inventory db) ->
  removeFromInventory userId itemId quantity (addToInventory fresh userId itemId quantity db)
  = Some db.
Proof.
  intros [Hnd Hpos]. unfold addToInventory.
  destruct (find (is_row userId itemId) (inventory db)) as [existing|] eqn:E.
  - unfold removeFromInventory. cbn [inventory with_inventory].
    rewrite find_map_set_quantity, E. cbn [fmap option_fmap option_map].
    pose proof (find_some _ _ E) as [Hin Hrow].
    rewrite (quantity_set_quantity _ _ _ _ Hrow).
    rewrite Forall_forall in Hpos. pose proof (Hpos _ (proj2 (list_elem_of_In _ _) Hin)) as H1.
    destruct (Z.leb_spec (Inv.quantity existing + quantity) quantity); [lia|].
    f_equal. destruct db as [ps its inv txs cds st]. unfold with_inventory. simpl in *.
    f_equal. rewrite map_map. rewrite <- (map_id inv) at 2. apply map_ext_in.
    intros r Hr. rewrite set_quantity_twice. apply set_quantity_same. intros Hrr.
    assert (r = existing)
      by (apply (ledger_single_row userId itemId inv); auto; apply list_elem_of_In, Hr).
    subst r. lia.
  - unfold removeFromInventory. simpl. rewrite (find_app_None _ _ _ E). simpl.
    assert (Hk : is_row userId itemId (Inv.mk fresh userId itemId quantity) = true).
    { apply is_row_key. reflexivity. }
    rewrite Hk. simpl. rewrite Z.leb_refl. f_equal.
    destruct db as [ps its inv txs cds st]. unfold with_inventory. simpl in *. f_equal.
    rewrite filter_app, (filter_no_row _ _ _ E), filter_cons.
    destruct (decide (is_row userId itemId (Inv.mk fresh userId itemId quantity) = false));
      [congruence|]. rewrite filter_nil. apply app_nil_r.
Qed.

Lemma ledger_ok_tools_db : ledger_ok (inventory tools_db).
Proof.
  split.
  - apply (bool_decide_unpack _). vm_compute. exact I.
  - repeat constructor; simpl; lia.
Qed.

Lemma add_then_remove_restores_witness :
  removeFromInventory "alice" "item-1" 3 (addToInventory "row-9" "alice" "item-1" 3 tools_db)
  = Some tools_db.
Proof. apply add_then_remove_restores, ledger_ok_tools_db. Defined.

(** ** The footprint of a request *)

Lemma rows_of_map_other (u i u' : string) (q : Z) (l : list Inv.t) :
  u' <> u -> rows_of u' (map (set_quantity u i q) l) = rows_of u' l.
Proof.
  intros Hne. unfold rows_of. induction l as [|a l IH]; [reflexivity|].
  cbn [map]. rewrite !filter_cons.
  assert (Ho : owned_by u' (set_quantity u i q a) = owned_by u' a).
  { unfold set_quantity. destruct (is_row u i a); reflexivity. }
  rewrite Ho. destruct (decide (owned_by u' a = true)) as [Ha|Ha]; [|exact IH].
  rewrite IH. f_equal. unfold set_quantity. destruct (is_row u i a) eqn:Hr; [|reflexivity].
  exfalso. unfold owned_by in Ha. apply bool_decide_eq_true in Ha.
  unfold is_row in Hr. apply andb_true_iff in Hr as [Hr _].
  apply bool_decide_eq_true in Hr. congruence.
Qed.

Lemma rows_of_filter_other (u i u' : string) (l : list Inv.t) :
  u' <> u -> rows_of u' (filter (fun r => is_row u i r = false) l) = rows_of u' l.
Proof.
  intros Hne. unfold rows_of. induction l as [|a l IH]; [reflexivity|].
  rewrite (filter_cons (fun r => is_row u i r = false)).
  destruct (decide (is_row u i a = false)) as [Ha|Ha].
  - rewrite !filter_cons. destruct (decide (owned_by u' a = true)); [f_equal|]; exact IH.
  - rewrite filter_cons. destruct (decide (owned_by u' a = true)) as [Ho|Ho]; [|exact IH].
    exfalso. apply not_false_is_true in Ha. unfold owned_by in Ho.
    apply bool_decide_eq_true in Ho. unfold is_row in Ha.
    apply andb_true_iff in Ha as [Ha _]. apply bool_decide_eq_true in Ha. congruence.
Qed.

Lemma rows_of_app_other (u' : string) (l : list Inv.t) (r : Inv.t) :
  Inv.user_id r <> u' -> rows_of u' (l ++ [r]) = rows_of u' l.
Proof.
  intros Hne. unfold rows_of. rewrite filter_app, filter_cons.
  destruct (decide (owned_by u' r = true)) as [Ho|Ho].
  - unfold owned_by in Ho. apply bool_decide_eq_true in Ho. contradiction.
  - rewrite filter_nil. apply app_nil_r.
Qed.

Lemma row_keys_set_quantity (u i : string) (q : Z) (l : list Inv.t) :
  row_key <$> map (set_quantity u i q) l = row_key <$> l.
Proof.
  induction l as [|a l IH]; [reflexivity|]. cbn [map]. rewrite !fmap_cons.
  rewrite row_key_set_quantity, IH. reflexivity.
Qed.

Lemma ledger_ok_add (fresh u i : string) (q : Z) (db : DB) :
  1 <= q -> ledger_ok (inventory db) ->
  ledger_ok (inventory (addToInventory fresh u i q db)).
Proof.
  intros Hq [Hnd Hpos]. unfold addToInventory.
  destruct (find (is_row u i) (inventory db)) as [existing|] eqn:E; simpl.
  - pose proof (find_some _ _ E) as [Hin _].
    rewrite Forall_forall in Hpos.
    pose proof (Hpos _ (proj2 (list_elem_of_In _ _) Hin)) as H1. split.
    + rewrite row_keys_set_quantity. exact Hnd.
    + apply Forall_forall. intros r Hr. apply list_elem_of_fmap in Hr as (r0 & -> & Hr0).
      unfold set_quantity. destruct (is_row u i r0); simpl; [lia | auto].
  - split.
    + rewrite fmap_app. apply NoDup_app. split; [exact Hnd|]. split.
      * intros k Hk Hk'. apply list_elem_of_singleton in Hk'. subst k.
        apply list_elem_of_fmap in Hk as (r & Hkey & Hr).
        pose proof (find_none _ _ E r (proj1 (list_elem_of_In _ _) Hr)) as Hn.
        symmetry in Hkey. change (row_key r = (u, i)) in Hkey.
        apply is_row_key in Hkey. congruence.
      * apply NoDup_singleton.
    + apply Forall_app. split; [exact Hpos|]. repeat constructor. exact Hq.
Qed.

Lemma ledger_ok_remove (u i : string) (q : Z) (db db' : DB) :
  removeFromInventory u i q db = Some db' ->
  ledger_ok (inventory db) -> ledger_ok (inventory db').
Proof.
  unfold removeFromInventory.
  destruct (find (is_row u i) (inventory db)) as [existing|] eqn:E; [|discriminate].
  destruct (Z.leb_spec (Inv.quantity existing) q) as [Hle|Hgt]; intros [= <-] [Hnd Hpos];
    simpl.
  - split.
    + eapply sublist_NoDup; [exact Hnd|]. apply fmap_sublist, sublist_filter.
    + rewrite Forall_forall in Hpos. apply Forall_forall. intros r Hr.
      apply list_elem_of_filter in Hr as [_ Hr]. auto.
  - split.
    + rewrite row_keys_set_quantity. exact Hnd.
    + rewrite Forall_forall in Hpos. apply Forall_forall. intros r Hr.
      apply list_elem_of_fmap in Hr as (r0 & -> & Hr0).
      unfold set_quantity. destruct (is_row u i r0); simpl; [lia | auto].
Qed.

Ltac confined_parts :=
  unfold confined; repeat match goal with |- _ /\ _ => split end.

Lemma confined_refl (now : Z) (us : list string) (cs : list (string * string)) (db : DB) :
  confined now us cs db db.
Proof.
  confined_parts; auto. exists []. split; [symmetry; apply app_nil_r|].
  constructor.
Qed.

Lemma confined_step (now : Z) (us : list string) (cs : list (string * string))
  (db db1 db2 : DB) :
  confined now us cs db db1 -> confined now us cs db1 db2 -> confined now us cs db db2.
Proof.
  intros (Hi & Hs & Hp & Hc & Hr & (new & Ht & Hn) & Hl)
         (Hi' & Hs' & Hp' & Hc' & Hr' & (new' & Ht' & Hn') & Hl').
  confined_parts.
  - congruence.
  - congruence.
  - intros u Hu. rewrite Hp', Hp; auto.
  - intros k Hk. rewrite Hc', Hc; auto.
  - intros u Hu. rewrite Hr', Hr; auto.
  - exists (new ++ new'). split; [rewrite Ht', Ht; symmetry; apply app_assoc|].
    apply Forall_app; auto.
  - intros Hk. apply Hl', Hl, Hk.
Qed.

Lemma confined_getProfile (now : Z) (us : list string) (cs : list (string * string))
  (db db1 : DB) (userId : string) :
  confined now us cs db db1 -> userId ∈ us ->
  confined now us cs db (fst (getProfile userId db1)).
Proof.
  intros H Hu. eapply confined_step; [exact H|].
  destruct (getProfile_frame userId db1) as (Hi & Hv & Ht & Hc & Hs).
  confined_parts; rewrite ?Hi, ?Hv, ?Ht, ?Hc, ?Hs; auto.
  - intros u Hn. apply getProfile_other. intros ->. contradiction.
  - exists []. split; [symmetry; apply app_nil_r | constructor].
Qed.

Lemma confined_updateProfile (now : Z) (us : list string) (cs : list (string * string))
  (db db1 : DB) (userId : string) (updates : Updates) :
  confined now us cs db db1 -> userId ∈ us ->
  confined now us cs db (updateProfile userId updates db1).
Proof.
  intros H Hu. eapply confined_step; [exact H|].
  confined_parts.
  - unfold updateProfile. destruct (profiles db1 !! userId); reflexivity.
  - unfold updateProfile. destruct (profiles db1 !! userId); reflexivity.
  - intros u Hn. apply updateProfile_other. intros ->. contradiction.
  - unfold updateProfile. destruct (profiles db1 !! userId); reflexivity.
  - unfold updateProfile. destruct (profiles db1 !! userId); reflexivity.
  - exists []. split; [|constructor]. rewrite app_nil_r.
    unfold updateProfile. destruct (profiles db1 !! userId); reflexivity.
  - unfold updateProfile. destruct (profiles db1 !! userId); simpl; tauto.
Qed.

Lemma confined_checkCooldown (now : Z) (us : list string) (cs : list (string * string))
  (db db1 : DB) (userId command : string) :
  confined now us cs db db1 -> (userId, command) ∈ cs ->
  confined now us cs db (fst (checkCooldown now userId command db1)).
Proof.
  intros H Hk. eapply confined_step; [exact H|].
  destruct (checkCooldown_frame now userId command db1) as (Hp & Hi & Hv & Ht & Hs).
  confined_parts; rewrite ?Hp, ?Hi, ?Hv, ?Ht, ?Hs; auto.
  - intros k Hn. unfold checkCooldown.
    destruct (cooldowns db1 !! (userId, command)) as [e|]; [|reflexivity].
    destruct (now <? e); [reflexivity|]. simpl. apply lookup_delete_ne.
    intros <-. contradiction.
  - exists []. split; [symmetry; apply app_nil_r | constructor].
Qed.

Lemma confined_setCooldown (now : Z) (us : list string) (cs : list (string * string))
  (db db1 : DB) (userId command : string) (hours : Q) :
  confined now us cs db db1 -> (userId, command) ∈ cs ->
  confined now us cs db (setCooldown now userId command hours db1).
Proof.
  intros H Hk. eapply confined_step; [exact H|].
  confined_parts; simpl; auto.
  - intros k Hn. apply lookup_insert_ne. intros <-. contradiction.
  - exists []. split; [symmetry; apply app_nil_r | constructor].
Qed.

Lemma or_null_nonzero (x : option Z) : or_null x <> Some 0.
Proof.
  destruct x as [n|]; simpl; [|discriminate].
  destruct (decide (n = 0)); [discriminate | congruence].
Qed.

Lemma confined_logTransaction (now : Z) (us : list string) (cs : list (string * string))
  (db db1 : DB) (transaction : TxRequest) :
  confined now us cs db db1 ->
  t_type transaction ∈ tx_types ->
  t_userId transaction ∈ us ->
  (forall v, t_targetUserId transaction = Some v -> v ∈ us) ->
  confined now us cs db (logTransaction now transaction db1).
Proof.
  intros H Hty Hu Hv. eapply confined_step; [exact H|].
  confined_parts; simpl; auto.
  eexists. split; [reflexivity|]. constructor; [|constructor].
  unfold tx_ok. simpl. split; [reflexivity|]. split; [exact Hty|]. split; [exact Hu|].
  split; [exact Hv | apply or_null_nonzero].
Qed.

Lemma confined_addToInventory (now : Z) (us : list string) (cs : list (string * string))
  (db db1 : DB) (fresh userId itemId : string) (quantity : Z) :
  confined now us cs db db1 -> userId ∈ us -> 1 <= quantity ->
  confined now us cs db (addToInventory fresh userId itemId quantity db1).
Proof.
  intros H Hu Hq. eapply confined_step; [exact H|].
  destruct (addToInventory_frame fresh userId itemId quantity db1) as (Hp & Hi & Ht & Hc & Hs).
  confined_parts; rewrite ?Hp, ?Hi, ?Ht, ?Hc, ?Hs; auto.
  - intros u Hn. assert (u <> userId) by (intros ->; contradiction).
    unfold addToInventory. destruct (find _ _); simpl.
    + apply rows_of_map_other; assumption.
    + apply rows_of_app_other. simpl. congruence.
  - exists []. split; [symmetry; apply app_nil_r | constructor].
  - intros Hk. apply ledger_ok_add; assumption.
Qed.

Lemma confined_removeFromInventory (now : Z) (us : list string)
  (cs : list (string * string)) (db db1 db2 : DB) (userId itemId : string) (quantity : Z) :
  removeFromInventory userId itemId quantity db1 = Some db2 ->
  confined now us cs db db1 -> userId ∈ us ->
  confined now us cs db db2.
Proof.
  intros E H Hu. eapply confined_step; [exact H|].
  destruct (removeFromInventory_frame _ _ _ _ _ E) as (Hp & Hi & Ht & Hc & Hs).
  confined_parts; rewrite ?Hp, ?Hi, ?Ht, ?Hc, ?Hs; auto.
  - intros u Hn. assert (u <> userId) by (intros ->; contradiction).
    unfold removeFromInventory in E. destruct (find _ _) as [existing|]; [|discriminate].
    destruct (Inv.quantity existing <=? quantity); injection E as <-; simpl.
    + apply rows_of_filter_other; assumption.
    + apply rows_of_map_other; assumption.
  - exists []. split; [symmetry; apply app_nil_r | constructor].
  - apply (ledger_ok_remove _ _ _ _ _ E).
Qed.

Create HintDb confined_db.

#[export] Hint Resolve confined_refl confined_getProfile confined_updateProfile
  confined_checkCooldown confined_setCooldown confined_addToInventory : confined_db.

#[export] Hint Extern 1 (_ ∈ _) => (simpl; unfold tx_types; set_solver) : confined_db.
#[export] Hint Extern 2 (confined _ _ _ _ (logTransaction _ _ _)) =>
  (apply confined_logTransaction;
   [ | | | simpl; intros ? [= <-]; set_solver ]) : confined_db.
#[export] Hint Extern 1 (_ <= _) => lia : confined_db.

Lemma confined_daily_reward (now : Z) (us : list string) (cs : list (string * string))
  (db db1 : DB) (userId : string) (profile : Profile) (settings : Settings)
  (newStreak : Z) :
  userId ∈ us -> (userId, "daily") ∈ cs ->
  confined now us cs db db1 ->
  confined now us cs db (fst (daily_reward now userId profile settings newStreak db1)).
Proof.
  intros Hu Hk H. unfold daily_reward. simpl. auto 10 with confined_db.
Qed.

Lemma confined_daily (now : Z) (userId : string) (db : DB) :
  confined now [userId] [(userId, "daily")] db (fst (daily_execute now userId db)).
Proof.
  unfold daily_execute.
  assert (H0 : confined now [userId] [(userId, "daily")] db
                 (fst (checkCooldown now userId "daily" db))) by auto with confined_db.
  destruct (checkCooldown now userId "daily" db) as [db0 c]. simpl in H0.
  destruct c; [exact H0|].
  assert (H1 : confined now [userId] [(userId, "daily")] db (fst (getProfile userId db0)))
    by auto with confined_db.
  destruct (getProfile userId db0) as [db1 profile]. simpl in H1.
  destruct (daily_newStreak now profile); [|exact H1].
  apply confined_daily_reward; auto with confined_db.
Qed.

Lemma confined_work (now : Z) (random : Q) (userId : string) (db : DB) :
  confined now [userId] [(userId, "work")] db (fst (work_execute now random userId db)).
Proof.
  unfold work_execute.
  assert (H0 : confined now [userId] [(userId, "work")] db
                 (fst (checkCooldown now userId "work" db))) by auto with confined_db.
  destruct (checkCooldown now userId "work" db) as [db0 c]. simpl in H0.
  destruct c; [exact H0|].
  assert (H1 : confined now [userId] [(userId, "work")] db (fst (getProfile userId db0)))
    by auto with confined_db.
  destruct (getProfile userId db0) as [db1 profile]. simpl in H1.
  destruct (work_boost _) as [totalBoost bestTool]. simpl. auto 10 with confined_db.
Qed.

Lemma confined_pay (now : Z) (sender recipient : string) (recipient_bot : bool)
  (amount : Z) (db : DB) :
  confined now [sender; recipient] [] db
    (fst (pay_execute now sender recipient recipient_bot amount db)).
Proof.
  unfold pay_execute.
  destruct (decide (sender = recipient)); [apply confined_refl|].
  destruct recipient_bot; [apply confined_refl|].
  assert (H1 : confined now [sender; recipient] [] db (fst (getProfile sender db)))
    by auto with confined_db.
  destruct (getProfile sender db) as [db1 senderProfile]. simpl in H1.
  assert (H2 : confined now [sender; recipient] [] db (fst (getProfile recipient db1)))
    by auto with confined_db.
  destruct (getProfile recipient db1) as [db2 recipientProfile]. simpl in H2.
  destruct (coins senderProfile <? amount); simpl; auto 10 with confined_db.
Qed.

Lemma confined_rob (now : Z) (random1 random2 : Q) (robber target : string)
  (target_bot : bool) (db : DB) :
  confined now [robber; target] [(robber, "rob")] db
    (fst (rob_execute now random1 random2 robber target target_bot db)).
Proof.
  unfold rob_execute.
  destruct (decide (robber = target)); [apply confined_refl|].
  destruct target_bot; [apply confined_refl|].
  assert (H0 : confined now [robber; target] [(robber, "rob")] db
                 (fst (checkCooldown now robber "rob" db))) by auto with confined_db.
  destruct (checkCooldown now robber "rob" db) as [db0 c]. simpl in H0.
  destruct c; [exact H0|].
  assert (H1 : confined now [robber; target] [(robber, "rob")] db
                 (fst (getProfile robber db0))) by auto with confined_db.
  destruct (getProfile robber db0) as [db1 robberProfile]. simpl in H1.
  assert (H2 : confined now [robber; target] [(robber, "rob")] db
                 (fst (getProfile target db1))) by auto with confined_db.
  destruct (getProfile target db1) as [db2 targetProfile]. simpl in H2.
  destruct (coins targetProfile <? 500); [exact H2|].
  destruct (coins robberProfile <? 100); [exact H2|].
  destruct (Qltb random1 _); simpl; auto 10 with confined_db.
Qed.

Lemma confined_shop (now : Z) (fresh userId itemId : string) (db : DB) :
  confined now [userId] [] db (fst (shop_handleButton now fresh userId itemId db)).
Proof.
  unfold shop_handleButton.
  destruct (find _ (getItems db)) as [item|]; [|apply confined_refl].
  assert (H1 : confined now [userId] [] db (fst (getProfile userId db)))
    by auto with confined_db.
  destruct (getProfile userId db) as [db1 profile]. simpl in H1.
  destruct (coins profile <? Item.price item); simpl; auto 10 with confined_db.
Qed.

Lemma confined_sell (now : Z) (userId : string) (item : Item.t) (db db0 : DB) :
  confined now [userId] [] db db0 ->
  confined now [userId] [] db (fst (inventory_sell now userId item db0)).
Proof.
  intros H0. unfold inventory_sell.
  assert (H1 : confined now [userId] [] db (fst (getProfile userId db0)))
    by auto with confined_db.
  destruct (getProfile userId db0) as [db1 profile]. simpl in H1.
  set (db2 := updateProfile userId _ db1).
  assert (H2 : confined now [userId] [] db db2) by (unfold db2; auto with confined_db).
  destruct (removeFromInventory userId (Item.id item) 1 db2) as [db3|] eqn:E; simpl.
  - apply confined_logTransaction; auto with confined_db.
    eapply confined_removeFromInventory; eauto with confined_db.
  - apply confined_logTransaction; auto with confined_db.
Qed.

Lemma confined_consume (now : Z) (userId : string) (item : Item.t) (effect : Effect.t)
  (resultText : Reply) (db db0 : DB) :
  confined now [userId] [] db db0 ->
  confined now [userId] [] db
    (fst (inventory_consume now userId item effect resultText db0)).
Proof.
  intros H0. unfold inventory_consume.
  destruct (removeFromInventory userId (Item.id item) 1 db0) as [db1|] eqn:E; simpl;
    [|exact H0].
  apply confined_logTransaction; auto with confined_db.
  eapply confined_removeFromInventory; eauto with confined_db.
Qed.

Lemma confined_use (now : Z) (userId : string) (item : Item.t) (db db0 : DB) :
  confined now [userId] [] db db0 ->
  confined now [userId] [] db (fst (inventory_use now userId item db0)).
Proof.
  intros H0. unfold inventory_use.
  destruct (effect_of_type "consumable" item) as [effect|]; [|exact H0].
  assert (H1 : confined now [userId] [] db (fst (getProfile userId db0)))
    by auto with confined_db.
  destruct (getProfile userId db0) as [db1 profile]. simpl in H1.
  destruct (decide (Effect.effect effect = "xp_grant")).
  { destruct (as_bigint _) as [x|] eqn:E; [|exact H1].
    apply confined_consume. auto with confined_db. }
  destruct (decide (Effect.effect effect = "daily_boost")).
  { apply confined_consume. auto with confined_db. }
  destruct (decide (Effect.effect effect = "cooldown_restore"));
    apply confined_consume, H1.
Qed.

Lemma confined_inventory (now : Z) (action invItemId userId : string) (db : DB) :
  confined now [userId] [] db (fst (inventory_handleButton now action invItemId userId db)).
Proof.
  unfold inventory_handleButton.
  destruct (find _ (getInventory userId db)) as [invItem|]; [|apply confined_refl].
  destruct (decide (action = "sell")); [apply confined_sell, confined_refl|].
  destruct (decide (action = "use")); [apply confined_use, confined_refl|].
  apply confined_refl.
Qed.

Lemma confined_handle (now : Z) (req : Request) (db : DB) :
  confined now (parties req) (gate_of req) db (fst (handle now req db)).
Proof.
  destruct req; simpl.
  - apply confined_daily.
  - apply confined_work.
  - apply confined_pay.
  - apply confined_rob.
  - apply confined_shop.
  - apply confined_inventory.
Qed.

(** X4. A request stays within its own footprint. For every request and
    every store: the catalog and the settings are never written; the
    account and the inventory of every user the request does not name are
    the same after it; the only cooldown row that may change is the one of
    the caller for the command of the request ([/pay] and the buttons touch
    no cooldown row at all). *)
Theorem request_stays_in_footprint (now : Z) (req : Request) (db : DB) :
  let db' := fst (handle now req db) in
  items db' = items db /\
  server_settings db' = server_settings db /\
  (forall u, u ∉ parties req ->
             profiles db' !! u = profiles db !! u /\
             getInventory u db' = getInventory u db) /\
  (forall k, k ∉ gate_of req -> cooldowns db' !! k = cooldowns db !! k).
Proof.
  intros db'. destruct (confined_handle now req db) as (Hi & Hs & Hp & Hc & Hr & _ & _).
  fold db' in Hi, Hs, Hp, Hc, Hr. split; [exact Hi|]. split; [exact Hs|].
  split; [|exact Hc]. intros u Hu. split; [apply Hp, Hu|].
  unfold getInventory. rewrite Hi. f_equal. apply (Hr u Hu).
Qed.

(** X5. The audit log only grows, and by well-formed records. For every
    request: the records that were in [transactions] are still there, in
    their order, and what the request appends at the end is stamped with
    the time of the request, carries a type the check constraint of the
    table admits, names only users of the request (as owner and as target)
    and never has the amount 0 (a zero amount is stored as null). *)
Theorem audit_log_grows_by_valid_records (now : Z) (req : Request) (db : DB) :
  exists new,
    transactions (fst (handle now req db)) = transactions db ++ new /\
    Forall (fun t =>
              Tx.created_at t = now /\
              Tx.type t ∈ tx_types /\
              Tx.user_id t ∈ parties req /\
              (forall v, Tx.target_user_id t = Some v -> v ∈ parties req) /\
              Tx.amount t <> Some 0) new.
Proof.
  destruct (confined_handle now req db) as (_ & _ & _ & _ & _ & (new & Ht & Hn) & _).
  exists new. split; [exact Ht | exact Hn].
Qed.

(** X6. The handlers keep the constraints of the inventory table. If the
    ledger has one row per (user, item) and no quantity below 1 before a
    request, it has so after it: a purchase adds 1 to the row of the pair
    or inserts the row when there is none, and a sale or a use deletes the
    row instead of leaving it with quantity 0. *)
Theorem ledger_constraints_kept (now : Z) (req : Request) (db : DB) :
  ledger_ok (inventory db) -> ledger_ok (inventory (fst (handle now req db))).
Proof.
  destruct (confined_handle now req db) as (_ & _ & _ & _ & _ & _ & Hl). exact Hl.
Qed.

Lemma ledger_constraints_kept_witness :
  ledger_ok (inventory (fst (handle 0 (InventoryButton "alice" "sell" "row-1") tools_db))).
Proof. apply ledger_constraints_kept, ledger_ok_tools_db. Defined.

(** ** The cooldown tracker of [database.js] *)

(** X7. [checkCooldown] reports a cooldown exactly when the pair (user,
    command) has a row that expires strictly after the clock. Then the
    store is left as it is. Otherwise no row of the pair is left behind: a
    row that expired, even at this very instant, is deleted. No row of
    another pair is touched. *)
Theorem checkCooldown_reports_active_rows (now : Z) (userId command : string) (db : DB) :
  let db' := fst (checkCooldown now userId command db) in
  let result := snd (checkCooldown now userId command db) in
  (forall expiresAt,
     result = Some expiresAt <->
     cooldowns db !! (userId, command) = Some expiresAt /\ now < expiresAt) /\
  (result <> None -> db' = db) /\
  (result = None -> cooldowns db' !! (userId, command) = None) /\
  (forall k, k <> (userId, command) -> cooldowns db' !! k = cooldowns db !! k).
Proof.
  unfold checkCooldown.
  destruct (cooldowns db !! (userId, command)) as [e|] eqn:E; simpl.
  - destruct (Z.ltb_spec now e) as [Hlt|Hge]; simpl.
    + split; [|split; [|split]]; auto; try congruence.
      intros x. split; [intros [= <-]; auto | intros [[= <-] _]; reflexivity].
    + split; [|split; [|split]]; try congruence.
      * intros x. split; [discriminate | intros [[= <-] Hx]; lia].
      * intros _. apply lookup_delete_eq.
      * intros k Hk. apply lookup_delete_ne. congruence.
  - split; [|split; [|split]]; auto; try congruence.
    intros x. split; [discriminate | intros [[=] _]].
Qed.




(** ** The cooldown of [/work] *)





(** ** [/daily]: one grant per 24 hours *)

Lemma daily_reward_last_daily (now : Z) (userId : string) (profile : Profile)
  (settings : Settings) (newStreak : Z) (db : DB) :
  is_Some (profiles db !! userId) ->
  exists p,
    profiles (fst (daily_reward now userId profile settings newStreak db)) !! userId = Some p
    /\ last_daily p = Some now.
Proof.
  intros [p Hp]. unfold daily_reward. simpl.
  rewrite (updateProfile_lookup _ _ _ _ Hp). eexists. split; reflexivity.
Qed.

Lemma hours_between_below_24 (now' now : Z) :
  now' - now < 24 * ms_per_hour -> (hours_between now' now < 24)%Q.
Proof.
  intros H. unfold hours_between.
  assert (Hq : (inject_Z (now' - now) < inject_Z 86400000)%Q).
  { rewrite <- Zlt_Qlt. unfold ms_per_hour in H. lia. }
  change (inject_Z 86400000) with 86400000%Q in Hq.
  apply Qlt_shift_div_r; [reflexivity|]. apply Qlt_shift_div_r; [reflexivity|].
  apply Qlt_shift_div_r; [reflexivity|]. lra.
Qed.

(** X10. The modular [/daily] never grants twice within 24 hours. If a
    claim is granted at [now], every further claim of the same user at an
    instant less than 24 hours later is refused, with the cooldown message
    or with "already claimed", and writes no account, no audit record and
    no inventory row. This holds for every value of
    [daily_cooldown_hours], also one below 24. *)
Theorem daily_not_twice_within_24h (now now' : Z) (userId : string) (db : DB) :
  (exists totalAmount xpGain baseAmount streakBonus newStreak newLevel,
     snd (daily_execute now userId db)
     = DailyClaimed totalAmount xpGain baseAmount streakBonus newStreak newLevel) ->
  now' - now < 24 * ms_per_hour ->
  let db1 := fst (daily_execute now userId db) in
  let db2 := fst (daily_execute now' userId db1) in
  (snd (daily_execute now' userId db1) = AlreadyClaimed \/
   exists timeLeft, snd (daily_execute now' userId db1) = OnCooldown timeLeft) /\
  profiles db2 = profiles db1 /\
  transactions db2 = transactions db1 /\
  inventory db2 = inventory db1.
Proof.
  intros (a & b & c & d & e & f & Hreply) Hsoon db1.
  assert (Hlast : exists p, profiles db1 !! userId = Some p /\ last_daily p = Some now).
  { subst db1. destruct (snd (checkCooldown now userId "daily" db)) as [x|] eqn:Hgate.
    - exfalso. unfold daily_execute in Hreply.
      destruct (checkCooldown now userId "daily" db) as [db0 cd]. simpl in Hgate.
      subst cd. discriminate Hreply.
    - rewrite (daily_execute_passed now userId db Hgate) in Hreply |- *.
      destruct (daily_newStreak now (snd (getProfile userId db))) as [s|];
        [|discriminate Hreply].
      apply daily_reward_last_daily, getProfile_is_Some. }
  destruct Hlast as (p & Hp & Hpl). intros db2. subst db2. unfold daily_execute.
  destruct (checkCooldown_frame now' userId "daily" db1) as (Hps & _ & Hv & Ht & _).
  destruct (checkCooldown now' userId "daily" db1) as [db0 cd]. simpl in *.
  destruct cd as [expiresAt|]; simpl.
  - split; [right; eexists; reflexivity | auto].
  - unfold getProfile. rewrite Hps, Hp.
    rewrite (daily_newStreak_early now' now p Hpl (hours_between_below_24 _ _ Hsoon)).
    simpl. split; [left; reflexivity | auto].
Qed.

Lemma daily_not_twice_within_24h_witness :
  snd (daily_execute (129600000 + 12 * ms_per_hour) "alice"
         (fst (daily_execute 129600000 "alice" short_cooldown_db)))
  = AlreadyClaimed \/
  exists timeLeft,
    snd (daily_execute (129600000 + 12 * ms_per_hour) "alice"
           (fst (daily_execute 129600000 "alice" short_cooldown_db)))
    = OnCooldown timeLeft.
Proof.
  apply (daily_not_twice_within_24h 129600000 (129600000 + 12 * ms_per_hour) "alice"
           short_cooldown_db).
  - eexists _, _, _, _, _, _. vm_compute. reflexivity.
  - vm_compute. reflexivity.
Defined.

(** ** [/pay]: a successful transfer *)

Lemma getProfile_snd_ext (u : string) (db db' : DB) :
  profiles db' !! u = profiles db !! u ->
  snd (getProfile u db') = snd (getProfile u db).
Proof. intros H. unfold getProfile. rewrite H. destruct (profiles db !! u); reflexivity. Qed.

Lemma getProfile_snd_lookup (u : string) (db : DB) (p : Profile) :
  profiles db !! u = Some p -> snd (getProfile u db) = p.
Proof. intros H. unfold getProfile. rewrite H. reflexivity. Qed.




(** ** [/work]: the payout *)




(** ** [/rob]: refused attempts and resolved attempts *)

Lemma rob_execute_gated (now : Z) (random1 random2 : Q) (robber target : string) (db : DB)
  (expiresAt : Z) :
  robber <> target ->
  snd (checkCooldown now robber "rob" db) = Some expiresAt ->
  rob_execute now random1 random2 robber target false db
  = (fst (checkCooldown now robber "rob" db),
     OnCooldown (Qceiling (hours_between expiresAt now))).
Proof.
  intros Hne Hc. unfold rob_execute.
  destruct (decide (robber = target)) as [|_]; [contradiction|].
  destruct (checkCooldown now robber "rob" db) as [db0 c]. simpl in *. subst c.
  reflexivity.
Qed.

Lemma rob_execute_poor (now : Z) (random1 random2 : Q) (robber target : string) (db : DB) :
  robber <> target ->
  passes_gate now robber "rob" db ->
  coins (snd (getProfile target db)) < 500 \/ coins (snd (getProfile robber db)) < 100 ->
  rob_execute now random1 random2 robber target false db
  = (fst (getProfile target
            (fst (getProfile robber (fst (checkCooldown now robber "rob" db))))),
     if coins (snd (getProfile target db)) <? 500 then TargetTooPoor else RobberTooPoor).
Proof.
  intros Hne Hgate Hpoor. unfold passes_gate in Hgate. unfold rob_execute.
  destruct (decide (robber = target)) as [|_]; [contradiction|].
  pose proof (getProfile_after_gate now robber "rob" db) as Hp.
  destruct (checkCooldown_frame now robber "rob" db) as (Hps & _).
  destruct (checkCooldown now robber "rob" db) as [db0 c]. simpl in *. subst c.
  pose proof (getProfile_twice robber target db0 Hne) as Hp2.
  destruct (getProfile robber db0) as [db1 robberProfile]. simpl in *. subst robberProfile.
  assert (Hpt : snd (getProfile target db0) = snd (getProfile target db))
    by (apply getProfile_snd_ext; rewrite Hps; reflexivity).
  destruct (getProfile target db1) as [db2 targetProfile]. simpl in *.
  rewrite Hpt in Hp2. subst targetProfile.
  destruct (Z.ltb_spec (coins (snd (getProfile target db))) 500); [reflexivity|].
  destruct (Z.ltb_spec (coins (snd (getProfile robber db))) 100); [reflexivity | lia].
Qed.

Lemma balance_ext (u : string) (db db' : DB) :
  profiles db' = profiles db -> balance u db' = balance u db.
Proof. intros H. unfold balance. f_equal. apply getProfile_snd_ext. rewrite H. reflexivity. Qed.

(** X13. A refused [/rob] moves nothing. The attempt is refused (robbing
    oneself, a bot, on cooldown, a target below 500 coins, a robber below
    100 coins) exactly when it does not pass validation. A refused attempt
    appends no audit record, changes no inventory row and no balance,
    keeps every account it found as it was, and arms no cooldown: every
    cooldown row of the store after it was there before. *)
Theorem rob_refused_moves_nothing (now : Z) (random1 random2 : Q) (robber target : string)
  (target_bot : bool) (db : DB) :
  let db' := fst (rob_execute now random1 random2 robber target target_bot db) in
  let reply := snd (rob_execute now random1 random2 robber target target_bot db) in
  (rob_rejection reply = false <-> rob_validated now robber target target_bot db) /\
  (rob_rejection reply = true ->
   transactions db' = transactions db /\
   inventory db' = inventory db /\
   (forall u, balance u db' = balance u db) /\
   (forall u p, profiles db !! u = Some p -> profiles db' !! u = Some p) /\
   (forall k e, cooldowns db' !! k = Some e -> cooldowns db !! k = Some e)).
Proof.
  intros db' reply. subst db' reply.
  destruct (decide (robber = target)) as [Heq|Hne].
  { unfold rob_execute. destruct (decide (robber = target)); [|contradiction]. simpl.
    split; [split; [discriminate | intros (H & _); contradiction] | auto 6]. }
  destruct target_bot.
  { unfold rob_execute. destruct (decide (robber = target)); [contradiction|]. simpl.
    split; [split; [discriminate | intros (_ & H & _); discriminate] | auto 6]. }
  destruct (snd (checkCooldown now robber "rob" db)) as [expiresAt|] eqn:Hgate.
  { rewrite (rob_execute_gated now random1 random2 robber target db expiresAt Hne Hgate).
    cbn [fst snd rob_rejection].
    destruct (checkCooldown_frame now robber "rob" db) as (Hp & _ & Hv & Ht & _).
    split.
    - split; [discriminate|]. intros (_ & _ & Hg & _). unfold passes_gate in Hg. congruence.
    - intros _. split; [exact Ht|]. split; [exact Hv|]. split; [|split].
      + intros u. apply balance_ext, Hp.
      + intros u p H. rewrite Hp. exact H.
      + intros k e H.
        destruct (checkCooldown_arms_nothing now robber "rob" db k) as [Hn|Hs]; congruence. }
  destruct (Z.lt_ge_cases (coins (snd (getProfile target db))) 500) as [Ht|Ht];
    [|destruct (Z.lt_ge_cases (coins (snd (getProfile robber db))) 100) as [Hr|Hr]].
  3:{ assert (Hval : rob_validated now robber target false db).
      { unfold rob_validated, passes_gate. repeat split; auto. }
      rewrite (rob_execute_resolved now random1 random2 robber target false db Hval).
      destruct (Qltb random1 _); cbn [fst snd rob_rejection];
        (split; [split; [intros _; exact Hval | reflexivity] | discriminate]). }
  all: rewrite (rob_execute_poor now random1 random2 robber target db Hne Hgate)
    by (auto; lia).
  all: cbn [fst snd].
  all: assert (Hrej : rob_rejection
                        (if coins (snd (getProfile target db)) <? 500
                         then TargetTooPoor else RobberTooPoor) = true)
    by (destruct (coins (snd (getProfile target db)) <? 500); reflexivity).
  all: rewrite Hrej.
  all: destruct (checkCooldown_frame now robber "rob" db) as (Hp & Hi & Hv & Htx & Hs).
  all: destruct (getProfile_pair robber target (fst (checkCooldown now robber "rob" db)))
    as (Hkeep & _ & Hbal & Htx2 & Hv2 & Hc2 & _).
  all: split;
    [split; [discriminate | intros (_ & _ & _ & H5 & H1); lia]|].
  all: intros _; split; [congruence|]; split; [congruence|]; split; [|split].
  all: try (intros u; rewrite Hbal; apply balance_ext, Hp).
  all: try (intros u p H; apply Hkeep; rewrite Hp; exact H).
  all: intros k e H; rewrite Hc2 in H;
    destruct (checkCooldown_arms_nothing now robber "rob" db k) as [Hn|Hsame]; congruence.
Qed.





(** ** The cooldown message *)

Lemma checkCooldown_Some (now : Z) (userId command : string) (db : DB) (expiresAt : Z) :
  snd (checkCooldown now userId command db) = Some expiresAt ->
  now < expiresAt /\ fst (checkCooldown now userId command db) = db.
Proof.
  unfold checkCooldown. destruct (cooldowns db !! (userId, command)) as [e|]; [|discriminate].
  destruct (Z.ltb_spec now e); simpl; [|discriminate]. intros [= <-]. auto.
Qed.

Lemma Qceiling_pos (x : Q) : (0 < x)%Q -> 1 <= Qceiling x.
Proof.
  intros H. assert (0 < Qceiling x); [|lia]. rewrite Zlt_Qlt.
  eapply Qlt_le_trans; [exact H | apply Qle_ceiling].
Qed.

Lemma hours_between_pos (later earlier : Z) :
  earlier < later -> (0 < hours_between later earlier)%Q.
Proof.
  intros H. unfold hours_between.
  assert (Hq : (inject_Z 0 < inject_Z (later - earlier))%Q) by (rewrite <- Zlt_Qlt; lia).
  change (inject_Z 0) with 0%Q in Hq.
  apply Qlt_shift_div_l; [reflexivity|]. apply Qlt_shift_div_l; [reflexivity|].
  apply Qlt_shift_div_l; [reflexivity|]. lra.
Qed.

Lemma minutes_between_pos (later earlier : Z) :
  earlier < later -> (0 < minutes_between later earlier)%Q.
Proof.
  intros H. unfold minutes_between.
  assert (Hq : (inject_Z 0 < inject_Z (later - earlier))%Q) by (rewrite <- Zlt_Qlt; lia).
  change (inject_Z 0) with 0%Q in Hq.
  apply Qlt_shift_div_l; [reflexivity|]. apply Qlt_shift_div_l; [reflexivity|]. lra.
Qed.

Lemma inventory_consume_not_cooldown (now : Z) (userId : string) (item : Item.t)
  (effect : Effect.t) (resultText : Reply) (db : DB) :
  cooldown_shown resultText = None ->
  cooldown_shown (snd (inventory_consume now userId item effect resultText db)) = None.
Proof.
  intros H. unfold inventory_consume.
  destruct (removeFromInventory userId (Item.id item) 1 db); [exact H | reflexivity].
Qed.

Lemma inventory_handleButton_not_cooldown (now : Z) (action invItemId userId : string)
  (db : DB) :
  cooldown_shown (snd (inventory_handleButton now action invItemId userId db)) = None.
Proof.
  unfold inventory_handleButton.
  destruct (find _ (getInventory userId db)) as [invItem|]; [|reflexivity].
  destruct (decide (action = "sell")).
  { unfold inventory_sell. destruct (getProfile userId db) as [db1 profile].
    destruct (removeFromInventory _ _ _ _); reflexivity. }
  destruct (decide (action = "use")); [|reflexivity].
  unfold inventory_use.
  destruct (effect_of_type "consumable" (InvItem.items invItem)) as [effect|];
    [|reflexivity].
  destruct (getProfile userId db) as [db1 profile].
  destruct (decide (Effect.effect effect = "xp_grant")).
  { destruct (as_bigint _); [|reflexivity].
    apply inventory_consume_not_cooldown. reflexivity. }
  destruct (decide (Effect.effect effect = "daily_boost"));
    [apply inventory_consume_not_cooldown; reflexivity|].
  destruct (decide (Effect.effect effect = "cooldown_restore"));
    apply inventory_consume_not_cooldown; reflexivity.
Qed.

(** X15. The cooldown message. Whenever a request is answered with the
    cooldown message, the number it shows (hours for [/daily] and [/rob],
    minutes for [/work], from the one reading of the clock) is at least 1,
    never 0, and the request left the store exactly as it was. [/pay] and
    the buttons never answer with it. *)
Theorem cooldown_message_shows_at_least_one (now : Z) (req : Request) (db : DB)
  (timeLeft : Z) :
  cooldown_shown (snd (handle now req db)) = Some timeLeft ->
  1 <= timeLeft /\
  fst (handle now req db) = db /\
  gate_of req <> [].
Proof.
  destruct req as [u | u random | s r bot amount | robber target bot r1 r2 | u i f | u a i];
    cbn [handle gate_of].
  - unfold daily_execute.
    pose proof (checkCooldown_Some now u "daily" db) as Hc.
    destruct (checkCooldown now u "daily" db) as [db0 c]. cbn [fst snd] in Hc.
    destruct c as [e|].
    + destruct (Hc e eq_refl) as [Hlt ->]. cbn [fst snd cooldown_shown]. intros [= <-].
      split; [apply Qceiling_pos, hours_between_pos, Hlt | split; [reflexivity | discriminate]].
    + destruct (getProfile u db0) as [db1 profile].
      destruct (daily_newStreak now profile); discriminate.
  - unfold work_execute.
    pose proof (checkCooldown_Some now u "work" db) as Hc.
    destruct (checkCooldown now u "work" db) as [db0 c]. cbn [fst snd] in Hc.
    destruct c as [e|].
    + destruct (Hc e eq_refl) as [Hlt ->]. cbn [fst snd cooldown_shown]. intros [= <-].
      split; [apply Qceiling_pos, minutes_between_pos, Hlt
             | split; [reflexivity | discriminate]].
    + destruct (getProfile u db0) as [db1 profile].
      destruct (work_boost _). discriminate.
  - unfold pay_execute. destruct (decide (s = r)); [discriminate|].
    destruct bot; [discriminate|].
    destruct (getProfile s db) as [db1 sp]. destruct (getProfile r db1) as [db2 rp].
    destruct (coins sp <? amount); discriminate.
  - unfold rob_execute. destruct (decide (robber = target)); [discriminate|].
    destruct bot; [discriminate|].
    pose proof (checkCooldown_Some now robber "rob" db) as Hc.
    destruct (checkCooldown now robber "rob" db) as [db0 c]. cbn [fst snd] in Hc.
    destruct c as [e|].
    + destruct (Hc e eq_refl) as [Hlt ->]. cbn [fst snd cooldown_shown]. intros [= <-].
      split; [apply Qceiling_pos, hours_between_pos, Hlt | split; [reflexivity | discriminate]].
    + destruct (getProfile robber db0) as [db1 rp].
      destruct (getProfile target db1) as [db2 tp].
      destruct (coins tp <? 500); [discriminate|].
      destruct (coins rp <? 100); [discriminate|].
      destruct (Qltb r1 _); discriminate.
  - unfold shop_handleButton. destruct (find _ (getItems db)); [|discriminate].
    destruct (getProfile u db) as [db1 profile].
    destruct (coins profile <? Item.price t); discriminate.
  - rewrite inventory_handleButton_not_cooldown. discriminate.
Qed.

Lemma cooldown_message_shows_at_least_one_witness :
  1 <= 11 /\
  fst (handle ms_per_hour (Daily "alice") short_cooldown_db) = short_cooldown_db /\
  gate_of (Daily "alice") <> [].
Proof.
  apply (cooldown_message_shows_at_least_one ms_per_hour (Daily "alice") short_cooldown_db 11).
  vm_compute. reflexivity.
Defined.

(** ** [/balance]: the progress display *)

Lemma getProfile_level_formula (userId : string) (db : DB) :
  level_invariant db -> level_formula (snd (getProfile userId db)).
Proof.
  intros H. unfold getProfile. destruct (profiles db !! userId) as [p|] eqn:E; simpl.
  - exact (H userId p E).
  - reflexivity.
Qed.

(** X16. The progress [/balance] shows. On a store whose accounts satisfy
    [level = floor (xp / 1000) + 1], for the caller or the user named in
    the option, known or not: the XP required is 1000 and the progress is
    the XP modulo 1000, so it lies in [0, 1000) and never reaches the XP
    required. A user without an account is shown, and given, the starting
    account. *)
Theorem balance_progress_in_range (option_user : option string) (user : string) (db : DB) :
  level_invariant db ->
  let target := default user option_user in
  let embed := snd (balance_execute option_user user db) in
  BalanceEmbed.requiredXP embed = 1000 /\
  BalanceEmbed.progressXP embed = BalanceEmbed.xp embed mod 1000 /\
  0 <= BalanceEmbed.progressXP embed < BalanceEmbed.requiredXP embed /\
  (profiles db !! target = None ->
   BalanceEmbed.coins embed = 1000 /\
   profiles (fst (balance_execute option_user user db)) !! target = Some newProfile).
Proof.
  intros Hinv target embed. subst embed. unfold balance_execute. fold target.
  pose proof (getProfile_level_formula target db Hinv) as Hf.
  pose proof (getProfile_lookup target db) as Hl.
  assert (Hnew : profiles db !! target = None -> snd (getProfile target db) = newProfile).
  { intros E. unfold getProfile. rewrite E. reflexivity. }
  destruct (getProfile target db) as [db1 profile]. cbn [fst snd] in *.
  cbn [BalanceEmbed.requiredXP BalanceEmbed.progressXP BalanceEmbed.xp BalanceEmbed.coins].
  unfold level_formula in Hf.
  replace (level profile * 1000 - (level profile - 1) * 1000) with 1000 by lia.
  rewrite Hf.
  split; [reflexivity|]. split; [Z.to_euclidean_division_equations; lia|].
  split; [Z.to_euclidean_division_equations; lia|].
  intros E. rewrite (Hnew E) in Hl |- *. split; [reflexivity | exact Hl].
Qed.

Lemma level_invariant_potion_db : level_invariant potion_db.
Proof.
  intros u p H. unfold potion_db in H. simpl in H.
  apply lookup_singleton_Some in H as [_ <-]. reflexivity.
Qed.

Lemma balance_progress_in_range_witness :
  BalanceEmbed.progressXP (snd (balance_execute None "alice" potion_db)) = 700 mod 1000.
Proof.
  destruct (balance_progress_in_range None "alice" potion_db level_invariant_potion_db)
    as (_ & Hp & _).
  exact Hp.
Defined.

(** ** [/profile]: net worth and number of items *)

Lemma holdings_fold (w : Item.t -> Z) (l : list InvItem.t) (a : Z) :
  fold_left (fun acc invItem => acc + w (InvItem.items invItem) * InvItem.quantity invItem)
            l a
  = a + holdings_total w l.
Proof.
  unfold holdings_total. revert a.
  induction l as [|x l IH]; intros a; cbn [fold_left]; [lia|].
  rewrite (IH (a + w (InvItem.items x) * InvItem.quantity x)),
          (IH (0 + w (InvItem.items x) * InvItem.quantity x)). lia.
Qed.

Lemma holdings_cons (w : Item.t -> Z) (x : InvItem.t) (l : list InvItem.t) :
  holdings_total w (x :: l)
  = w (InvItem.items x) * InvItem.quantity x + holdings_total w l.
Proof. unfold holdings_total at 1. simpl. apply holdings_fold. Qed.

Lemma profile_inventoryValue_holdings (inventory : list InvItem.t) :
  profile_inventoryValue inventory = holdings_total Item.price inventory.
Proof. reflexivity. Qed.

Lemma profile_totalItems_holdings (inventory : list InvItem.t) :
  profile_totalItems inventory = holdings_total (fun _ => 1) inventory.
Proof.
  unfold profile_totalItems, holdings_total. generalize 0.
  induction inventory as [|x l IH]; intros a; simpl; [reflexivity|].
  rewrite IH. f_equal. lia.
Qed.

(** The holdings [getInventory] shows, row by row. *)
Lemma holdings_rows (w : Item.t -> Z) (its : list Item.t) (u : string) (rows : list Inv.t) :
  holdings_total w (omap (join_item its) (rows_of u rows))
  = foldr (fun r acc => row_worth w its u r + acc) 0 rows.
Proof.
  unfold rows_of. induction rows as [|a rows IH]; [reflexivity|].
  rewrite filter_cons. cbn [foldr]. unfold row_worth at 1.
  destruct (decide (owned_by u a = true)) as [Ho|Ho].
  - rewrite Ho. cbn [omap list_omap]. fold (@omap list _ _ _ (join_item its)).
    destruct (join_item its a) as [x|]; [rewrite holdings_cons|]; rewrite IH; lia.
  - apply not_true_is_false in Ho. rewrite Ho, IH. lia.
Qed.

Lemma ledger_no_second_row (u i : string) (a : Inv.t) (l : list Inv.t) :
  NoDup (row_key <$> a :: l) -> is_row u i a = true -> find (is_row u i) l = None.
Proof.
  intros Hnd Ha. rewrite fmap_cons in Hnd. apply NoDup_cons in Hnd as [Hn _].
  destruct (find (is_row u i) l) as [r|] eqn:E; [|reflexivity]. exfalso. apply Hn.
  apply find_Some_elem in E as [Hr Hrow]. apply list_elem_of_fmap. exists r.
  split; [|exact Hr]. apply is_row_key in Ha, Hrow. congruence.
Qed.

Lemma map_set_quantity_none (u i : string) (q : Z) (l : list Inv.t) :
  find (is_row u i) l = None -> map (set_quantity u i q) l = l.
Proof.
  induction l as [|a l IH]; [reflexivity|]. simpl.
  destruct (is_row u i a) eqn:Ha; [discriminate|]. intros H.
  unfold set_quantity at 1. rewrite Ha. f_equal. auto.
Qed.

Lemma row_worth_of_row (w : Item.t -> Z) (its : list Item.t) (u i : string) (r : Inv.t)
  (item : Item.t) :
  find (fun it => bool_decide (Item.id it = i)) its = Some item ->
  is_row u i r = true ->
  row_worth w its u r = w item * Inv.quantity r.
Proof.
  intros Hitem Hr. unfold is_row in Hr. apply andb_true_iff in Hr as [Hu Hi].
  unfold row_worth, owned_by. rewrite Hu. apply bool_decide_eq_true in Hi.
  unfold join_item. rewrite Hi, Hitem. reflexivity.
Qed.

Lemma worth_after_set (w : Item.t -> Z) (its : list Item.t) (u i : string) (q : Z)
  (item : Item.t) (existing : Inv.t) (l : list Inv.t) :
  find (fun it => bool_decide (Item.id it = i)) its = Some item ->
  NoDup (row_key <$> l) -> find (is_row u i) l = Some existing ->
  foldr (fun r acc => row_worth w its u r + acc) 0 (map (set_quantity u i q) l)
  = foldr (fun r acc => row_worth w its u r + acc) 0 l
    + w item * (q - Inv.quantity existing).
Proof.
  intros Hitem. induction l as [|a l IH]; intros Hnd Hf; [discriminate|].
  cbn [map foldr]. simpl in Hf. destruct (is_row u i a) eqn:Ha.
  - injection Hf as <-.
    rewrite (map_set_quantity_none u i q l (ledger_no_second_row u i a l Hnd Ha)).
    rewrite (row_worth_of_row w its u i a item Hitem Ha).
    rewrite (row_worth_of_row w its u i (set_quantity u i q a) item Hitem)
      by (rewrite is_row_set_quantity; exact Ha).
    rewrite (quantity_set_quantity u i q a Ha). lia.
  - rewrite fmap_cons in Hnd. apply NoDup_cons in Hnd as [_ Hnd].
    rewrite (IH Hnd Hf). unfold set_quantity at 1. rewrite Ha. lia.
Qed.


Lemma worth_after_append (w : Item.t -> Z) (its : list Item.t) (u : string) (r : Inv.t)
  (l : list Inv.t) :
  foldr (fun r acc => row_worth w its u r + acc) 0 (l ++ [r])
  = foldr (fun r acc => row_worth w its u r + acc) 0 l + row_worth w its u r.
Proof. induction l as [|a l IH]; simpl; [lia | rewrite IH; lia]. Qed.

(** The holdings after [addToInventory] and after [removeFromInventory] of
    one unit. *)
Lemma holdings_after_add (w : Item.t -> Z) (fresh u i : string) (q : Z) (item : Item.t)
  (db : DB) :
  find (fun it => bool_decide (Item.id it = i)) (items db) = Some item ->
  NoDup (row_key <$> inventory db) ->
  holdings_total w (getInventory u (addToInventory fresh u i q db))
  = holdings_total w (getInventory u db) + w item * q.
Proof.
  intros Hitem Hnd. unfold getInventory. fold (rows_of u (inventory db)).
  fold (rows_of u (inventory (addToInventory fresh u i q db))).
  destruct (addToInventory_frame fresh u i q db) as (_ & -> & _).
  rewrite !holdings_rows. unfold addToInventory.
  destruct (find (is_row u i) (inventory db)) as [existing|] eqn:E;
    cbn [inventory with_inventory].
  - rewrite (worth_after_set w _ u i _ item existing _ Hitem Hnd E). f_equal. lia.
  - rewrite worth_after_append. f_equal.
    apply (row_worth_of_row w _ u i (Inv.mk fresh u i q) item Hitem).
    apply is_row_key. reflexivity.
Qed.


Lemma profile_execute_shows (option_user : option string) (user : string) (db : DB) :
  let target := default user option_user in
  let embed := snd (profile_execute option_user user db) in
  ProfileEmbed.coins embed = balance target db /\
  ProfileEmbed.netWorth embed
  = balance target db + holdings_total Item.price (getInventory target db) /\
  ProfileEmbed.totalItems embed = holdings_total (fun _ => 1) (getInventory target db) /\
  ProfileEmbed.uniqueItems embed = length (getInventory target db).
Proof.
  intros target embed. subst embed. unfold profile_execute, balance. fold target.
  destruct (getProfile_frame target db) as (Hi & Hv & _).
  destruct (getProfile target db) as [db1 profile]. cbn [fst snd] in *.
  rewrite (getInventory_ext target db db1 Hi Hv).
  cbn [ProfileEmbed.coins ProfileEmbed.netWorth ProfileEmbed.totalItems
       ProfileEmbed.uniqueItems].
  rewrite profile_totalItems_holdings. auto.
Qed.

(** X17. A purchase does not change the net worth [/profile] shows. On a
    ledger that satisfies its constraints, when the user buys an item of
    the catalog that they can afford: the coins shown fall by the price,
    the number of items shown grows by 1, and the net worth (coins plus
    price times quantity over the inventory) is the same as before. *)
Theorem purchase_keeps_net_worth (now : Z) (fresh userId itemId : string) (item : Item.t)
  (db : DB) :
  ledger_ok (inventory db) ->
  find (fun i => bool_decide (Item.id i = itemId)) (items db) = Some item ->
  Item.price item <= balance userId db ->
  let before := snd (profile_execute None userId db) in
  let db' := fst (shop_handleButton now fresh userId itemId db) in
  let after := snd (profile_execute None userId db') in
  ProfileEmbed.coins after = ProfileEmbed.coins before - Item.price item /\
  ProfileEmbed.totalItems after = ProfileEmbed.totalItems before + 1 /\
  ProfileEmbed.netWorth after = ProfileEmbed.netWorth before.
Proof.
  intros [Hnd _] Hitem Hafford before db' after. subst before after.
  destruct (profile_execute_shows None userId db) as (Hc & Hn & Ht & _).
  destruct (profile_execute_shows None userId db') as (Hc' & Hn' & Ht' & _).
  cbn [default] in *. rewrite Hc, Hn, Ht, Hc', Hn', Ht'. clear Hc Hn Ht Hc' Hn' Ht'.
  subst db'. rewrite (shop_handleButton_bought now fresh userId itemId item db Hitem Hafford).
  cbn [fst].
  set (db1 := fst (getProfile userId db)).
  set (upd := mkUpdates (Some (coins (snd (getProfile userId db)) - Item.price item)) None
                        None None None None None).
  set (db2 := updateProfile userId upd db1).
  set (db3 := addToInventory fresh userId itemId 1 db2).
  set (dbf := logTransaction now _ db3).
  destruct (getProfile_frame userId db) as (Hi1 & Hv1 & _). fold db1 in Hi1, Hv1.
  destruct (updateProfile_frame userId upd db1) as (Hi2 & Hv2 & _). fold db2 in Hi2, Hv2.
  destruct (addToInventory_frame fresh userId itemId 1 db2) as (Hp3 & _).
  fold db3 in Hp3.
  assert (Hbal : balance userId dbf = balance userId db - Item.price item).
  { assert (Hl : profiles dbf !! userId
                 = Some (apply_updates upd (snd (getProfile userId db)))).
    { change (profiles dbf) with (profiles db3). rewrite Hp3. unfold db2.
      apply updateProfile_lookup, getProfile_lookup. }
    unfold balance. rewrite (getProfile_snd_lookup _ _ _ Hl). reflexivity. }
  assert (Hhold : forall w,
            holdings_total w (getInventory userId dbf)
            = holdings_total w (getInventory userId db) + w item * 1).
  { intros w. change (getInventory userId dbf) with (getInventory userId db3). unfold db3.
    rewrite (holdings_after_add w fresh userId itemId 1 item db2).
    - rewrite (getInventory_ext userId db db2) by congruence. reflexivity.
    - rewrite Hi2, Hi1. exact Hitem.
    - rewrite Hv2, Hv1. exact Hnd. }
  rewrite Hbal, !Hhold. lia.
Qed.

Lemma ledger_ok_shop_db : ledger_ok (inventory shop_db).
Proof. split; constructor. Qed.

Lemma purchase_keeps_net_worth_witness :
  ProfileEmbed.netWorth
    (snd (profile_execute None "alice"
            (fst (shop_handleButton 0 "row-1" "alice" "item-7" shop_db))))
  = ProfileEmbed.netWorth (snd (profile_execute None "alice" shop_db)).
Proof.
  assert (Hitem : find (fun i => bool_decide (Item.id i = "item-7")) (items shop_db)
                  = Some bronze_trophy) by reflexivity.
  assert (Hafford : Item.price bronze_trophy <= balance "alice" shop_db)
    by (vm_compute; discriminate).
  destruct (purchase_keeps_net_worth 0 "row-1" "alice" "item-7" bronze_trophy shop_db
              ledger_ok_shop_db Hitem Hafford) as (_ & _ & Hn).
  exact Hn.
Defined.




(** ** The use button of [/inventory] *)

Lemma removeFromInventory_one_less (u i : string) (db db' : DB) :
  ledger_ok (inventory db) ->
  removeFromInventory u i 1 db = Some db' ->
  held_quantity u i db' = held_quantity u i db - 1.
Proof.
  intros [_ Hpos] Hrem. unfold removeFromInventory in Hrem. unfold held_quantity at 2.
  destruct (find (is_row u i) (inventory db)) as [existing|] eqn:E; [|discriminate].
  pose proof (find_Some_elem _ _ _ E) as [Hin _].
  rewrite Forall_forall in Hpos. pose proof (Hpos _ Hin) as H1.
  destruct (Z.leb_spec (Inv.quantity existing) 1); injection Hrem as <-.
  - unfold held_quantity. cbn [inventory with_inventory]. rewrite find_filter_row_self. lia.
  - apply (held_quantity_map_self _ _ _ _ _ E).
Qed.

(** "Remove item from inventory" and the audit record, on an entry the
    store holds. *)
Lemma inventory_consume_held (now : Z) (userId : string) (x : InvItem.t) (effect : Effect.t)
  (resultText : Reply) (db dbX : DB) :
  x ∈ getInventory userId db ->
  ledger_ok (inventory db) ->
  items dbX = items db -> inventory dbX = inventory db ->
  let item := InvItem.items x in
  let used := inventory_consume now userId item effect resultText dbX in
  snd used = resultText /\
  held_quantity userId (Item.id item) (fst used)
  = held_quantity userId (Item.id item) db - 1 /\
  transactions (fst used)
  = transactions dbX ++
    [Tx.mk userId "use_item" None None (Some (Item.id item)) (Some (MetaUse effect)) now] /\
  cooldowns (fst used) = cooldowns dbX /\
  profiles (fst used) = profiles dbX.
Proof.
  intros Hx Hok Hi Hv item used. subst used. unfold inventory_consume.
  assert (Hx2 : x ∈ getInventory userId dbX).
  { rewrite (getInventory_ext userId db dbX) by congruence. exact Hx. }
  destruct (removeFromInventory_held userId dbX x Hx2) as [db3 Hrem]. fold item in Hrem.
  rewrite Hrem. cbn [fst snd].
  destruct (removeFromInventory_frame _ _ _ _ _ Hrem) as (Hp3 & _ & Ht3 & Hc3 & _).
  split; [reflexivity|]. split; [|split; [|split]].
  - change (held_quantity userId (Item.id item) (logTransaction now _ db3))
      with (held_quantity userId (Item.id item) db3).
    rewrite (removeFromInventory_one_less userId (Item.id item) dbX db3)
      by (rewrite ?Hv; assumption).
    unfold held_quantity. rewrite Hv. reflexivity.
  - unfold logTransaction. cbn [transactions with_transactions]. rewrite Ht3. reflexivity.
  - exact Hc3.
  - exact Hp3.
Qed.

(** X19. What the use button does. On a ledger that satisfies its
    constraints, for an entry of the user's inventory: an item that is not
    a consumable is refused and the store is left as it is; a consumable
    (whose XP grant, if it is one, gives a whole XP) is used up by exactly
    one unit, whatever its kind, with one audit record of type [use_item]
    that carries the effect; a coin bonus adds 250 coins and no other kind
    changes the balance; and no kind, not even [cooldown_restore], changes
    any cooldown row. *)
Theorem use_button_consumes_one_unit (now : Z) (invItemId userId : string) (x : InvItem.t)
  (db : DB) :
  ledger_ok (inventory db) ->
  find (fun i => bool_decide (InvItem.id i = invItemId)) (getInventory userId db) = Some x ->
  let item := InvItem.items x in
  let db' := fst (inventory_handleButton now "use" invItemId userId db) in
  let reply := snd (inventory_handleButton now "use" invItemId userId db) in
  match effect_of_type "consumable" item with
  | None => reply = CannotBeUsed /\ db' = db
  | Some effect =>
      (Effect.effect effect = "xp_grant" ->
       is_Some (as_bigint (inject_Z (xp (snd (getProfile userId db))) + Effect.value effect)))
      ->
      reply <> ErrorReply /\
      held_quantity userId (Item.id item) db' = held_quantity userId (Item.id item) db - 1 /\
      transactions db'
      = transactions db ++
        [Tx.mk userId "use_item" None None (Some (Item.id item)) (Some (MetaUse effect))
               now] /\
      balance userId db'
      = balance userId db + (if decide (Effect.effect effect = "daily_boost") then 250 else 0)
      /\
      cooldowns db' = cooldowns db
  end.
Proof.
  intros Hok Hfind item db' reply. subst db' reply. unfold inventory_handleButton.
  rewrite Hfind. destruct (decide ("use" = "sell")) as [Hc|_]; [discriminate Hc|].
  destruct (decide ("use" = "use")) as [_|Hc]; [|contradiction].
  fold item. unfold inventory_use.
  destruct (effect_of_type "consumable" item) as [effect|]; [|split; reflexivity].
  pose proof (find_Some_elem _ _ _ Hfind) as [Hx _].
  destruct (getProfile_frame userId db) as (Hi1 & Hv1 & Ht1 & Hc1 & _).
  pose proof (getProfile_lookup userId db) as Hl.
  assert (Hbal : balance userId db = coins (snd (getProfile userId db))) by reflexivity.
  destruct (getProfile userId db) as [db1 profile]. cbn [fst snd] in *. intros Hwhole.
  assert (Hstep : forall resultText dbX,
            resultText <> ErrorReply ->
            items dbX = items db1 -> inventory dbX = inventory db1 ->
            transactions dbX = transactions db1 -> cooldowns dbX = cooldowns db1 ->
            forall d, balance userId dbX = coins profile + d ->
            let used := inventory_consume now userId item effect resultText dbX in
            snd used <> ErrorReply /\
            held_quantity userId (Item.id item) (fst used)
            = held_quantity userId (Item.id item) db - 1 /\
            transactions (fst used)
            = transactions db ++
              [Tx.mk userId "use_item" None None (Some (Item.id item))
                     (Some (MetaUse effect)) now] /\
            balance userId (fst used) = balance userId db + d /\
            cooldowns (fst used) = cooldowns db).
  { intros resultText dbX Hr Hi Hv Ht Hc d Hb used. subst used.
    destruct (inventory_consume_held now userId x effect resultText db dbX Hx Hok)
      as (Hs & Hh & Htx & Hcd & Hp); [congruence | congruence |].
    fold item in Hs, Hh, Htx, Hcd, Hp. rewrite Hs, Hh, Htx, Hcd.
    rewrite (balance_ext userId dbX _ Hp), Hb.
    split; [exact Hr|]. split; [reflexivity|]. split; [congruence|].
    split; [rewrite Hbal; reflexivity | congruence]. }
  assert (Hupd : forall upd,
            balance userId (updateProfile userId upd db1)
            = coins (apply_updates upd profile)).
  { intros upd. unfold balance.
    rewrite (getProfile_snd_lookup _ _ _ (updateProfile_lookup _ upd _ _ Hl)). reflexivity. }
  destruct (decide (Effect.effect effect = "xp_grant")) as [Hxp|Hxp].
  { destruct (Hwhole Hxp) as [newXP HnewXP]. rewrite HnewXP.
    destruct (decide (Effect.effect effect = "daily_boost")) as [Hd|_]; [congruence|].
    apply Hstep; try (apply updateProfile_frame); [discriminate|].
    rewrite Hupd. cbn. lia. }
  destruct (decide (Effect.effect effect = "daily_boost")) as [Hd|Hd].
  { apply Hstep; try (apply updateProfile_frame); [discriminate|].
    rewrite Hupd. reflexivity. }
  destruct (decide (Effect.effect effect = "cooldown_restore"));
    (apply Hstep; try reflexivity; [discriminate|]);
    unfold balance; rewrite (getProfile_snd_lookup _ _ _ Hl); lia.
Qed.

Lemma ledger_ok_potion_db : ledger_ok (inventory potion_db).
Proof.
  split.
  - apply (bool_decide_unpack _). vm_compute. exact I.
  - repeat constructor; simpl; lia.
Qed.

Lemma use_button_consumes_one_unit_witness :
  held_quantity "alice" "item-8"
    (fst (inventory_handleButton 0 "use" "row-1" "alice" potion_db))
  = held_quantity "alice" "item-8" potion_db - 1.
Proof.
  assert (Hfind : find (fun i => bool_decide (InvItem.id i = "row-1"))
                       (getInventory "alice" potion_db)
                  = Some (InvItem.mk "row-1" 1 xp_potion)) by reflexivity.
  pose proof (use_button_consumes_one_unit 0 "row-1" "alice" _ potion_db
                ledger_ok_potion_db Hfind) as H.
  cbn [InvItem.items] in H.
  change (effect_of_type "consumable" xp_potion)
    with (Some (Effect.mk "consumable" 500 "" "xp_grant")) in H.
  destruct H as (_ & Hheld & _); [|exact Hheld].
  intros _. vm_compute. eexists. reflexivity.
Defined.

(** ** Rows and pages: the slicing loop *)

Section SliceLoop.
Context {A B : Type}.
Variable size : nat.
Variable build : list B -> list A -> B.
Variable content : B -> list A.
Hypothesis size_pos : (0 < size)%nat.
Hypothesis content_build : forall acc chunk, content (build acc chunk) = chunk.

Lemma slice_length (i : nat) (l : list A) :
  (i < length l)%nat ->
  (1 <= length (slice i (i + size) l) <= size)%nat /\
  slice i (i + size) l ++ drop (i + size) l = drop i l.
Proof.
  intros Hi. unfold slice. replace (i + size - i)%nat with size by lia. split.
  - rewrite length_take, length_drop. lia.
  - rewrite <- drop_drop. apply take_drop.
Qed.

(** With enough fuel the loop stops by its own test, and what it pushed
    cuts the rest of the array into consecutive chunks. *)
Lemma slice_loop_chunks (l : list A) (fuel i : nat) (acc : list B) :
  (length l - i <= fuel)%nat ->
  exists new,
    slice_loop size build l fuel i acc = acc ++ new /\
    concat (content <$> new) = drop i l /\
    Forall (fun b => (1 <= length (content b) <= size)%nat) new /\
    (length l - i <= length new * size)%nat /\
    (length new * size < length l - i + size)%nat.
Proof.
  revert i acc. induction fuel as [|fuel IH]; intros i acc Hfuel.
  - exists []. cbn [slice_loop]. rewrite app_nil_r. split; [reflexivity|].
    split; [symmetry; apply drop_ge; lia|]. split; [constructor|]. simpl. lia.
  - cbn [slice_loop]. destruct (Nat.ltb_spec i (length l)) as [Hi|Hi].
    + destruct (IH (i + size)%nat (acc ++ [build acc (slice i (i + size) l)]))
        as (new & Hres & Hcat & Hall & Hlo & Hhi); [lia|].
      destruct (slice_length i l Hi) as [Hlen Hsplit].
      exists (build acc (slice i (i + size) l) :: new).
      split; [rewrite Hres, <- app_assoc; reflexivity|].
      split; [rewrite fmap_cons; cbn [concat]; rewrite content_build, Hcat; exact Hsplit|].
      split; [constructor; [rewrite content_build; exact Hlen | exact Hall]|].
      assert (Hn : (length new * size = 0 \/ size <= length new * size)%nat)
        by (destruct (length new); [left; reflexivity | right; simpl; lia]).
      cbn [length]. rewrite Nat.mul_succ_l. lia.
    + exists []. rewrite app_nil_r. split; [reflexivity|].
      split; [symmetry; apply drop_ge; lia|]. split; [constructor|]. simpl. lia.
Qed.

(** The loop only pushes. *)
Lemma slice_loop_extends (l : list A) (fuel i : nat) (acc : list B) :
  exists new, slice_loop size build l fuel i acc = acc ++ new.
Proof.
  revert i acc. induction fuel as [|fuel IH]; intros i acc; cbn [slice_loop].
  - exists []. symmetry. apply app_nil_r.
  - destruct (i <? length l)%nat; [|exists []; symmetry; apply app_nil_r].
    destruct (IH (i + size)%nat (acc ++ [build acc (slice i (i + size) l)])) as (new & ->).
    eexists. rewrite <- app_assoc. reflexivity.
Qed.

(** What the first turn pushes, on an array that is not empty. *)
Lemma slice_loop_first (x : A) (l : list A) :
  exists rest,
    slice_loop size build (x :: l) (length (x :: l)) 0 []
    = build [] (take size (x :: l)) :: rest.
Proof.
  cbn [length slice_loop]. destruct (Nat.ltb_spec 0 (S (length l))) as [_|H]; [|lia].
  destruct (slice_loop_extends (x :: l) (length l) (0 + size)
              ([] ++ [build [] (slice 0 (0 + size) (x :: l))])) as (new & Hres).
  exists new. rewrite Hres. unfold slice. rewrite Nat.sub_0_r. reflexivity.
Qed.

(** The number of an element that is built from the length of the array
    is its position, counted from 1. *)
Lemma slice_loop_index (measure : B -> nat) (l : list A) :
  (forall acc chunk, measure (build acc chunk) = S (length acc)) ->
  forall fuel i acc,
    (forall k b, acc !! k = Some b -> measure b = S k) ->
    forall k b, slice_loop size build l fuel i acc !! k = Some b -> measure b = S k.
Proof.
  intros Hm. induction fuel as [|fuel IH]; intros i acc Hacc k b; cbn [slice_loop];
    [apply Hacc|].
  destruct (i <? length l)%nat; [|apply Hacc]. apply IH.
  intros k' b' H. apply lookup_app_Some in H as [H | [Hk H]]; [exact (Hacc _ _ H)|].
  apply list_lookup_singleton_Some in H as [Hz <-]. rewrite Hm. lia.
Qed.

(** What every built element satisfies, every element of the result
    does. *)
Lemma slice_loop_all (P : B -> Prop) (l : list A) :
  (forall acc chunk, P (build acc chunk)) ->
  forall fuel i acc, Forall P acc -> Forall P (slice_loop size build l fuel i acc).
Proof.
  intros HP. induction fuel as [|fuel IH]; intros i acc Hacc; cbn [slice_loop];
    [exact Hacc|].
  destruct (i <? length l)%nat; [|exact Hacc]. apply IH, Forall_app. split; [exact Hacc|].
  constructor; [apply HP | constructor].
Qed.

End SliceLoop.

(** ** The category menu of [/shop] *)

Lemma Qceiling_div_5 (n : Z) : Qceiling (inject_Z n / 5) = (n + 4) / 5.
Proof.
  unfold Qceiling, Qdiv, Qmult, Qinv, Qopp, inject_Z. simpl. rewrite Z.mul_1_r.
  Z.to_euclidean_division_equations. lia.
Qed.

(** Up to five buttons make one row. *)
Lemma slice_loop_single_row {A B : Type} (build : list B -> list A -> B) (l : list A) :
  (1 <= length l <= 5)%nat ->
  slice_loop 5 build l (length l) 0 [] = [build [] l].
Proof.
  intros Hlen. destruct l as [|x l]; [simpl in Hlen; lia|].
  cbn [length] in Hlen. cbn [length slice_loop].
  destruct (Nat.ltb_spec 0 (S (length l))) as [_|H]; [|lia].
  unfold slice. rewrite Nat.sub_0_r. cbn [app drop Nat.add].
  rewrite (take_ge (x :: l)) by (cbn [length]; lia).
  destruct (length l) as [|n] eqn:E; cbn [slice_loop]; [reflexivity|].
  cbn [length]. rewrite E.
  destruct (Nat.ltb_spec 5 (S (S n))) as [H|_]; [lia | reflexivity].
Qed.

(** X20. The pages of a category and the page the menu shows. The loop of
    [handleSelect] cuts the items of the category, in their order, into
    pages of 1 to 5 items that leave no item out; the pages are numbered
    from 1 and each announces as total the number of pages built. The
    reply shows the first page only, with one row of purchase buttons for
    the first five items and the category menu; a category without items
    has no first page and is answered with the error message. *)
Theorem shop_menu_shows_first_page (items : list Item.t) :
  let pages := shop_pages items in
  concat (ShopPage.items <$> pages) = items /\
  Forall (fun p => (1 <= length (ShopPage.items p) <= 5)%nat) pages /\
  (forall k p,
     pages !! k = Some p ->
     ShopPage.number p = S k /\ ShopPage.total p = Z.of_nat (length pages)) /\
  match shop_handleSelect items with
  | SelectError => items = []
  | ShopPageShown page components =>
      items <> [] /\
      pages !! 0%nat = Some page /\
      ShopPage.items page = take 5 items /\
      components
      = [ButtonRow
           (map (fun item => Button.mk ("shop_buy_" +:+ Item.id item)
                                       ("Buy " +:+ Item.name item) Success)
                (take 5 items));
         SelectRow "shop_category"]
  end.
Proof.
  intros pages. assert (H5 : (0 < 5)%nat) by lia.
  set (build := fun (pages : list ShopPage.t) (pageItems : list Item.t) =>
                  ShopPage.mk (length pages + 1)
                              (Qceiling (inject_Z (Z.of_nat (length items)) / 5)) pageItems).
  destruct (slice_loop_chunks 5 build ShopPage.items H5 (fun _ _ => eq_refl) items
              (length items) 0 []) as (new & Hres & Hcat & Hall & Hlo & Hhi); [lia|].
  change (slice_loop 5 build items (length items) 0 []) with pages in Hres.
  cbn [app] in Hres. rewrite drop_0 in Hcat. rewrite Nat.sub_0_r in Hlo, Hhi.
  split; [rewrite Hres; exact Hcat|]. split; [rewrite Hres; exact Hall|]. split.
  - intros k p Hk. split.
    + apply (slice_loop_index 5 build H5 ShopPage.number items) with (fuel := length items)
        (i := 0%nat) (acc := []); [|intros ? ? H; discriminate H|exact Hk].
      intros acc chunk. unfold build. cbn [ShopPage.number]. lia.
    + assert (Ht : Forall (fun p => ShopPage.total p
                                    = Qceiling (inject_Z (Z.of_nat (length items)) / 5))
                          pages).
      { apply slice_loop_all; [reflexivity | constructor]. }
      rewrite Forall_forall in Ht. rewrite (Ht p (list_elem_of_lookup_2 _ _ _ Hk)).
      rewrite Qceiling_div_5, Hres. Z.to_euclidean_division_equations. lia.
  - unfold shop_handleSelect. fold build. fold pages.
    destruct items as [|x l] eqn:E; [reflexivity|]. rewrite <- E in *.
    assert (Hfirst : exists rest, pages = build [] (take 5 items) :: rest).
    { subst items. apply (slice_loop_first 5 build H5 x l). }
    destruct Hfirst as (rest & Hp). rewrite Hp. cbn [ShopPage.items build].
    split; [rewrite E; discriminate|]. split; [reflexivity|]. split; [reflexivity|].
    rewrite take_take, Nat.min_id.
    rewrite (slice_loop_single_row (fun _ row => ButtonRow row))
      by (rewrite length_map, length_take, E; cbn [length]; lia).
    reflexivity.
Qed.

(** ** The buttons of [/inventory] *)





(** ** Pressed buttons: from the [customId] to the handler *)

Lemma split_underscore_whole (s : string) :
  no_underscore s = true -> split_underscore s = [s].
Proof.
  induction s as [|c rest IH]; [reflexivity|]. cbn [no_underscore split_underscore].
  intros H. apply andb_true_iff in H as [Hc Hrest]. apply negb_true_iff in Hc.
  rewrite Hc, (IH Hrest). reflexivity.
Qed.

Lemma split_underscore_part (a b : string) :
  no_underscore a = true ->
  split_underscore (a +:+ String "_" b) = a :: split_underscore b.
Proof.
  induction a as [|c rest IH]; [reflexivity|]. cbn [no_underscore].
  intros H. apply andb_true_iff in H as [Hc Hrest]. apply negb_true_iff in Hc.
  change (String c rest +:+ String "_" b) with (String c (rest +:+ String "_" b)).
  cbn [split_underscore]. rewrite Hc, (IH Hrest). reflexivity.
Qed.

Lemma split_underscore_head (s : string) (parts : list string) :
  split_underscore s = s :: parts -> no_underscore s = true.
Proof.
  revert parts. induction s as [|c rest IH]; intros parts; [reflexivity|].
  cbn [split_underscore no_underscore]. destruct (Ascii.eqb c "_"); [discriminate|].
  destruct (split_underscore rest) as [|part ps] eqn:E.
  - destruct rest; [discriminate E|]. cbn [split_underscore] in E.
    destruct (Ascii.eqb a "_"); [discriminate E|].
    destruct (split_underscore rest); discriminate E.
  - intros [= -> _]. rewrite (IH ps eq_refl). reflexivity.
Qed.

Lemma split_shop_buy (id : string) :
  split_underscore ("shop_buy_" +:+ id) = "shop" :: "buy" :: split_underscore id.
Proof.
  change ("shop_buy_" +:+ id) with ("shop" +:+ String "_" ("buy" +:+ String "_" id)).
  rewrite !split_underscore_part by reflexivity. reflexivity.
Qed.

Lemma split_inventory_sell (id : string) :
  split_underscore ("inventory_sell_" +:+ id)
  = "inventory" :: "sell" :: split_underscore id.
Proof.
  change ("inventory_sell_" +:+ id)
    with ("inventory" +:+ String "_" ("sell" +:+ String "_" id)).
  rewrite !split_underscore_part by reflexivity. reflexivity.
Qed.

Lemma split_inventory_use (id : string) :
  split_underscore ("inventory_use_" +:+ id)
  = "inventory" :: "use" :: split_underscore id.
Proof.
  change ("inventory_use_" +:+ id)
    with ("inventory" +:+ String "_" ("use" +:+ String "_" id)).
  rewrite !split_underscore_part by reflexivity. reflexivity.
Qed.

Lemma split_underscore_nonempty (s : string) : split_underscore s <> [].
Proof.
  destruct s as [|c rest]; [discriminate|]. cbn [split_underscore].
  destruct (Ascii.eqb c "_"); [discriminate|].
  destruct (split_underscore rest); discriminate.
Qed.

(** X22. The buttons the commands build reach the handler they were built
    for. The purchase handler reads from ["shop_buy_" + id] the very [id]
    exactly when [id] holds no underscore (otherwise it reads the part
    before the first underscore). For such an [id], pressing the purchase
    button runs the purchase of that item; and pressing a button that
    [/inventory] builds for an entry whose row id holds no underscore runs
    the sell or the use handler on that very row. *)
Theorem built_buttons_reach_their_handler (now : Z) (fresh userId : string) (db : DB) :
  (forall id,
     split_underscore ("shop_buy_" +:+ id) !! 2%nat = Some id <-> no_underscore id = true) /\
  (forall id,
     no_underscore id = true ->
     on_button now fresh userId ("shop_buy_" +:+ id) db
     = (fst (shop_handleButton now fresh userId id db),
        Handled (snd (shop_handleButton now fresh userId id db)))) /\
  (forall x b,
     no_underscore (InvItem.id x) = true ->
     b ∈ inventory_buttons_of x ->
     exists action,
       (action = "sell" \/
        action = "use" /\ is_Some (effect_of_type "consumable" (InvItem.items x))) /\
       on_button now fresh userId (Button.customId b) db
       = (fst (inventory_handleButton now action (InvItem.id x) userId db),
          Handled (snd (inventory_handleButton now action (InvItem.id x) userId db)))).
Proof.
  split; [|split].
  - intros id. rewrite split_shop_buy. cbn [lookup list_lookup]. split.
    + destruct (split_underscore id) as [|part parts] eqn:E; [discriminate|].
      cbn. intros [= ->]. apply (split_underscore_head id parts E).
    + intros H. rewrite (split_underscore_whole id H). reflexivity.
  - intros id H. unfold on_button, shop_button. rewrite split_shop_buy.
    rewrite (split_underscore_whole id H). cbn [lookup list_lookup default].
    destruct (decide ("shop" = "shop")) as [_|Hc]; [|contradiction].
    cbn. destruct (shop_handleButton now fresh userId id db). reflexivity.
  - intros x b H Hb. unfold inventory_buttons_of in Hb.
    apply elem_of_app in Hb as [Hb|Hb].
    + destruct (effect_of_type "consumable" (InvItem.items x)) as [e|] eqn:E;
        [|inversion Hb].
      apply list_elem_of_singleton in Hb. subst b. exists "use".
      split; [right; split; [reflexivity | eexists; reflexivity]|].
      cbn [Button.customId]. unfold on_button, inventory_button.
      rewrite split_inventory_use, (split_underscore_whole _ H).
      cbn [lookup list_lookup default].
      destruct (decide ("inventory" = "shop")) as [Hc|_]; [discriminate Hc|].
      destruct (decide ("inventory" = "inventory")) as [_|Hc]; [|contradiction].
      cbn. destruct (inventory_handleButton now "use" (InvItem.id x) userId db).
      reflexivity.
    + apply list_elem_of_singleton in Hb. subst b. exists "sell".
      split; [left; reflexivity|].
      cbn [Button.customId]. unfold on_button, inventory_button.
      rewrite split_inventory_sell, (split_underscore_whole _ H).
      cbn [lookup list_lookup default].
      destruct (decide ("inventory" = "shop")) as [Hc|_]; [discriminate Hc|].
      destruct (decide ("inventory" = "inventory")) as [_|Hc]; [|contradiction].
      cbn. destruct (inventory_handleButton now "sell" (InvItem.id x) userId db).
      reflexivity.
Qed.

(** X23. A [customId] with fewer than three parts changes nothing. Pressing
    a button whose [customId] splits at the underscores into fewer than
    three parts leaves the store as it is: the purchase handler answers
    that the item was not found, the inventory handler that the entry was
    not found, the leaderboard is redrawn, and any other first part is
    ignored. *)
Theorem short_custom_id_changes_nothing (now : Z) (fresh userId customId : string)
  (db : DB) :
  (length (split_underscore customId) < 3)%nat ->
  fst (on_button now fresh userId customId db) = db /\
  (snd (on_button now fresh userId customId db) = Handled ItemNotFound \/
   snd (on_button now fresh userId customId db) = Handled NotInInventory \/
   (exists type, snd (on_button now fresh userId customId db) = LeaderboardRedrawn type) \/
   snd (on_button now fresh userId customId db) = Ignored).
Proof.
  intros Hlen. unfold on_button, shop_button, inventory_button.
  assert (Hnone : split_underscore customId !! 2%nat = None)
    by (apply lookup_ge_None; lia).
  rewrite Hnone.
  destruct (decide (default EmptyString (split_underscore customId !! 0%nat) = "shop"));
    [split; [reflexivity | left; reflexivity]|].
  destruct (decide (default EmptyString (split_underscore customId !! 0%nat) = "inventory"));
    [split; [reflexivity | right; left; reflexivity]|].
  destruct (decide (default EmptyString (split_underscore customId !! 0%nat)
                    = "leaderboard"));
    [split; [reflexivity | right; right; left; eexists; reflexivity]|].
  split; [reflexivity | right; right; right; reflexivity].
Qed.

Lemma short_custom_id_changes_nothing_witness :
  fst (on_button 0 "row-1" "alice" "shop_buy" shop_db) = shop_db.
Proof.
  apply (short_custom_id_changes_nothing 0 "row-1" "alice" "shop_buy" shop_db).
  vm_compute. lia.
Defined.

(** ** The [cooldown_restore] consumable *)

(** X24. Using a [cooldown_restore] consumable restores no cooldown. For an
    entry of the user's inventory whose item is a consumable with the
    effect [cooldown_restore], the use button answers that the cooldown of
    the command was reduced by the value of the item; yet every cooldown
    row is as before, [checkCooldown] answers as before for every user,
    command and instant, and a [/work] that was held back is held back
    with the same message. *)
Theorem cooldown_restore_restores_nothing (now : Z) (invItemId userId : string)
  (x : InvItem.t) (effect : Effect.t) (db : DB) :
  find (fun i => bool_decide (InvItem.id i = invItemId)) (getInventory userId db) = Some x ->
  effect_of_type "consumable" (InvItem.items x) = Some effect ->
  Effect.effect effect = "cooldown_restore" ->
  let used := inventory_handleButton now "use" invItemId userId db in
  snd used = CooldownReduced (Effect.command effect) (Effect.value effect) /\
  cooldowns (fst used) = cooldowns db /\
  (forall t u command,
     snd (checkCooldown t u command (fst used)) = snd (checkCooldown t u command db)) /\
  (forall t random u minutes,
     snd (work_execute t random u db) = OnCooldown minutes ->
     snd (work_execute t random u (fst used)) = OnCooldown minutes).
Proof.
  intros Hfind Heff Hkind used.
  assert (Hused : snd used = CooldownReduced (Effect.command effect) (Effect.value effect)
                  /\ cooldowns (fst used) = cooldowns db).
  { subst used. unfold inventory_handleButton. rewrite Hfind.
    destruct (decide ("use" = "sell")) as [Hc|_]; [discriminate Hc|].
    destruct (decide ("use" = "use")) as [_|Hc]; [|contradiction].
    unfold inventory_use. rewrite Heff.
    pose proof (find_Some_elem _ _ _ Hfind) as [Hx _].
    destruct (getProfile_frame userId db) as (Hi1 & Hv1 & _ & Hc1 & _).
    destruct (getProfile userId db) as [db1 profile]. cbn [fst snd] in *.
    destruct (decide (Effect.effect effect = "xp_grant")) as [Hc|_];
      [rewrite Hkind in Hc; discriminate Hc|].
    destruct (decide (Effect.effect effect = "daily_boost")) as [Hc|_];
      [rewrite Hkind in Hc; discriminate Hc|].
    destruct (decide (Effect.effect effect = "cooldown_restore")) as [_|Hc];
      [|contradiction].
    unfold inventory_consume.
    assert (Hx1 : x ∈ getInventory userId db1).
    { rewrite (getInventory_ext userId db db1) by congruence. exact Hx. }
    destruct (removeFromInventory_held userId db1 x Hx1) as [db3 Hrem]. rewrite Hrem.
    destruct (removeFromInventory_frame _ _ _ _ _ Hrem) as (_ & _ & _ & Hc3 & _).
    cbn [fst snd]. split; [reflexivity|]. cbn [logTransaction cooldowns with_transactions].
    congruence. }
  destruct Hused as [Hreply Hcd].
  assert (Hcheck : forall t u command,
            snd (checkCooldown t u command (fst used))
            = snd (checkCooldown t u command db)).
  { intros t u command. unfold checkCooldown. rewrite Hcd.
    destruct (cooldowns db !! (u, command)) as [e|]; [|reflexivity].
    destruct (t <? e); reflexivity. }
  split; [exact Hreply|]. split; [exact Hcd|]. split; [exact Hcheck|].
  intros t random u minutes. unfold work_execute.
  pose proof (Hcheck t u "work") as Hw.
  destruct (checkCooldown t u "work" db) as [db0 c], (checkCooldown t u "work" (fst used))
    as [db0' c']. cbn [fst snd] in Hw. subst c'.
  destruct c as [e|]; [intros H; exact H|].
  destruct (getProfile u db0) as [db1 profile]. destruct (work_boost _). discriminate.
Qed.

(** ** [getProfile]: get or create *)


(** ** [/daily]: what a grant credits *)



Lemma cooldown_restore_restores_nothing_witness :
  snd (inventory_handleButton 0 "use" "row-1" "alice" tonic_db) = CooldownReduced "work" 1 /\
  cooldowns (fst (inventory_handleButton 0 "use" "row-1" "alice" tonic_db))
  = cooldowns tonic_db.
Proof.
  assert (Hfind : find (fun i => bool_decide (InvItem.id i = "row-1"))
                       (getInventory "alice" tonic_db)
                  = Some (InvItem.mk "row-1" 1 energy_tonic)) by reflexivity.
  assert (Heff : effect_of_type "consumable" (InvItem.items (InvItem.mk "row-1" 1 energy_tonic))
                 = Some (Effect.mk "consumable" 1 "work" "cooldown_restore")) by reflexivity.
  destruct (cooldown_restore_restores_nothing 0 "row-1" "alice" _ _ tonic_db Hfind Heff
              eq_refl) as (Hr & Hc & _).
  split; [exact Hr | exact Hc].
Defined.

(** ** The seeded catalog against the effects the code reads *)

Lemma seeded_effect_unread (ty : string) (item : Item.t) (db : DB) :
  seeded_catalog db -> item ∈ items db -> ty ∉ seed_effect_types ->
  effect_of_type ty item = None.
Proof.
  intros Hseed Hitem Hty. unfold effect_of_type.
  destruct (Item.effect item) as [effect|] eqn:E; [|reflexivity].
  destruct (decide (Effect.type effect = ty)) as [<-|_]; [|reflexivity].
  exfalso. apply Hty. exact (Hseed item effect Hitem E).
Qed.

Lemma getInventory_items (userId : string) (db : DB) (x : InvItem.t) :
  x ∈ getInventory userId db -> InvItem.items x ∈ items db.
Proof.
  intros Hx. apply getInventory_elem in Hx as (r & _ & _ & Hj).
  apply join_item_spec in Hj as (_ & _ & _ & Hf).
  apply find_Some_elem in Hf as [Hin _]. exact Hin.
Qed.

Lemma unread_types_not_seeded :
  ("consumable" ∉ seed_effect_types) /\ ("rob_defense" ∉ seed_effect_types) /\
  ("cooldown_reduction" ∉ seed_effect_types).
Proof.
  repeat split; intros H; apply (bool_decide_pack _) in H; vm_compute in H; exact H.
Qed.

Lemma rob_defense_unread (l : list InvItem.t) :
  (forall x, x ∈ l -> effect_of_type "rob_defense" (InvItem.items x) = None) ->
  forall q, fold_left rob_defense_step l q = q.
Proof.
  induction l as [|x l IH]; intros Hnone q; [reflexivity|]. cbn [fold_left].
  unfold rob_defense_step at 2. rewrite (Hnone x) by left.
  apply IH. intros y Hy. apply Hnone. right. exact Hy.
Qed.

Lemma work_cooldown_unread (l : list InvItem.t) :
  (forall x, x ∈ l -> effect_of_type "cooldown_reduction" (InvItem.items x) = None) ->
  forall q, fold_left work_cooldown_step l q = q.
Proof.
  induction l as [|x l IH]; intros Hnone q; [reflexivity|]. cbn [fold_left].
  unfold work_cooldown_step at 2. rewrite (Hnone x) by left.
  apply IH. intros y Hy. apply Hnone. right. exact Hy.
Qed.

(** X27. The seeded catalog and the effects the handlers read. In a store
    whose items carry only the effect types the migration script seeds
    (or no effect), whatever the users hold: the use button consumes
    nothing, it answers that the entry was not found or that the item
    cannot be used and leaves the store as it is; the defense of every
    [/rob] target is 0, so the success rate is the base rate with its floor
    of 0.1; and no held item shortens the [/work] cooldown. *)
Theorem seeded_items_are_not_read (now : Z) (invItemId userId : string) (db : DB) :
  seeded_catalog db ->
  let used := inventory_handleButton now "use" invItemId userId db in
  fst used = db /\
  (snd used = NotInInventory \/ snd used = CannotBeUsed) /\
  rob_targetDefense (getInventory userId db) = 0%Q /\
  rob_actualSuccessRate (server_settings db) (rob_targetDefense (getInventory userId db))
  == Qmax 0.1 (rob_success_rate (server_settings db)) /\
  work_cooldownHours (server_settings db) (getInventory userId db)
  = inject_Z (work_cooldown_hours (server_settings db)).
Proof.
  intros Hseed used. destruct unread_types_not_seeded as (Hcons & Hrob & Hred).
  assert (Hnone : forall ty x,
            ty ∉ seed_effect_types -> x ∈ getInventory userId db ->
            effect_of_type ty (InvItem.items x) = None).
  { intros ty x Hty Hx. apply (seeded_effect_unread ty _ db Hseed); [|exact Hty].
    apply (getInventory_items userId), Hx. }
  assert (Hdef : rob_targetDefense (getInventory userId db) = 0%Q).
  { apply rob_defense_unread. intros x Hx. apply Hnone; assumption. }
  assert (Hcd : work_cooldownHours (server_settings db) (getInventory userId db)
                = inject_Z (work_cooldown_hours (server_settings db))).
  { apply work_cooldown_unread. intros x Hx. apply Hnone; assumption. }
  assert (Huse : fst used = db /\ (snd used = NotInInventory \/ snd used = CannotBeUsed)).
  { subst used. unfold inventory_handleButton.
    destruct (find _ (getInventory userId db)) as [x|] eqn:E; [|split; [|left]; reflexivity].
    destruct (decide ("use" = "sell")) as [Hc|_]; [discriminate Hc|].
    destruct (decide ("use" = "use")) as [_|Hc]; [|contradiction].
    unfold inventory_use. apply find_Some_elem in E as [Hx _].
    rewrite (Hnone "consumable" x Hcons Hx). split; [|right]; reflexivity. }
  destruct Huse as [Hf Hs]. split; [exact Hf|]. split; [exact Hs|]. split; [exact Hdef|].
  split; [|exact Hcd]. rewrite Hdef. unfold rob_actualSuccessRate.
  assert (E : rob_success_rate (server_settings db) - 0 == rob_success_rate (server_settings db))
    by ring.
  rewrite E. reflexivity.
Qed.

Lemma seeded_catalog_seeded_db : seeded_catalog seeded_db.
Proof.
  intros item effect Hitem Heff. unfold seeded_db in Hitem. cbn [items] in Hitem.
  unfold seed_effect_types.
  repeat (apply elem_of_cons in Hitem as [->|Hitem];
          [injection Heff as <-; apply (bool_decide_unpack _); vm_compute; exact I|]).
  inversion Hitem.
Qed.

Lemma seeded_items_are_not_read_witness :
  fst (inventory_handleButton 0 "use" "row-1" "alice" seeded_db) = seeded_db /\
  (snd (inventory_handleButton 0 "use" "row-1" "alice" seeded_db) = NotInInventory \/
   snd (inventory_handleButton 0 "use" "row-1" "alice" seeded_db) = CannotBeUsed).
Proof.
  destruct (seeded_items_are_not_read 0 "row-1" "alice" seeded_db seeded_catalog_seeded_db)
    as (Hf & Hs & _).
  split; [exact Hf | exact Hs].
Defined.
